(** * cryptoalgotrading: order execution and exit triggers

    A shallow embedding of [cryptoalgotrading/riskmanagement.py] (the
    [Bittrex] and [Binance] account classes) and of the functions of
    [cryptoalgotrading/aux.py] that work on numbers, strings and rows,
    followed by the properties the specification states about them and by
    further properties of the code.

    Layout:
    - Python exceptions and outcomes;
    - the arithmetic of Python numbers as an interface [PyFloat], with two
      instances: exact rationals ([Q]) and IEEE 754 binary64 ([float]),
      the latter being what CPython's [float] computes;
    - [aux.stop_loss] and [aux.trailing_stop_loss], over the arithmetic
      and, with int or float arguments, as Python evaluates them;
    - the [Bittrex] class ([__init__], [buy] and [sell]);
    - the [Binance] class over an exchange client given as an oracle that
      answers each request from the history of requests made so far
      ([get_ticker], which hands the client's answer on, is left out);
    - the [str] methods aux.py uses, and [check_market_name],
      [get_time_right], [detect_init], [num_processors] and [file_lines];
    - the theorems on the statements of the specification, then the
      further properties of riskmanagement.py and of aux.py.

    The thresholds and the risk of the configuration module [var], which
    is not part of the sources at hand, are parameters; so are the clock,
    the number of cores and the text of a file. *)

From Stdlib Require Import ZArith QArith Qround Qpower Floats Ascii String List Lia Lqa.
From stdpp Require Import base option gmap strings.
From Equations Require Import Equations.

Set Warnings "-inexact-float".

Open Scope Z_scope.

(** ** Exceptions and outcomes *)

(** The exceptions the modelled code can raise.  [ExchangeError] stands for
    whatever the exchange client raises (network fault, rejected order). *)
Inductive exn : Type :=
| KeyError (key : string)
| NameError (name : string)
| UnboundLocalError (name : string)
| ZeroDivisionError
| OverflowError
| TypeError
| IndexError
| ExchangeError (detail : string).

(** What evaluating a Python expression or call yields. *)
Inductive Outcome (A : Type) : Type :=
| Return (a : A)
| Raise (e : exn).
Arguments Return {A} a.
Arguments Raise {A} e.

Definition is_return {A : Type} (o : Outcome A) : bool :=
  match o with Return _ => true | Raise _ => false end.

(** ** Python numbers *)

(** The operations the modelled code applies to numbers.  [round] is the
    two-argument builtin; [fdiv] and [fmod] raise [ZeroDivisionError] on a
    zero divisor as Python's [/] and [%] do; [ftruth] is [bool(x)]. *)
Class PyFloat (F : Type) : Type := {
  lit : Q -> F;
  fadd : F -> F -> F;
  fsub : F -> F -> F;
  fmul : F -> F -> F;
  fdiv : F -> F -> Outcome F;
  fmod : F -> F -> Outcome F;
  flt : F -> F -> bool;
  fle : F -> F -> bool;
  ftruth : F -> bool;
  fround : F -> Z -> Outcome F
}.

(** [a > b], which Python evaluates as [b < a] on floats. *)
Definition fgt {F : Type} `{PyFloat F} (a b : F) : bool := flt b a.

(** Nearest integer to a rational, ties to the even neighbour. *)
Definition round_half_even (q : Q) : Z :=
  let n := Qnum q in
  let d := Zpos (Qden q) in
  let f := n / d in
  match (2 * (n mod d)) ?= d with
  | Lt => f
  | Gt => f + 1
  | Eq => if Z.even f then f else f + 1
  end.

Definition pow10 (p : Z) : Q := Qpower (10 # 1) p.

(** [x] rounded to [p] decimal places, as an exact rational. *)
Definition round_decimal (x : Q) (p : Z) : Q :=
  Qred (inject_Z (round_half_even (x * pow10 p)) / pow10 p).

(** *** Exact rationals *)

Module Exact.

Definition add (x y : Q) : Q := Qred (x + y).
Definition sub (x y : Q) : Q := Qred (x - y).
Definition mul (x y : Q) : Q := Qred (x * y).

Definition div (x y : Q) : Outcome Q :=
  if Qeq_bool y 0 then Raise ZeroDivisionError else Return (Qred (x / y)).

(** Python's [%]: the remainder has the sign of the divisor,
    [x - y * floor (x / y)]. *)
Definition mod_ (x y : Q) : Outcome Q :=
  if Qeq_bool y 0 then Raise ZeroDivisionError
  else Return (Qred (x - y * inject_Z (Qfloor (x / y)))).

Definition lt (x y : Q) : bool := negb (Qle_bool y x).
Definition le (x y : Q) : bool := Qle_bool x y.
Definition truth (x : Q) : bool := negb (Qeq_bool x 0).
Definition round (x : Q) (p : Z) : Outcome Q := Return (round_decimal x p).

End Exact.

#[export] Instance exact_float : PyFloat Q := {|
  lit := Qred;
  fadd := Exact.add;
  fsub := Exact.sub;
  fmul := Exact.mul;
  fdiv := Exact.div;
  fmod := Exact.mod_;
  flt := Exact.lt;
  fle := Exact.le;
  ftruth := Exact.truth;
  fround := Exact.round
|}.

(** *** IEEE 754 binary64, the arithmetic of CPython's [float] *)

Module Binary64.

(** An integer as an unbounded binary float. *)
Definition Z2SF (z : Z) : spec_float :=
  match z with
  | Z0 => S754_zero false
  | Zpos p => S754_finite false p 0
  | Zneg p => S754_finite true p 0
  end.

(** The double nearest a rational (ties to even): what parsing a decimal
    string gives. *)
Definition of_Q (q : Q) : float :=
  SF2Prim (SFdiv prec emax (Z2SF (Qnum q)) (Z2SF (Zpos (Qden q)))).

Definition signed (s : bool) (m : positive) : Z :=
  if s then Zneg m else Zpos m.

(** The exact value of a finite double. *)
Definition to_Q (x : float) : option Q :=
  match Prim2SF x with
  | S754_zero _ => Some 0%Q
  | S754_finite s m e => Some (Qred (inject_Z (signed s m) * Qpower (2 # 1) e))
  | _ => None
  end.

Definition is_neg (x : float) : bool :=
  match Prim2SF x with
  | S754_zero s | S754_infinity s | S754_finite s _ _ => s
  | S754_nan => false
  end.

Definition zero_of_sign (s : bool) : float :=
  if s then (-0)%float else 0%float.

Definition div (x y : float) : Outcome float :=
  if PrimFloat.eqb y 0%float then Raise ZeroDivisionError
  else Return (PrimFloat.div x y).

(** C's [fmod] on finite values: the exact remainder of the truncated
    quotient, with the sign of the dividend. *)
Definition c_fmod (x y : Q) : Q :=
  let q := (x / y)%Q in
  let t := if Qle_bool 0 q then Qfloor q else Qceiling q in
  Qred (x - y * inject_Z t).

(** [float_rem] of CPython's floatobject.c. *)
Definition mod_ (x y : float) : Outcome float :=
  if PrimFloat.eqb y 0%float then Raise ZeroDivisionError
  else
    let adjust (m : float) : float :=
      if PrimFloat.eqb m 0%float then zero_of_sign (is_neg y)
      else if Bool.eqb (PrimFloat.ltb y 0%float) (PrimFloat.ltb m 0%float) then m
      else PrimFloat.add m y in
    match to_Q x, to_Q y with
    | Some vx, Some vy => Return (adjust (of_Q (c_fmod vx vy)))
    | Some _, None =>
        if PrimFloat.eqb y y then Return (adjust x) else Return nan
    | None, _ => Return nan
    end.

(** [float.__round__] with an [ndigits] argument (floatobject.c): the
    exact value is rounded to [nd] decimals, ties to even, and the decimal
    obtained is read back as the nearest double. *)
Definition round (x : float) (nd : Z) : Outcome float :=
  match Prim2SF x with
  | S754_finite s m e =>
      if 323 <? nd then Return x
      else if nd <? -308 then Return (PrimFloat.mul 0%float x)
      else
        let v := (inject_Z (signed s m) * Qpower (2 # 1) e)%Q in
        let n := round_half_even (v * pow10 nd) in
        if n =? 0 then Return (zero_of_sign s)
        else
          let r := of_Q (inject_Z n / pow10 nd) in
          match Prim2SF r with
          | S754_infinity _ => Raise OverflowError
          | _ => Return r
          end
  | _ => Return x
  end.

End Binary64.

#[export] Instance binary64_float : PyFloat float := {|
  lit := Binary64.of_Q;
  fadd := PrimFloat.add;
  fsub := PrimFloat.sub;
  fmul := PrimFloat.mul;
  fdiv := Binary64.div;
  fmod := Binary64.mod_;
  flt := PrimFloat.ltb;
  fle := PrimFloat.leb;
  ftruth := fun x => negb (PrimFloat.eqb x 0%float);
  fround := Binary64.round
|}.

(** ** aux.py: the exit triggers *)

Module Aux.
Section Exit.
Context {F : Type} `{PyFloat F}.

(** [trailing_stop_loss(last, higher, percentage)]:
    [last <= higher * (1 - (percentage * 0.01))]. *)
Definition trailing_stop_loss (last higher percentage : F) : bool :=
  fle last (fmul higher (fsub (lit 1) (fmul percentage (lit (1 # 100))))).

(** [stop_loss(last, entry_point_x, percentage)]:
    [last <= entry_point_x * (1 - (percentage * 0.01))]. *)
Definition stop_loss (last entry_point_x percentage : F) : bool :=
  fle last (fmul entry_point_x (fsub (lit 1) (fmul percentage (lit (1 # 100))))).

(** The value both predicates compare the last price with. *)
Definition threshold (anchor percentage : F) : F :=
  fmul anchor (fsub (lit 1) (fmul percentage (lit (1 # 100)))).

End Exit.
End Aux.

(** ** aux.py: the exit triggers on ints and floats *)

(** The same two functions with each argument an [int] or a [float], as
    Python runs them: an [int] that meets a [float] in a product is
    converted to a [float], which raises OverflowError when it is too
    large; the comparison of an [int] with a [float] is exact. *)
Module AuxNum.

Inductive Num : Type :=
| Int (z : Z)
| Float (x : float).

(** The conversion of an operand of a float product: the nearest double,
    ties to even, or OverflowError past the largest one. *)
Definition as_float (n : Num) : Outcome float :=
  match n with
  | Float x => Return x
  | Int z =>
      let x := Binary64.of_Q (inject_Z z) in
      match Prim2SF x with
      | S754_infinity _ => Raise OverflowError
      | _ => Return x
      end
  end.

(** [n <= t] for a float [t]. *)
Definition le_float (n : Num) (t : float) : bool :=
  match n with
  | Float x => PrimFloat.leb x t
  | Int z =>
      match Prim2SF t with
      | S754_nan => false
      | S754_infinity s => negb s
      | S754_zero _ => (z <=? 0)%Z
      | S754_finite s m e =>
          Qle_bool (inject_Z z)
            (inject_Z (Binary64.signed s m) * Qpower (2 # 1) e)
      end
  end.

(** [anchor * (1 - (percentage * 0.01))]. *)
Definition threshold (anchor percentage : Num) : Outcome float :=
  match as_float percentage with
  | Raise e => Raise e
  | Return p =>
      match as_float anchor with
      | Raise e => Raise e
      | Return a =>
          Return (PrimFloat.mul a (PrimFloat.sub 1 (PrimFloat.mul p 0.01)))
      end
  end.

Definition trailing_stop_loss (last higher percentage : Num) : Outcome bool :=
  match threshold higher percentage with
  | Raise e => Raise e
  | Return t => Return (le_float last t)
  end.

Definition stop_loss (last entry_point_x percentage : Num) : Outcome bool :=
  match threshold entry_point_x percentage with
  | Raise e => Raise e
  | Return t => Return (le_float last t)
  end.

End AuxNum.

(** ** Strings *)

(** [s.split('-')[0]]: the characters before the first dash. *)
Fixpoint split_head (s : string) : string :=
  match s with
  | EmptyString => EmptyString
  | String c rest =>
      if Ascii.eqb c "-"%char then EmptyString else String c (split_head rest)
  end.

(** Left-to-right removal of the non-overlapping occurrences of [old];
    [skip] characters of a match are still to be dropped. *)
Fixpoint remove_from (old : string) (skip : nat) (s : string) : string :=
  match s with
  | EmptyString => EmptyString
  | String c rest =>
      match skip with
      | S k => remove_from old k rest
      | O =>
          if String.prefix old s
          then remove_from old (Nat.pred (String.length old)) rest
          else String c (remove_from old O rest)
      end
  end.

(** [s.replace(old, '')]; an empty [old] leaves [s] as it is. *)
Definition replace_empty (s old : string) : string :=
  match old with
  | EmptyString => s
  | String _ _ => remove_from old O s
  end.

(** ** A state and exception monad *)

Section Monad.
Context {W : Type}.

Definition M (A : Type) : Type := W -> Outcome A * W.

Definition ret {A : Type} (a : A) : M A := fun w => (Return a, w).
Definition raise {A : Type} (e : exn) : M A := fun w => (Raise e, w).

Definition bind {A B : Type} (c : M A) (k : A -> M B) : M B :=
  fun w =>
    match c w with
    | (Return a, w') => k a w'
    | (Raise e, w') => (Raise e, w')
    end.

(** [try: c except Exception as e: ...]: the outcome handed to the code
    after the [try]. *)
Definition try_ {A : Type} (c : M A) : M (Outcome A) :=
  fun w => let (o, w') := c w in (Return o, w').

Definition lift {A : Type} (o : Outcome A) : M A := fun w => (o, w).

Definition get : M W := fun w => (Return w, w).
Definition put (w : W) : M unit := fun _ => (Return tt, w).

End Monad.
Arguments M : clear implicits.

Notation "x <- c ;; k" := (bind c (fun x => k))
  (at level 100, c at next level, right associativity).
Notation "c ;;; k" := (bind c (fun _ => k))
  (at level 100, right associativity).

(** [m[k]] on a dict. *)
Definition getitem {V : Type} (m : gmap string V) (k : string) : Outcome V :=
  match m !! k with
  | Some v => Return v
  | None => Raise (KeyError k)
  end.

(** ** riskmanagement.py: names of the module *)

(** The names bound at module level in riskmanagement.py (its imports and
    its two classes).  Each is a module, a type or a class. *)
Definition module_globals : list string :=
  [ "time"; "Tuple"; "lib_bittrex"; "Bnb"; "var"; "aux"; "log";
    "Bittrex"; "Binance" ]%string.

(** Reading a name that is no local of the function, for use as a number:
    a name the module does not bind raises [NameError] (no builtin is
    called so either); one it binds is no number, and arithmetic on it
    raises [TypeError]. *)
Definition load_global {F : Type} (name : string) : Outcome F :=
  if existsb (String.eqb name) module_globals
  then Raise TypeError
  else Raise (NameError name).

(** ** riskmanagement.py: class Bittrex *)

Module Bittrex.
Section Account.
Context {F : Type} `{PyFloat F}.

(** Replies of the Bittrex client, with the fields [buy] reads. *)
Record BuyLimitReply : Type := {
  success : bool;          (* res["success"] *)
  message : string;        (* res["message"] *)
  uuid : string            (* res["result"]["uuid"] *)
}.

Record OrderReply : Type := {
  IsOpen : bool;           (* order["result"]["IsOpen"] *)
  PricePerUnit : F;
  Quantity : F
}.

Inductive Request : Type :=
| BuyLimit (market : string) (quantity rate : F)
| SellLimit (market : string) (quantity rate : F)
| GetOrder (id : string)
| Cancel (id : string).

(** [self.conn]: each reply may depend on the requests made before. *)
Record Client : Type := {
  buy_limit : list Request -> string -> F -> F -> Outcome BuyLimitReply;
  sell_limit : list Request -> string -> F -> F -> Outcome unit;
  get_order : list Request -> string -> Outcome OrderReply;
  cancel : list Request -> string -> Outcome string  (* cancel["message"] *)
}.

(** The fields of [self] that [buy] reads, and the requests sent so far. *)
Record World : Type := {
  min_limit : F;
  risk : F;
  available : gmap string F;
  calls : list Request
}.

(** Second component of the pair [buy] returns. *)
Inductive Info : Type :=
| Text (s : string)
| Paid (price quantity : F).

Variable conn : Client.

(** A request goes on the record, then the client answers it. *)
Definition call {A : Type} (r : Request)
    (answer : list Request -> Outcome A) : M World A :=
  fun w =>
    (answer (calls w),
     {| min_limit := min_limit w; risk := risk w;
        available := available w; calls := calls w ++ [r] |}).

Definition buy (coin : string) (amount price : F) : M World (bool * Info) :=
  w <- get ;;
  a <- lift (getitem (available w) (split_head coin)) ;;
  if fle a (min_limit w) then
    ret (false, Text "Cash under Minimum limit.")
  else
    a' <- lift (getitem (available w) (split_head coin)) ;;
    let to_spend := fmul a' (risk w) in
    rate <- lift (load_global "rate") ;;
    quantity <- lift (fdiv rate to_spend) ;;
    rate' <- lift (load_global "rate") ;;
    res <- call (BuyLimit coin quantity rate')
                (fun h => buy_limit conn h coin quantity rate') ;;
    if negb (success res) then
      ret (false, Text (message res))
    else
      (* [time.sleep(1)] changes nothing that is modelled *)
      order <- call (GetOrder (uuid res)) (fun h => get_order conn h (uuid res)) ;;
      if negb (IsOpen order) then
        ret (true, Paid (PricePerUnit order) (Quantity order))
      else
        msg <- call (Cancel (uuid res)) (fun h => cancel conn h (uuid res)) ;;
        ret (false, Text msg).

Definition sell (coin : string) (quantity rate : F) : M World bool :=
  call (SellLimit coin quantity rate)
       (fun h => sell_limit conn h coin quantity rate) ;;;
  ret true.

End Account.
End Bittrex.

(** ** riskmanagement.py: class Binance *)

Module Binance.

(** An order (or cancellation) payload: a dict of the exchange. *)
Abbreviation Payload := (gmap string string).

Section Account.
Context {F : Type} `{PyFloat F}.

(** *** What the exchange client exchanges with the class *)

(** One entry of [get_account()["balances"]]; [free] and [locked] are the
    numbers [float(...)] reads from the entry. *)
Record BalanceRow : Type := {
  asset : string;
  free : F;
  locked : F
}.

(** One entry of [d['filters']]; [stepSize] is absent from the filters
    that have none, and otherwise the number [float(...)] reads. *)
Record Filter : Type := {
  filterType : string;
  stepSize : option F
}.

(** [get_symbol_info(symbol)], when the symbol exists. *)
Record SymbolInfo : Type := {
  symbol : string;
  quoteAssetPrecision : Z;
  filters : list Filter
}.


Inductive Request : Type :=
| GetAccount
| OrderMarketBuy (sym : string) (quoteOrderQty : F)
| OrderLimitBuy (sym : string) (price quantity : F)
| OrderMarketSell (sym : string) (quantity : F)   (* the number [str] prints *)
| GetSymbolInfo (sym : string)
| CancelOrder (sym : string) (orderId : string).

(** [self.conn]: each reply may depend on the requests made before, and
    each call may raise. *)
Record Client : Type := {
  get_account : list Request -> Outcome (list BalanceRow);
  order_market_buy : list Request -> string -> F -> Outcome Payload;
  order_limit_buy : list Request -> string -> F -> F -> Outcome Payload;
  order_market_sell : list Request -> string -> F -> Outcome Payload;
  get_symbol_info : list Request -> string -> Outcome (option SymbolInfo);
  conn_cancel_order : list Request -> string -> string -> Outcome Payload
}.

(** *** The object *)

(** The dict [asset_info] returns ([self.assets[c]['info']] once filled). *)
Record AssetInfo : Type := {
  info_symbol : string;
  precision : Z;
  lot_size : F;
  more : SymbolInfo
}.

(** An entry of [self.assets]; [info = None] is the empty dict. *)
Record Asset : Type := {
  available : F;
  pending : F;
  info : option AssetInfo
}.

(** [self], and the requests sent to the exchange so far. *)
Record World : Type := {
  min_limit : gmap string F;
  coin_precision : gmap string Z;
  risk : F;
  assets : gmap string Asset;
  calls : list Request
}.

Definition set_assets (a : gmap string Asset) (w : World) : World :=
  {| min_limit := min_limit w; coin_precision := coin_precision w;
     risk := risk w; assets := a; calls := calls w |}.

Definition log_call (r : Request) (w : World) : World :=
  {| min_limit := min_limit w; coin_precision := coin_precision w;
     risk := risk w; assets := assets w; calls := calls w ++ [r] |}.

(** [__init__] before [init_balance]: the two thresholds and the risk
    come from the configuration module [var]. *)
Definition new (usdt_min btc_min risk_ : F) : World :=
  {| min_limit := <["USDT" := usdt_min]> (<["BTC" := btc_min]> ∅);
     coin_precision := <["USDT" := 2]> (<["BTC" := 8]> ∅);
     risk := risk_;
     assets := ∅;
     calls := [] |}.

Variable conn : Client.

(** A request goes on the record, then the client answers it. *)
Definition call {A : Type} (r : Request)
    (answer : list Request -> Outcome A) : M World A :=
  fun w => (answer (calls w), log_call r w).

(** [self.assets[k]]. *)
Definition asset_of (k : string) : M World Asset :=
  w <- get ;; lift (getitem (assets w) k).

(** *** init_balance and refresh_balance *)

Definition fresh_asset (row : BalanceRow) : Asset :=
  {| available := free row; pending := locked row; info := None |}.

Definition init_row (a : gmap string Asset) (row : BalanceRow) : gmap string Asset :=
  <[asset row := fresh_asset row]> a.

Definition init_balance : M World unit :=
  rows <- call GetAccount (get_account conn) ;;
  w <- get ;;
  put (set_assets (fold_left init_row rows (assets w)) w).

(** The body of the loop of [refresh_balance]: a known asset keeps its
    [info]; the [except] branch adds an unknown one. *)
Definition refresh_row (a : gmap string Asset) (row : BalanceRow) : gmap string Asset :=
  match a !! asset row with
  | Some old =>
      <[asset row := {| available := free row; pending := locked row;
                        info := info old |}]> a
  | None => <[asset row := fresh_asset row]> a
  end.

Definition refresh_balance : M World unit :=
  rows <- call GetAccount (get_account conn) ;;
  w <- get ;;
  put (set_assets (fold_left refresh_row rows (assets w)) w).

(** *** get_balances *)

(** The argument [coins]: [None], a string, or a list of strings. *)
Inductive Coins : Type :=
| NoCoins
| OneCoin (c : string)
| ManyCoins (cs : list string).

(** [not coins]. *)
Definition no_coins (c : Coins) : bool :=
  match c with
  | NoCoins => true
  | OneCoin s => match s with EmptyString => true | String _ _ => false end
  | ManyCoins cs => match cs with [] => true | _ => false end
  end.

(** What [get_balances] returns: always a dict, never a pair. *)
Inductive Balances : Type :=
| AllAssets (a : gmap string Asset)
| SomeAssets (a : gmap string Asset)
| OneAsset (a : Asset).

(** [{coin: self.assets[coin] for coin in coins}]. *)
Fixpoint pick (a : gmap string Asset) (cs : list string)
    (acc : gmap string Asset) : Outcome (gmap string Asset) :=
  match cs with
  | [] => Return acc
  | c :: rest =>
      match getitem a c with
      | Return v => pick a rest (<[c := v]> acc)
      | Raise e => Raise e
      end
  end.

Definition get_balances (coins : Coins) : M World Balances :=
  refresh_balance ;;;
  w <- get ;;
  if no_coins coins then ret (AllAssets (assets w))
  else
    match coins with
    | ManyCoins cs => r <- lift (pick (assets w) cs ∅) ;; ret (SomeAssets r)
    | OneCoin c => r <- lift (getitem (assets w) c) ;; ret (OneAsset r)
    | NoCoins => ret (AllAssets (assets w))
    end.

(** *** asset_info *)

(** [[a['stepSize'] for a in d['filters'] if a['filterType'] == 'LOT_SIZE']]. *)
Fixpoint lot_steps (fs : list Filter) : Outcome (list F) :=
  match fs with
  | [] => Return []
  | a :: rest =>
      if String.eqb (filterType a) "LOT_SIZE" then
        match stepSize a with
        | None => Raise (KeyError "stepSize")
        | Some s =>
            match lot_steps rest with
            | Return l => Return (s :: l)
            | Raise e => Raise e
            end
        end
      else lot_steps rest
  end.

Definition asset_info (sym : string) : M World AssetInfo :=
  d <- call (GetSymbolInfo sym) (fun h => get_symbol_info conn h sym) ;;
  match d with
  | None => raise TypeError       (* None is not subscriptable *)
  | Some d =>
      steps <- lift (lot_steps (filters d)) ;;
      match steps with
      | [] => raise IndexError
      | step :: _ =>
          ret {| info_symbol := symbol d;
                 precision := quoteAssetPrecision d;
                 lot_size := step;
                 more := d |}
      end
  end.

(** *** buy *)

(** Second component of the pair [buy] returns: [{'error': text}],
    [{'error': e}] or the order payload itself. *)
Inductive BuyInfo : Type :=
| BuyErrorText (s : string)
| BuyErrorExn (e : exn)
| BuyOrder (p : Payload).

(** The [try] block of [buy]: the one placement call. *)
Definition place_buy (coin currency : string) (price quantity_to_buy : F)
    : M World Payload :=
  w <- get ;;
  if negb (ftruth price) then
    p <- lift (getitem (coin_precision w) currency) ;;
    q <- lift (fround quantity_to_buy p) ;;
    call (OrderMarketBuy coin q) (fun h => order_market_buy conn h coin q)
  else
    d <- lift (fdiv quantity_to_buy price) ;;
    p <- lift (getitem (coin_precision w) currency) ;;
    q <- lift (fround d p) ;;
    call (OrderLimitBuy coin price q)
         (fun h => order_limit_buy conn h coin price q).

(** [self.assets[k]['info'] = i]. *)
Definition set_info (k : string) (i : AssetInfo) : M World unit :=
  w <- get ;;
  match assets w !! k with
  | None => raise (KeyError k)
  | Some old =>
      put (set_assets
             (<[k := {| available := available old; pending := pending old;
                        info := Some i |}]> (assets w)) w)
  end.

(** [cur_balance]: available plus pending of the quote currency. *)
Definition cur_balance (a : Asset) : F := fadd (available a) (pending a).

(** [quantity_to_buy = cur_balance * self.risk]. *)
Definition quantity_to_buy (a : Asset) (risk_ : F) : F :=
  fmul (cur_balance a) risk_.

(** Lines 142 to 155, from the refresh to the budget check: either one of
    the two early returns, or the amount the order is sized at.  The
    subscripts [self.assets[currency]] of lines 145, 146 and 154 read one
    unchanged entry: [a]. *)
Definition buy_size (currency : string) : M World (bool * BuyInfo + F) :=
  refresh_balance ;;;
  a <- asset_of currency ;;
  w <- get ;;
  m <- lift (getitem (min_limit w) currency) ;;
  if flt (cur_balance a) m then
    ret (inl (false, BuyErrorText "Insufficient funds"))
  else
    if fgt (quantity_to_buy a (risk w)) (available a) then
      ret (inl (false, BuyErrorText "Portfolio has no space for new assets"))
    else
      ret (inr (quantity_to_buy a (risk w))).

(** Lines 171 to 177, "Tests buy". *)
Definition settle_buy (coin currency : string) (buy_order : Payload)
    : M World (bool * BuyInfo) :=
  status <- lift (getitem buy_order "status") ;;
  if String.eqb status "FILLED" then
    i <- asset_info coin ;;
    set_info (replace_empty coin currency) i ;;;
    ret (true, BuyOrder buy_order)
  else
    ret (false, BuyOrder buy_order).

(** Lines 157 to 177: the [try] around the placement, then the test of
    the order. *)
Definition buy_submit (coin currency : string) (price q : F)
    : M World (bool * BuyInfo) :=
  placed <- try_ (place_buy coin currency price q) ;;
  match placed with
  | Raise e => ret (false, BuyErrorExn e)
  | Return buy_order => settle_buy coin currency buy_order
  end.

Definition buy (coin currency : string) (price : F) : M World (bool * BuyInfo) :=
  sized <- buy_size currency ;;
  match sized with
  | inl early => ret early
  | inr q => buy_submit coin currency price q
  end.

(** *** sell *)

(** Second component of the pair [sell] returns: the dict of the
    [except] branch, or the order payload. *)
Inductive SellInfo : Type :=
| SellError (error : exn) (coin : string) (prec : F) (avail : F)
            (more_info : option AssetInfo)
| SellOrder (p : Payload).

(** [self.assets[k]['info'][field]]: the empty dict has no field. *)
Definition info_field {A : Type} (k field : string) (proj : AssetInfo -> A)
    : M World A :=
  a <- asset_of k ;;
  match info a with
  | None => raise (KeyError field)
  | Some i => ret (proj i)
  end.

(** The expression assigned to [prec_quantity]:
    [round(available - (available % lot_size), precision)], every
    subscript reading the one entry of the base asset. *)
Definition prec_quantity_of (base : string) : M World F :=
  a <- asset_of base ;;
  lot <- info_field base "lot_size" lot_size ;;
  r <- lift (fmod (available a) lot) ;;
  p <- info_field base "precision" precision ;;
  lift (fround (fsub (available a) r) p).

Definition sell (coin currency : string) (quantity : F) : M World (bool * SellInfo) :=
  refresh_balance ;;;
  if negb (ftruth quantity) then
    let base := replace_empty coin currency in
    assigned <- try_ (prec_quantity_of base) ;;
    match assigned with
    | Raise _ =>
        (* the handler reads [prec_quantity], which was never bound *)
        raise (UnboundLocalError "prec_quantity")
    | Return prec_quantity =>
        sold <- try_ (call (OrderMarketSell coin prec_quantity)
                        (fun h => order_market_sell conn h coin prec_quantity)) ;;
        match sold with
        | Raise e =>
            a <- asset_of base ;;
            ret (false, SellError e coin prec_quantity (available a) (info a))
        | Return sell_order => ret (true, SellOrder sell_order)
        end
    end
  else
    (* [return True, sell_order] with [sell_order] never bound *)
    raise (UnboundLocalError "sell_order").

(** *** cancel_order (the second definition of the class, which replaces
    the first) *)

Definition cancel_order (sym order_id : string) : M World Payload :=
  call (CancelOrder sym order_id)
       (fun h => conn_cancel_order conn h sym order_id).

End Account.
End Binance.

(** ** Observations on a run *)

Module Run.
Import Binance.
Section Observe.
Context {F : Type} `{PyFloat F}.

(** The requests that place an order. *)
Definition is_order (r : @Request F) : bool :=
  match r with
  | OrderMarketBuy _ _ | OrderLimitBuy _ _ _ | OrderMarketSell _ _ => true
  | _ => false
  end.

Definition orders (h : list (@Request F)) : list Request :=
  List.filter is_order h.

(** The quote amount committed by the market buys of a history. *)
Definition spent (h : list (@Request F)) : F :=
  fold_left (fun acc r =>
               match r with
               | OrderMarketBuy _ q => fadd acc q
               | _ => acc
               end) h (lit 0).

(** The world after a refresh that the exchange answered with [rows]. *)
Definition refreshed (rows : list BalanceRow) (w : @World F) : World :=
  set_assets (fold_left refresh_row rows (assets w)) (log_call GetAccount w).

(** What a refresh does to the entry of one asset [c]: [refresh_row] seen
    through [self.assets.get(c)]. *)
Definition info_of (o : option (@Asset F)) : option AssetInfo :=
  match o with
  | Some a => info a
  | None => None
  end.

Definition refresh_entry (c : string) (o : option (@Asset F)) (row : BalanceRow)
    : option Asset :=
  if String.eqb (asset row) c
  then Some {| available := free row; pending := locked row; info := info_of o |}
  else o.



(** *** Exchanges to run the class against *)

Definition payload_with_status (s : string) : Payload := {[ "status" := s ]}.

(** An exchange whose answers do not depend on the requests. *)
Definition steady (rows : list BalanceRow) (order : Outcome Payload)
    (sym : Outcome (option SymbolInfo)) : @Client F :=
  {| get_account := fun _ => Return rows;
     order_market_buy := fun _ _ _ => order;
     order_limit_buy := fun _ _ _ _ => order;
     order_market_sell := fun _ _ _ => order;
     get_symbol_info := fun _ _ => sym;
     conn_cancel_order := fun _ _ _ => order |}.

Definition lot_filter (step : F) : Filter :=
  {| filterType := "LOT_SIZE"; stepSize := Some step |}.

(** An exchange that fills every market buy and takes its quote amount
    off the free USDT balance it reports afterwards. *)
Definition debiting (usdt : F) : @Client F :=
  {| get_account := fun h =>
       Return [ {| asset := "USDT"; free := fsub usdt (spent h); locked := lit 0 |};
                {| asset := "BTC"; free := lit 0; locked := lit 0 |} ];
     order_market_buy := fun _ _ _ => Return (payload_with_status "FILLED");
     order_limit_buy := fun _ _ _ _ => Return (payload_with_status "NEW");
     order_market_sell := fun _ _ _ => Return (payload_with_status "FILLED");
     get_symbol_info := fun _ s =>
       Return (Some {| symbol := s; quoteAssetPrecision := 8;
                       filters := [lot_filter (lit (1 # 100000))] |});
     conn_cancel_order := fun _ _ _ => Return (payload_with_status "CANCELED") |}.

End Observe.
End Run.

(** ** Accounts and exchanges of the examples *)

Module Scenario.
Import Binance Run.
Section Examples.
Context {F : Type} `{PyFloat F}.

(** What [get_account] lists: the USDT balance and an empty BTC one. *)
Definition usdt_account (free_ locked_ : Q) : list (@BalanceRow F) :=
  [ {| asset := "USDT"; free := lit free_; locked := lit locked_ |};
    {| asset := "BTC"; free := lit 0; locked := lit 0 |} ].

(** An exchange with that account which answers every order with a
    payload of the given status and knows no symbol. *)
Definition quiet (free_ locked_ : Q) (status : string) : @Client F :=
  steady (usdt_account free_ locked_)
         (Return (payload_with_status status)) (Return None).

(** [Binance()] against the exchange [conn], with [usdt_min = 50],
    [btc_min = 0.001] and the given risk in the configuration: [__init__]
    sets the fields and runs [init_balance]. *)
Definition started (conn : @Client F) (risk_ : Q) : @World F :=
  snd (init_balance conn (new (lit 50) (lit (1 # 1000)) (lit risk_))).

(** An exchange with that account which fills every order and then fails
    to answer the symbol lookup. *)
Definition filled_then_down (free_ locked_ : Q) : @Client F :=
  steady (usdt_account free_ locked_)
         (Return (payload_with_status "FILLED"))
         (Raise (ExchangeError "symbol lookup timed out")).

(** What [get_account] lists for a holder of USDT and BTC. *)
Definition btc_account (usdt btc : Q) : list (@BalanceRow F) :=
  [ {| asset := "USDT"; free := lit usdt; locked := lit 0 |};
    {| asset := "BTC"; free := lit btc; locked := lit 0 |} ].

(** What [get_symbol_info] tells of BTCUSDT, with the given step size and
    precision. *)
Definition btc_symbol (lot : Q) (p : Z) : @SymbolInfo F :=
  {| symbol := "BTCUSDT"; quoteAssetPrecision := p;
     filters := [ {| filterType := "PRICE_FILTER"; stepSize := None |};
                  lot_filter (lit lot) ] |}.

(** An exchange with that account and that symbol which fills every
    order. *)
Definition lot_market (usdt btc lot : Q) (p : Z) : @Client F :=
  steady (btc_account usdt btc) (Return (payload_with_status "FILLED"))
         (Return (Some (btc_symbol lot p))).

(** The metadata [asset_info] stores for BTCUSDT on that exchange. *)
Definition btc_info (lot : Q) (p : Z) : @AssetInfo F :=
  {| info_symbol := "BTCUSDT"; precision := p; lot_size := lit lot;
     more := btc_symbol lot p |}.

(** The object once a first market buy of BTCUSDT has been filled: the
    ledger holds the metadata of the pair. *)
Definition after_purchase (conn : @Client F) : @World F :=
  snd (buy conn "BTCUSDT" "USDT" (lit 0) (started conn (1 # 2))).

(** An exchange with that account which rejects every order and every
    cancellation by raising. *)
Definition rejecting (free_ locked_ : Q) : @Client F :=
  steady (usdt_account free_ locked_)
         (Raise (ExchangeError "rejected")) (Return None).

(** A ledger entry without trading metadata. *)
Definition plain (free_ locked_ : Q) : @Asset F :=
  {| available := lit free_; pending := lit locked_; info := None |}.

End Examples.
End Scenario.

(** ** A Bittrex account of the examples *)

Module BittrexScenario.
Import Bittrex.
Section Examples.
Context {F : Type} `{PyFloat F}.

(** A client that accepts and closes every order. *)
Definition obliging : @Client F :=
  {| buy_limit := fun _ _ _ _ =>
       Return {| success := true; message := "ok"; uuid := "order-1" |};
     sell_limit := fun _ _ _ _ => Return tt;
     get_order := fun _ _ =>
       Return {| IsOpen := false; PricePerUnit := lit 1; Quantity := lit 1 |};
     cancel := fun _ _ => Return "cancelled" |}.

(** [self] with a minimum of 50, a risk of 0.5 and one balance. *)
Definition funded (currency : string) (amount : Q) : @World F :=
  {| min_limit := lit 50; risk := lit (1 # 2);
     available := {[ currency := lit amount ]}; calls := [] |}.

End Examples.
End BittrexScenario.

(** ** The sizing rule of the specification *)

(** From the specification (section 4.2, steps 4 and 5), in exact
    arithmetic: a limit buy divides the spend by the limit price, takes
    the nearest multiple of the lot size at or below the result
    ([quantity - (quantity mod L)]) and rounds it to [p] decimals. *)
Definition spec_limit_quantity (spend price lot : Q) (p : Z) : Q :=
  let quantity := (spend / price)%Q in
  let remainder := (quantity - lot * inject_Z (Qfloor (quantity / lot)))%Q in
  round_decimal (quantity - remainder) p.

(** ** riskmanagement.py: Binance.sell_all *)

Module BinanceAll.
Import Binance.
Section Account.
Context {F : Type} `{PyFloat F}.
Variable conn : @Client F.

(** The body of the loop of [sell_all]: [self.sell(coin)], with the
    defaults [currency='USDT'] and [quantity=0], for every coin with a
    positive available balance. *)
Fixpoint sell_each (coins : list string) : M World unit :=
  match coins with
  | [] => ret tt
  | coin :: rest =>
      a <- asset_of coin ;;
      (if fgt (available a) (lit 0)
       then (sell conn coin "USDT" (lit 0) ;;; ret tt)
       else ret tt) ;;;
      sell_each rest
  end.

(** [sell_all]: the loop runs over [self.assets()], the call of a dict,
    which raises TypeError. *)
Definition sell_all : M World bool :=
  refresh_balance conn ;;;
  coins <- raise TypeError ;;
  sell_each coins ;;;
  ret true.

End Account.
End BinanceAll.

(** ** riskmanagement.py: Bittrex.__init__ *)

Module BittrexInit.
Import Bittrex.
Section Account.
Context {F : Type} `{PyFloat F}.

(** One entry of [self.conn.get_balances()["result"]]. *)
Record BalanceEntry : Type := {
  Currency : string;
  Available : F
}.

(** One step of the dict comprehension
    [{i["Currency"]: i["Available"] for i in ... if i["Available"] > 0}]. *)
Definition keep_positive (m : gmap string F) (i : BalanceEntry) : gmap string F :=
  if fgt (Available i) (lit 0) then <[Currency i := Available i]> m else m.

(** [__init__], given the minimum and the risk of the configuration and
    what [get_balances] answered. *)
Definition init (usdt_min risk_ : F) (balances : list BalanceEntry) : @World F :=
  {| min_limit := usdt_min;
     risk := risk_;
     available := fold_left keep_positive balances ∅;
     calls := [] |}.

(** The amounts the comprehension puts under the key [c], in the order of
    the reply. *)
Definition stored_under (c : string) (balances : list BalanceEntry)
    : list F :=
  Available <$>
    List.filter (fun i => fgt (Available i) (lit 0) && String.eqb (Currency i) c)
      balances.

End Account.
End BittrexInit.

(** ** Observations on the ledger *)

Module Ledger.
Import Binance.
Section Observe.
Context {F : Type} `{PyFloat F}.

(** The amounts of an entry of [self.assets], without its metadata. *)
Definition balance_of (o : option (@Asset F)) : option (F * F) :=
  match o with
  | Some a => Some (available a, pending a)
  | None => None
  end.

(** The fields [__init__] takes from the configuration. *)
Definition configuration (w : @World F) : gmap string F * gmap string Z * F :=
  (min_limit w, coin_precision w, risk w).

(** [asset] is listed by one of the rows. *)
Definition listed (c : string) (rows : list (@BalanceRow F)) : bool :=
  existsb (fun row => String.eqb (asset row) c) rows.

(** What [init_balance] does to the entry of one asset [c]. *)
Definition init_entry (c : string) (o : option (@Asset F)) (row : BalanceRow)
    : option Asset :=
  if String.eqb (asset row) c then Some (fresh_asset row) else o.

(** A computation leaves the world within the relation [R]. *)
Definition respects {A : Type} (R : @World F -> @World F -> Prop)
    (c : M (@World F) A) : Prop :=
  forall w, R w (snd (c w)).

(** The configuration is the same in both worlds. *)
Definition same_configuration (w w' : @World F) : Prop :=
  configuration w' = configuration w.

(** Every asset has the same amounts in both worlds. *)
Definition same_balances (w w' : @World F) : Prop :=
  forall k : string, balance_of (assets w' !! k) = balance_of (assets w !! k).

End Observe.
End Ledger.

(** ** Python strings *)

(** The [str] operations aux.py uses.  A [str] is the sequence of its
    code points; the type [ascii] holds the code points below 256. *)
Module PyStr.

(** Some character of [s] satisfies [p]. *)
Fixpoint any_char (p : ascii -> bool) (s : string) : bool :=
  match s with
  | EmptyString => false
  | String c rest => p c || any_char p rest
  end.

(** [c in s] for a one-character string [c]. *)
Definition has_char (c : ascii) (s : string) : bool :=
  any_char (fun d => Ascii.eqb d c) s.

(** [c.isspace()]: the code points below 256 that Unicode classes as
    white space (tab to carriage return, the four separators 28 to 31,
    space, next line and no-break space). *)
Definition isspace (c : ascii) : bool :=
  let n := N_of_ascii c in
  (((9 <=? n) && (n <=? 13)) || ((28 <=? n) && (n <=? 32))
   || (n =? 133) || (n =? 160))%N.

(** Cutting [s] at every character that satisfies [p]: the field that
    starts [s], then the later fields. *)
Fixpoint split_where (p : ascii -> bool) (s : string) : string * list string :=
  match s with
  | EmptyString => (EmptyString, [])
  | String c rest =>
      let (w, ws) := split_where p rest in
      if p c then (EmptyString, w :: ws) else (String c w, ws)
  end.

(** [s.split(sep)] for a one-character [sep]. *)
Definition split_on (sep : ascii) (s : string) : list string :=
  let (w, ws) := split_where (fun c => Ascii.eqb c sep) s in w :: ws.

Definition nonempty (s : string) : bool :=
  match s with EmptyString => false | String _ _ => true end.

(** [s.split()]: the maximal runs of characters that are no white space,
    which are the non-empty fields between white-space characters. *)
Definition split (s : string) : list string :=
  let (w, ws) := split_where isspace s in List.filter nonempty (w :: ws).

(** [c.upper()] on the letters a to z. *)
Definition upper_char (c : ascii) : ascii :=
  let n := N_of_ascii c in
  if ((97 <=? n) && (n <=? 122))%N then ascii_of_N (n - 32) else c.

(** [s.upper()] for a string of ASCII characters, where only the letters
    a to z change. *)
Fixpoint upper (s : string) : string :=
  match s with
  | EmptyString => EmptyString
  | String c rest => String (upper_char c) (upper rest)
  end.

(** Every character of [s] is an ASCII character. *)
Definition ascii_only (s : string) : bool :=
  negb (any_char (fun c => (128 <=? N_of_ascii c)%N) s).

End PyStr.

(** ** aux.py: market names, dates, data and resources *)

Module AuxLib.
Import PyStr.

(** [check_market_name(market, exchange)]; the function falls off its end,
    and so returns None, for any other exchange. *)
Definition check_market_name (market exchange : string) : option string :=
  let market := upper market in
  if String.eqb exchange "binance" then Some market
  else if String.eqb exchange "bittrex" then
    if has_char "-" market then Some market
    else Some ("BTC-" +:+ market)
  else None.

(** What a call of [get_time_right] comes to. *)
Inductive Parsed (A : Type) : Type :=
| Ok (a : A)
| ValueError                          (* an unpacking of the wrong length *)
| UnboundLocal (name : string).
Arguments Ok {A} a.
Arguments ValueError {A}.
Arguments UnboundLocal {A} name.

(** [a, b = l]. *)
Definition unpack2 (l : list string) : Parsed (string * string) :=
  match l with
  | [a; b] => Ok (a, b)
  | _ => ValueError
  end.

(** [try: t_day, t_month, t_year = t_date.split(sep)] and its handler,
    which unpacks two fields and takes the year from the clock. *)
Definition day_month_year (this_year : string) (sep : ascii) (t_date : string)
    : Parsed (string * string * string) :=
  match split_on sep t_date with
  | [t_day; t_month; t_year] => Ok (t_day, t_month, t_year)
  | l =>
      match unpack2 l with
      | Ok (t_day, t_month) => Ok (t_day, t_month, this_year)
      | ValueError => ValueError
      | UnboundLocal n => UnboundLocal n
      end
  end.

(** [get_time_right(date_n_time)], with [str(localtime()[0])] as
    [this_year].  The three names of the date stay unbound when the
    argument has neither dash nor slash; the first one read is [t_year]. *)
Definition get_time_right (this_year date_n_time : string) : Parsed string :=
  match (if has_char " " date_n_time then unpack2 (split date_n_time)
         else Ok (date_n_time, "00:00"%string)) with
  | Ok (t_date, t_time) =>
      let date :=
        if has_char "-" date_n_time
        then match day_month_year this_year "-" t_date with
             | Ok d => Ok (Some d)
             | ValueError => ValueError
             | UnboundLocal n => UnboundLocal n
             end
        else if has_char "/" date_n_time
        then match day_month_year this_year "/" t_date with
             | Ok d => Ok (Some d)
             | ValueError => ValueError
             | UnboundLocal n => UnboundLocal n
             end
        else Ok None in
      match date with
      | Ok bound =>
          match unpack2 (split_on ":" t_time) with
          | Ok (t_hour, t_minute) =>
              match bound with
              | Some (t_day, t_month, t_year) =>
                  Ok (t_year +:+ "-" +:+ t_month +:+ "-" +:+ t_day +:+ "T"
                      +:+ t_hour +:+ ":" +:+ t_minute +:+ ":00Z")
              | None => UnboundLocal "t_year"
              end
          | ValueError => ValueError
          | UnboundLocal n => UnboundLocal n
          end
      | ValueError => ValueError
      | UnboundLocal n => UnboundLocal n
      end
  | ValueError => ValueError
  | UnboundLocal n => UnboundLocal n
  end.

(** A string that can stand between separators [sep]: it has no white
    space and no [sep]. *)
Definition date_field (sep : ascii) (s : string) : bool :=
  negb (any_char isspace s) && negb (has_char sep s).

(** [detect_init(data)] on a frame given as the list of its rows, with
    the column [Last] as a function of the row. *)
Section Frames.
Variable Row : Type.
Variable Last : Row -> float.



End Frames.

(** The argument of [num_processors]: a string, an int (which a bool is)
    or something else. *)
Inductive Level : Type :=
| LevelStr (s : string)
| LevelInt (n : Z)
| LevelOther.

(** [level == s] for a string [s]. *)
Definition level_is (level : Level) (s : string) : bool :=
  match level with
  | LevelStr t => String.eqb t s
  | LevelInt _ | LevelOther => false
  end.

(** [isinstance(level, int) and 0 < level <= mp]. *)
Definition level_in_range (level : Level) (mp : Z) : bool :=
  match level with
  | LevelInt n => (0 <? n) && (n <=? mp)
  | LevelStr _ | LevelOther => false
  end.

(** [num_processors(level)], with [mp] what [cpu_count()] returns.
    [int(mp / 2)] is the quotient truncated towards zero: the float
    division is exact for the integers below 2^53. *)
Definition num_processors (mp : Z) (level : Level) : Z :=
  if level_is level "low" then 1
  else if level_is level "high" then mp - 1
  else if existsb (level_is level) ["extreme"; "max"]%string then mp
  else if level_in_range level mp then
    match level with
    | LevelInt n => n
    | LevelStr _ | LevelOther => 0
    end
  else Z.quot mp 2.

(** The characters ['\n'] and ['\r']. *)
Definition newline : ascii := ascii_of_N 10.
Definition carriage_return : ascii := ascii_of_N 13.

(** What [open(filename)] makes of the characters of the file: in text
    mode, with the default [newline=None], '\r\n' and a lone '\r' are read
    as '\n'.  [after_cr] tells that the character before was a '\r', whose
    '\n' is out already. *)
Fixpoint translate (after_cr : bool) (chars : list ascii) : list ascii :=
  match chars with
  | [] => []
  | c :: rest =>
      if Ascii.eqb c carriage_return then newline :: translate true rest
      else if Ascii.eqb c newline then
        if after_cr then translate false rest else newline :: translate false rest
      else c :: translate false rest
  end.

Definition universal_newlines (chars : list ascii) : list ascii :=
  translate false chars.

(** [buf.count(c)] for a one-character [c]. *)
Definition count_char (c : ascii) (buf : list ascii) : Z :=
  Z.of_nat (length (List.filter (Ascii.eqb c) buf)).

(** [buf.count('\n')]. *)
Definition count_newlines (buf : list ascii) : Z := count_char newline buf.

(** The places of the file where a '\r' stands right before a '\n'. *)
Definition is_crlf (pair : ascii * ascii) : bool :=
  Ascii.eqb (fst pair) carriage_return && Ascii.eqb (snd pair) newline.

Definition crlf_pairs (chars : list ascii) : Z :=
  Z.of_nat (length (List.filter is_crlf (zip chars (tail chars)))).

Definition starts_with (c : ascii) (chars : list ascii) : bool :=
  match chars with
  | d :: _ => Ascii.eqb d c
  | [] => false
  end.

(** The last character of [chars] is a '\r'; [after_cr] when there is
    none. *)
Definition ends_with_cr (after_cr : bool) (chars : list ascii) : bool :=
  match last chars with
  | Some c => Ascii.eqb c carriage_return
  | None => after_cr
  end.

Definition inspect {A : Type} (a : A) : { b : A | a = b } := exist _ a eq_refl.

(** The loop of [file_lines] over the text still to be read:
    [read_f(buf_size)] takes the next [buf_size] characters, fewer at the
    end of the file, and the loop ends on the empty string. *)
Equations file_lines_loop (buf_size : nat) (rest : list ascii) (lines : Z) : Z
    by wf (length rest) lt :=
  file_lines_loop buf_size rest lines with inspect (take buf_size rest) := {
    | exist _ [] _ => lines
    | exist _ (c :: buf) E =>
        file_lines_loop buf_size (drop buf_size rest)
          (lines + count_newlines (c :: buf)) }.
Next Obligation.
  intros.
  destruct buf_size as [|n]; [discriminate|].
  destruct rest as [|r rest]; [discriminate|].
  rewrite length_drop. cbn [length]. lia.
Qed.

(** [file_lines(filename)], given the characters of the file: the loop
    runs over what the text mode of [open] makes of them. *)
Definition file_lines (chars : list ascii) : Z :=
  file_lines_loop (1024 * 1024) (universal_newlines chars) 0.

End AuxLib.

(** * Properties *)

(** ** The binary64 arithmetic on known values *)

(** Values CPython prints for the same expressions:
    round(0.005, 2) = 0.01, round(0.125, 2) = 0.12, round(2.675, 2) = 2.67,
    round(1234.5678, -2) = 1200.0, 1.0 % 0.1 = 0.09999999999999995,
    -1.0 % 3 = 2.0, 1 % -3.0 = -2.0, 7.0 % 0 raises ZeroDivisionError,
    0.1 + 0.2 = 0.30000000000000004. *)
Example binary64_agrees_with_cpython :
  fround 0.005%float 2 = Return 0.01%float /\
  fround 0.125%float 2 = Return 0.12%float /\
  fround 2.675%float 2 = Return 2.67%float /\
  fround 1234.5678%float (-2) = Return 1200%float /\
  fmod 1%float 0.1%float = Return 0.09999999999999995%float /\
  fmod (-1)%float 3%float = Return 2%float /\
  fmod 1%float (-3)%float = Return (-2)%float /\
  fmod 7%float 0%float = Raise ZeroDivisionError /\
  fadd 0.1%float 0.2%float = 0.30000000000000004%float /\
  lit (1 # 10) = 0.1%float.
Proof. repeat split; vm_compute; reflexivity. Qed.

(** ** The monad and the balance refresh *)

Section BinanceFacts.
Import Binance Run.
Context {F : Type} `{PyFloat F}.
Variable conn : @Client F.

Lemma bind_return {W A B : Type} (c : M W A) (k : A -> M W B) (w w' : W) (a : A) :
  c w = (Return a, w') -> bind c k w = k a w'.
Proof. intros E. unfold bind. rewrite E. reflexivity. Qed.

Lemma bind_raise {W A B : Type} (c : M W A) (k : A -> M W B) (w w' : W) (e : exn) :
  c w = (Raise e, w') -> bind c k w = (Raise e, w').
Proof. intros E. unfold bind. rewrite E. reflexivity. Qed.

Lemma refresh_answered (w : World) (rows : list BalanceRow) :
  get_account conn (calls w) = Return rows ->
  refresh_balance conn w = (Return tt, refreshed rows w).
Proof.
  intros E. unfold refresh_balance, call, bind, get, put. rewrite E. reflexivity.
Qed.

Lemma refresh_failed (w : World) (e : exn) :
  get_account conn (calls w) = Raise e ->
  refresh_balance conn w = (Raise e, log_call GetAccount w).
Proof.
  intros E. unfold refresh_balance, call, bind. rewrite E. reflexivity.
Qed.

(** A refresh sends one request, and it is no order. *)
Lemma refresh_calls (w : World) :
  calls (snd (refresh_balance conn w)) = calls w ++ [GetAccount].
Proof.
  destruct (get_account conn (calls w)) as [rows|e] eqn:E.
  - rewrite (refresh_answered _ _ E). reflexivity.
  - rewrite (refresh_failed _ _ E). reflexivity.
Qed.

Lemma orders_app (h k : list (@Request F)) : orders (h ++ k) = orders h ++ orders k.
Proof. apply List.filter_app. Qed.

Lemma orders_refreshed (w : @World F) (rows : list BalanceRow) :
  orders (calls (refreshed rows w)) = orders (calls w).
Proof. simpl. rewrite orders_app. simpl. apply app_nil_r. Qed.

(** ** buy, up to the budget check *)

(** What lines 142 to 155 yield once the exchange has answered the refresh
    and the quote currency is known to the ledger and to [min_limit]. *)
Lemma buy_size_answered (currency : string) (w : World)
    (rows : list BalanceRow) (a : Asset) (m : F) :
  get_account conn (calls w) = Return rows ->
  assets (refreshed rows w) !! currency = Some a ->
  min_limit w !! currency = Some m ->
  buy_size conn currency w =
    (Return (if flt (cur_balance a) m
             then inl (false, BuyErrorText "Insufficient funds")
             else if fgt (quantity_to_buy a (risk w)) (available a)
                  then inl (false, BuyErrorText "Portfolio has no space for new assets")
                  else inr (quantity_to_buy a (risk w))),
     refreshed rows w).
Proof.
  intros Eacc Ea Em. unfold buy_size.
  rewrite (bind_return _ _ _ _ _ (refresh_answered _ _ Eacc)).
  unfold asset_of, bind, get, lift, getitem, ret.
  rewrite Ea. cbn [min_limit risk refreshed set_assets log_call]. rewrite Em.
  destruct (flt (cur_balance a) m); [reflexivity|].
  destruct (fgt (quantity_to_buy a (risk w)) (available a)); reflexivity.
Qed.

Lemma buy_early (coin currency : string) (price : F) (w w' : World)
    (r : bool * BuyInfo) :
  buy_size conn currency w = (Return (inl r), w') ->
  buy conn coin currency price w = (Return r, w').
Proof. intros E. unfold buy. rewrite (bind_return _ _ _ _ _ E). reflexivity. Qed.

Lemma buy_sized (coin currency : string) (price q : F) (w w' : World) :
  buy_size conn currency w = (Return (inr q), w') ->
  buy conn coin currency price w = buy_submit conn coin currency price q w'.
Proof. intros E. unfold buy. rewrite (bind_return _ _ _ _ _ E). reflexivity. Qed.

End BinanceFacts.

(** ** C4: the minimum threshold *)

Section MinimumThreshold.
Import Binance Run Scenario.

(** C4, as the code has it.  The threshold is tested against
    available + pending.  Whenever the refreshed available + pending of the
    quote currency is below the configured minimum, [buy] returns
    (False, {'error': 'Insufficient funds'}); the only request sent to the
    exchange is the balance refresh, and none places an order. *)
Theorem buy_below_minimum
    (F : Type) (PF : PyFloat F) (conn : @Client F)
    (coin currency : string) (price : F) (w : World)
    (rows : list BalanceRow) (a : Asset) (m : F) :
  get_account conn (calls w) = Return rows ->
  assets (refreshed rows w) !! currency = Some a ->
  min_limit w !! currency = Some m ->
  flt (fadd (available a) (pending a)) m = true ->
  buy conn coin currency price w
    = (Return (false, BuyErrorText "Insufficient funds"), refreshed rows w) /\
  calls (refreshed rows w) = calls w ++ [GetAccount] /\
  orders (calls (refreshed rows w)) = orders (calls w).
Proof.
  intros Eacc Ea Em Hmin.
  pose proof (buy_size_answered conn currency w rows a m Eacc Ea Em) as Hs.
  unfold cur_balance in Hs at 1. rewrite Hmin in Hs.
  split; [exact (buy_early conn _ _ _ _ _ _ Hs)|].
  split; [reflexivity | apply orders_refreshed].
Qed.

(** 10 USDT available and 20 pending against a minimum of 50. *)
Lemma buy_below_minimum_witness :
  buy (quiet 10 20 "NEW") "BTCUSDT" "USDT" 0%float (started (quiet 10 20 "NEW") (1 # 2))
    = (Return (false, BuyErrorText "Insufficient funds"),
       refreshed (usdt_account 10 20) (started (quiet 10 20 "NEW") (1 # 2))) /\
  calls (refreshed (usdt_account 10 20)
      (started (F := float) (quiet 10 20 "NEW") (1 # 2)))
    = [GetAccount; GetAccount] /\
  orders (calls (refreshed (usdt_account 10 20)
      (started (F := float) (quiet 10 20 "NEW") (1 # 2))))
    = [].
Proof.
  refine (buy_below_minimum float _ (quiet 10 20 "NEW") "BTCUSDT" "USDT"
            0%float (started (quiet 10 20 "NEW") (1 # 2))
                (usdt_account 10 20) (plain 10 20)
            50%float _ _ _ _);
    vm_compute; reflexivity.
Defined.

(** C4 fails as stated: with 16 USDT available (below the minimum of 50),
    100 pending and a risk of 0.125, [buy] passes the threshold
    (116 >= 50), sizes 116 * 0.125 = 14.5 <= 16 and sends a market order
    for 14.5; its result is the order payload, not an insufficient-funds
    failure.  In binary64 and in exact arithmetic alike. *)
Lemma buy_below_minimum_counterexample :
  (PrimFloat.ltb 16%float 50%float = true /\
   buy (quiet 16 100 "NEW") "BTCUSDT" "USDT" 0%float
       (started (quiet 16 100 "NEW") (1 # 8))
     = (Return (false, BuyOrder (payload_with_status "NEW")),
        log_call (OrderMarketBuy "BTCUSDT" 14.5%float)
          (refreshed (usdt_account 16 100) (started (quiet 16 100 "NEW") (1 # 8)))) /\
   orders (calls (snd (buy (quiet 16 100 "NEW") "BTCUSDT" "USDT" 0%float
                         (started (quiet 16 100 "NEW") (1 # 8)))))
     = [OrderMarketBuy "BTCUSDT" 14.5%float]) /\
  (orders (calls (snd (buy (F := Q) (quiet 16 100 "NEW") "BTCUSDT" "USDT" 0%Q
                         (started (quiet 16 100 "NEW") (1 # 8)))))
     = [OrderMarketBuy "BTCUSDT" (29 # 2)%Q]).
Proof.
  repeat split; vm_compute; reflexivity.
Qed.

End MinimumThreshold.

(** ** C2: the quantity of a limit buy *)

Section LimitBuy.
Import Binance Run Scenario.

Section Generic.
Context {F : Type} `{PyFloat F}.
Variable conn : @Client F.

Lemma asset_info_calls (sym : string) (w : World) :
  calls (snd (asset_info conn sym w)) = calls w ++ [GetSymbolInfo sym].
Proof.
  unfold asset_info, call, bind, lift, raise, ret.
  destruct (get_symbol_info conn (calls w) sym) as [[d|]|e]; try reflexivity.
  destruct (lot_steps (filters d)) as [[|step l]|e]; reflexivity.
Qed.

Lemma set_info_calls (k : string) (i : AssetInfo) (w : World) :
  calls (snd (set_info (F := F) k i w)) = calls w.
Proof.
  unfold set_info, bind, get, put, raise.
  destruct (assets w !! k); reflexivity.
Qed.

(** Testing the order sends no order. *)
Lemma settle_buy_orders (coin currency : string) (o : Payload) (w : World) :
  orders (calls (snd (settle_buy conn coin currency o w))) = orders (calls w).
Proof.
  unfold settle_buy, bind, lift, ret.
  destruct (getitem o "status") as [st|e]; [|reflexivity].
  destruct (String.eqb st "FILLED"); [|reflexivity].
  pose proof (asset_info_calls coin w) as Hc.
  destruct (asset_info conn coin w) as [[i|e] w1]; simpl in Hc.
  - pose proof (set_info_calls (replace_empty coin currency) i w1) as Hs.
    destruct (set_info (replace_empty coin currency) i w1) as [[[]|e] w2];
      simpl in Hs; simpl; rewrite Hs, Hc, orders_app; simpl; apply app_nil_r.
  - simpl. rewrite Hc, orders_app. simpl. apply app_nil_r.
Qed.

(** The one order of a limit buy that reaches the placement. *)
Lemma submit_limit_orders (coin currency : string) (price spend d q : F)
    (p : Z) (w : World) :
  ftruth price = true ->
  fdiv spend price = Return d ->
  coin_precision w !! currency = Some p ->
  fround d p = Return q ->
  orders (calls (snd (buy_submit conn coin currency price spend w)))
    = orders (calls w) ++ [OrderLimitBuy coin price q].
Proof.
  intros Ht Ed Ep Eq.
  unfold buy_submit, try_, place_buy, bind, get, lift, getitem, call, ret.
  rewrite Ht. cbn [negb]. rewrite Ed, Ep, Eq.
  destruct (order_limit_buy conn (calls w) coin price q) as [o|e].
  - rewrite settle_buy_orders. cbn [calls log_call].
    rewrite orders_app. reflexivity.
  - cbn [snd calls log_call]. rewrite orders_app. reflexivity.
Qed.

(** The one order of a market buy that reaches the placement. *)
Lemma submit_market_orders (coin currency : string) (price spend q : F)
    (p : Z) (w : World) :
  ftruth price = false ->
  coin_precision w !! currency = Some p ->
  fround spend p = Return q ->
  orders (calls (snd (buy_submit conn coin currency price spend w)))
    = orders (calls w) ++ [OrderMarketBuy coin q].
Proof.
  intros Ht Ep Eq.
  unfold buy_submit, try_, place_buy, bind, get, lift, getitem, call, ret.
  rewrite Ht. cbn [negb]. rewrite Ep, Eq.
  destruct (order_market_buy conn (calls w) coin q) as [o|e].
  - rewrite settle_buy_orders. cbn [calls log_call].
    rewrite orders_app. reflexivity.
  - cbn [snd calls log_call]. rewrite orders_app. reflexivity.
Qed.

End Generic.

(** C2, as the code has it.  A limit buy that passes both checks sends
    one order, at the limit price, for
    round(spend / price, coin_precision[currency]): the quotient rounded to
    the nearest at the decimals configured for the quote currency (2 for
    USDT, 8 for BTC).  No lot size enters. *)
Theorem limit_buy_quantity
    (F : Type) (PF : PyFloat F) (conn : @Client F)
    (coin currency : string) (price : F) (w : World)
    (rows : list BalanceRow) (a : Asset) (m d q : F) (p : Z) :
  get_account conn (calls w) = Return rows ->
  assets (refreshed rows w) !! currency = Some a ->
  min_limit w !! currency = Some m ->
  flt (cur_balance a) m = false ->
  fgt (quantity_to_buy a (risk w)) (available a) = false ->
  ftruth price = true ->
  fdiv (quantity_to_buy a (risk w)) price = Return d ->
  coin_precision w !! currency = Some p ->
  fround d p = Return q ->
  orders (calls (snd (buy conn coin currency price w)))
    = orders (calls w) ++ [OrderLimitBuy coin price q].
Proof.
  intros Eacc Ea Em Hmin Hbud Ht Ed Ep Eq.
  pose proof (buy_size_answered conn currency w rows a m Eacc Ea Em) as Hs.
  rewrite Hmin, Hbud in Hs.
  rewrite (buy_sized conn _ _ _ _ _ _ Hs).
  rewrite (submit_limit_orders conn coin currency price _ d q p); try assumption.
  rewrite orders_refreshed. reflexivity.
Qed.

(** The example of the specification in binary64: 1000 USDT available,
    none pending, risk 0.1, minimum 50, limit price 20000.  The spend is
    100, the quotient 0.005, and the order is for round(0.005, 2) = 0.01. *)
Lemma limit_buy_quantity_witness :
  orders (calls (snd (buy (quiet 1000 0 "NEW") "BTCUSDT" "USDT" 20000%float
                        (started (quiet 1000 0 "NEW") (1 # 10)))))
    = [] ++ [OrderLimitBuy "BTCUSDT" 20000%float 0.01%float].
Proof.
  refine (limit_buy_quantity float _ (quiet 1000 0 "NEW") "BTCUSDT" "USDT"
            20000%float (started (quiet 1000 0 "NEW") (1 # 10))
                (usdt_account 1000 0) (plain 1000 0)
            50%float 0.005%float 0.01%float 2 _ _ _ _ _ _ _ _ _);
    vm_compute; reflexivity.
Defined.

(** C2 fails as stated.  On the example of the specification the spend is
    100 but the order is for 0.01 (binary64; 0 in exact arithmetic, where
    0.005 is a tie), not for the 0.005 that rounding down to the lot grid
    gives.  With 1000 USDT, risk 0.5 and limit price 4000, where every
    value is a binary fraction, the quotient 0.125 is a multiple of the lot
    size 0.001, and the order is for round(0.125, 2) = 0.12. *)
Lemma limit_buy_quantity_counterexample :
  (quantity_to_buy (plain 1000 0) (lit (1 # 10)) = 100%float /\
   orders (calls (snd (buy (quiet 1000 0 "NEW") "BTCUSDT" "USDT" 20000%float
                         (started (quiet 1000 0 "NEW") (1 # 10)))))
     = [OrderLimitBuy "BTCUSDT" 20000%float 0.01%float] /\
   PrimFloat.eqb 0.01%float 0.005%float = false) /\
  (orders (calls (snd (buy (F := Q) (quiet 1000 0 "NEW") "BTCUSDT" "USDT" 20000%Q
                         (started (quiet 1000 0 "NEW") (1 # 10)))))
     = [OrderLimitBuy "BTCUSDT" 20000%Q 0%Q] /\
   spec_limit_quantity 100 20000 (1 # 1000) 8 = (1 # 200)%Q) /\
  (orders (calls (snd (buy (quiet 1000 0 "NEW") "BTCUSDT" "USDT" 4000%float
                         (started (quiet 1000 0 "NEW") (1 # 2)))))
     = [OrderLimitBuy "BTCUSDT" 4000%float 0.12%float] /\
   orders (calls (snd (buy (F := Q) (quiet 1000 0 "NEW") "BTCUSDT" "USDT" 4000%Q
                         (started (quiet 1000 0 "NEW") (1 # 2)))))
     = [OrderLimitBuy "BTCUSDT" 4000%Q (3 # 25)%Q] /\
   spec_limit_quantity 500 4000 (1 # 1000) 8 = (1 # 8)%Q).
Proof.
  repeat split; vm_compute; reflexivity.
Qed.

End LimitBuy.

(** ** C1: the target spend and the budget check *)

Section SpendGuard.
Import Binance Run Scenario.

(** C1, as the code has it.  The target spend of [Binance.buy] is
    (available + pending) * risk, not available * risk.  Once the refresh
    is answered and the account is not under its minimum: when the spend
    exceeds the available balance, [buy] returns the failure
    'Portfolio has no space for new assets' and no order request is sent;
    otherwise the one order sent is sized on exactly that spend, a market
    buy for round(spend, coin_precision[currency]) when the price is zero
    and a limit buy at the price for
    round(spend / price, coin_precision[currency]) when it is not.  So an
    order is sent only when the spend does not exceed the available
    balance. *)
Theorem buy_spend_and_budget_guard
    (F : Type) (PF : PyFloat F) (conn : @Client F)
    (coin currency : string) (price : F) (w : World)
    (rows : list BalanceRow) (a : Asset) (m : F) :
  get_account conn (calls w) = Return rows ->
  assets (refreshed rows w) !! currency = Some a ->
  min_limit w !! currency = Some m ->
  flt (fadd (available a) (pending a)) m = false ->
  (fgt (fmul (fadd (available a) (pending a)) (risk w)) (available a) = true ->
     buy conn coin currency price w
       = (Return (false, BuyErrorText "Portfolio has no space for new assets"),
          refreshed rows w) /\
     orders (calls (snd (buy conn coin currency price w))) = orders (calls w)) /\
  (fgt (fmul (fadd (available a) (pending a)) (risk w)) (available a) = false ->
     (ftruth price = false ->
      forall (p : Z) (q : F),
        coin_precision w !! currency = Some p ->
        fround (fmul (fadd (available a) (pending a)) (risk w)) p = Return q ->
        orders (calls (snd (buy conn coin currency price w)))
          = orders (calls w) ++ [OrderMarketBuy coin q]) /\
     (ftruth price = true ->
      forall (d q : F) (p : Z),
        fdiv (fmul (fadd (available a) (pending a)) (risk w)) price = Return d ->
        coin_precision w !! currency = Some p ->
        fround d p = Return q ->
        orders (calls (snd (buy conn coin currency price w)))
          = orders (calls w) ++ [OrderLimitBuy coin price q])) /\
  (orders (calls (snd (buy conn coin currency price w))) <> orders (calls w) ->
   fgt (fmul (fadd (available a) (pending a)) (risk w)) (available a) = false).
Proof.
  intros Eacc Ea Em Hmin.
  pose proof (buy_size_answered conn currency w rows a m Eacc Ea Em) as Hs.
  unfold quantity_to_buy, cur_balance in Hs. rewrite Hmin in Hs.
  assert (Hover :
            fgt (fmul (fadd (available a) (pending a)) (risk w)) (available a)
              = true ->
            buy conn coin currency price w
              = (Return (false,
                         BuyErrorText "Portfolio has no space for new assets"),
                 refreshed rows w)).
  { intros Hg. rewrite Hg in Hs. exact (buy_early conn _ _ _ _ _ _ Hs). }
  split; [|split].
  - intros Hg. split; [exact (Hover Hg)|].
    rewrite (Hover Hg). apply orders_refreshed.
  - intros Hg. rewrite Hg in Hs.
    rewrite (buy_sized conn _ _ _ _ _ _ Hs). split.
    + intros Ht p q Ep Eq.
      rewrite (submit_market_orders conn coin currency price _ q p);
        try assumption.
      rewrite orders_refreshed. reflexivity.
    + intros Ht d q p Ed Ep Eq.
      rewrite (submit_limit_orders conn coin currency price _ d q p);
        try assumption.
      rewrite orders_refreshed. reflexivity.
  - intros Hsent.
    destruct (fgt (fmul (fadd (available a) (pending a)) (risk w)) (available a))
      eqn:Hg; [|reflexivity].
    exfalso. apply Hsent. rewrite (Hover eq_refl). apply orders_refreshed.
Qed.

(** With 10 USDT available, 1000 pending and a risk of 0.5 (binary64):
    the account passes the minimum of 50, the spend is 505, and the call
    fails on the budget check. *)
Lemma buy_spend_and_budget_guard_witness :
  buy (quiet 10 1000 "NEW") "BTCUSDT" "USDT" 0%float
      (started (quiet 10 1000 "NEW") (1 # 2))
    = (Return (false, BuyErrorText "Portfolio has no space for new assets"),
       refreshed (usdt_account 10 1000) (started (quiet 10 1000 "NEW") (1 # 2))).
Proof.
  refine (proj1 (proj1 (buy_spend_and_budget_guard
            float _ (quiet 10 1000 "NEW") "BTCUSDT" "USDT" 0%float
            (started (quiet 10 1000 "NEW") (1 # 2))
                (usdt_account 10 1000) (plain 10 1000)
            50%float _ _ _ _) _));
    vm_compute; reflexivity.
Defined.

(** C1 fails as stated: with 10 USDT available, 1000 pending and
    risk 0.5 in (0,1], the computed spend is 505 = (10 + 1000) * 0.5, which
    is not 10 * 0.5 = 5 and exceeds the available 10, so that the call
    fails on the budget check; and with 600 available, 400 pending and
    risk 0.5 the order sent is for 500 = (600 + 400) * 0.5, not for
    600 * 0.5 = 300.  In binary64 and in exact arithmetic alike. *)
Lemma buy_spend_counterexample :
  (orders (calls (snd (buy (quiet 600 400 "NEW") "BTCUSDT" "USDT" 0%float
                         (started (quiet 600 400 "NEW") (1 # 2)))))
     = [OrderMarketBuy "BTCUSDT" 500%float] /\
   PrimFloat.mul 600%float 0.5%float = 300%float /\
   quantity_to_buy (plain 10 1000) 0.5%float = 505%float /\
   PrimFloat.ltb 10%float (quantity_to_buy (plain 10 1000) 0.5%float) = true /\
   PrimFloat.mul 10%float 0.5%float = 5%float /\
   fst (buy (quiet 10 1000 "NEW") "BTCUSDT" "USDT" 0%float
       (started (quiet 10 1000 "NEW") (1 # 2)))
     = Return (false, BuyErrorText "Portfolio has no space for new assets")) /\
  (orders (calls (snd (buy (F := Q) (quiet 600 400 "NEW") "BTCUSDT" "USDT" 0%Q
                         (started (quiet 600 400 "NEW") (1 # 2)))))
     = [OrderMarketBuy "BTCUSDT" 500%Q] /\
   quantity_to_buy (F := Q) (plain 10 1000) (1 # 2) = 505%Q /\
   ~ (quantity_to_buy (F := Q) (plain 10 1000) (1 # 2) <= 10)%Q /\
   ~ (quantity_to_buy (F := Q) (plain 10 1000) (1 # 2) == 10 * (1 # 2))%Q).
Proof.
  split; [repeat split; vm_compute; reflexivity|].
  repeat split; vm_compute; congruence.
Qed.

End SpendGuard.

(** ** C7: the status of the order *)

Section OrderStatus.
Import Binance Run Scenario.

Section Generic.
Context {F : Type} `{PyFloat F}.
Variable conn : @Client F.

(** [buy_submit] once the placement has returned a payload. *)
Lemma submit_placed (coin currency : string) (price q : F) (w w1 : World)
    (payload : Payload) :
  place_buy conn coin currency price q w = (Return payload, w1) ->
  buy_submit conn coin currency price q w
    = settle_buy conn coin currency payload w1.
Proof.
  intros E. unfold buy_submit, try_, bind. rewrite E. reflexivity.
Qed.

Lemma settle_not_filled (coin currency st : string) (payload : Payload) (w : World) :
  payload !! "status" = Some st ->
  st <> "FILLED" ->
  settle_buy conn coin currency payload w = (Return (false, BuyOrder payload), w).
Proof.
  intros Est Hne. unfold settle_buy, bind, lift, getitem, ret. rewrite Est.
  destruct (String.eqb_spec st "FILLED"); [contradiction | reflexivity].
Qed.

Lemma settle_filled (coin currency : string) (payload : Payload) (w : World) :
  payload !! "status" = Some "FILLED" ->
  settle_buy conn coin currency payload w
    = bind (asset_info conn coin)
        (fun i => bind (set_info (replace_empty coin currency) i)
                    (fun _ => ret (true, BuyOrder payload))) w.
Proof.
  intros Est. unfold settle_buy at 1. unfold bind at 1, lift, getitem.
  rewrite Est. reflexivity.
Qed.

(** A returned success comes from a FILLED payload, and carries it. *)
Lemma settle_success (coin currency st : string) (payload : Payload) (w : World)
    (x : BuyInfo) :
  payload !! "status" = Some st ->
  fst (settle_buy conn coin currency payload w) = Return (true, x) ->
  st = "FILLED" /\ x = BuyOrder payload.
Proof.
  intros Est. unfold settle_buy, bind, lift, getitem, ret. rewrite Est.
  destruct (String.eqb_spec st "FILLED") as [->|Hne]; [|simpl; congruence].
  destruct (asset_info conn coin w) as [[i|e] w1]; [|simpl; congruence].
  destruct (set_info (replace_empty coin currency) i w1) as [[[]|e] w2];
    simpl; intros E; [|congruence].
  split; [reflexivity | congruence].
Qed.

End Generic.

(** C7, as the code has it.  When the placement call of a [buy] returns a
    payload with a status: a status other than FILLED makes [buy] return
    (False, payload), the payload as received.  On FILLED [buy] first looks
    up the symbol's metadata and stores it under the base asset (the coin
    name without the currency): it returns (True, payload) when the lookup
    succeeds and the ledger has the base asset; it raises the exception of
    the lookup when that fails, and KeyError for the base asset when the
    ledger does not have it.  Whenever [buy] returns success the status was
    FILLED and the payload is the one received. *)
Theorem buy_status_outcome
    (F : Type) (PF : PyFloat F) (conn : @Client F)
    (coin currency st : string) (price q : F) (w w0 w1 : World)
    (payload : Payload) :
  buy_size conn currency w = (Return (inr q), w0) ->
  place_buy conn coin currency price q w0 = (Return payload, w1) ->
  payload !! "status" = Some st ->
  (st <> "FILLED" ->
     buy conn coin currency price w = (Return (false, BuyOrder payload), w1)) /\
  (st = "FILLED" ->
     (forall (i : AssetInfo) (w2 : World),
         asset_info conn coin w1 = (Return i, w2) ->
         is_Some (assets w2 !! replace_empty coin currency) ->
         fst (buy conn coin currency price w) = Return (true, BuyOrder payload)) /\
     (forall (i : AssetInfo) (w2 : World),
         asset_info conn coin w1 = (Return i, w2) ->
         assets w2 !! replace_empty coin currency = None ->
         buy conn coin currency price w
           = (Raise (KeyError (replace_empty coin currency)), w2)) /\
     (forall (e : exn) (w2 : World),
         asset_info conn coin w1 = (Raise e, w2) ->
         buy conn coin currency price w = (Raise e, w2))) /\
  (forall x : BuyInfo,
     fst (buy conn coin currency price w) = Return (true, x) ->
     st = "FILLED" /\ x = BuyOrder payload).
Proof.
  intros Hs Hp Est.
  rewrite (buy_sized conn _ _ _ _ _ _ Hs), (submit_placed conn _ _ _ _ _ _ _ Hp).
  split; [|split].
  - intros Hne. exact (settle_not_filled conn coin currency st payload w1 Est Hne).
  - intros ->. rewrite (settle_filled conn coin currency payload w1 Est).
    split; [|split].
    + intros i w2 Hi [old Hold].
      rewrite (bind_return _ _ _ _ _ Hi).
      unfold set_info, bind, get, put, ret. rewrite Hold. reflexivity.
    + intros i w2 Hi Hnone.
      rewrite (bind_return _ _ _ _ _ Hi).
      unfold set_info, bind, get, raise. rewrite Hnone. reflexivity.
    + intros e w2 Hi. exact (bind_raise _ _ _ _ _ Hi).
  - intros x. exact (settle_success conn coin currency st payload w1 x Est).
Qed.

(** A market buy of half of 1000 USDT on the exchange that fills it and
    answers the symbol lookup: the call returns success with the payload. *)
Lemma buy_status_outcome_witness :
  fst (buy (debiting 1000%float) "BTCUSDT" "USDT" 0%float
      (started (debiting 1000%float) (1 # 2)))
    = Return (true, BuyOrder (payload_with_status "FILLED")).
Proof.
  pose (conn := debiting 1000%float).
  pose (w0 := snd (buy_size conn "USDT" (started (debiting 1000%float) (1 # 2)))).
  pose (w1 := log_call (OrderMarketBuy "BTCUSDT" 500%float) w0).
  pose (d := {| symbol := "BTCUSDT"; quoteAssetPrecision := 8;
                filters := [lot_filter (lit (1 # 100000))] |}).
  pose (i := {| info_symbol := "BTCUSDT"; precision := 8;
                lot_size := lit (1 # 100000); more := d |}).
  refine (proj1 (proj1 (proj2 (buy_status_outcome float _ conn
            "BTCUSDT" "USDT" "FILLED" 0%float 500%float
                (started (debiting 1000%float) (1 # 2))
            w0 w1 (payload_with_status "FILLED") _ _ _)) eq_refl)
            i (snd (asset_info conn "BTCUSDT" w1)) _ _);
    try (vm_compute; reflexivity).
  exists (plain 0 0). vm_compute. reflexivity.
Defined.

(** C7 fails as stated: on an exchange that fills the market order and
    then fails the symbol lookup, the placement returns a FILLED payload
    and [buy] raises the lookup's exception instead of returning success;
    and a filled market buy of DOGEUSDT on an account that lists no DOGE,
    the symbol lookup answered, raises KeyError for DOGE. *)
Lemma buy_status_counterexample :
  (place_buy (filled_then_down 1000 0) "BTCUSDT" "USDT" 0%float 500%float
       (refreshed (usdt_account 1000 0) (started (filled_then_down 1000 0) (1 # 2)))
     = (Return (payload_with_status "FILLED"),
        log_call (OrderMarketBuy "BTCUSDT" 500%float)
          (refreshed (usdt_account 1000 0)
              (started (filled_then_down 1000 0) (1 # 2)))) /\
   payload_with_status "FILLED" !! "status" = Some "FILLED" /\
   fst (buy (filled_then_down 1000 0) "BTCUSDT" "USDT" 0%float
       (started (filled_then_down 1000 0) (1 # 2)))
     = Raise (ExchangeError "symbol lookup timed out") /\
   calls (snd (buy (filled_then_down 1000 0) "BTCUSDT" "USDT" 0%float
                 (started (filled_then_down 1000 0) (1 # 2))))
     = [GetAccount; GetAccount; OrderMarketBuy "BTCUSDT" 500%float;
        GetSymbolInfo "BTCUSDT"]) /\
  (fst (buy (debiting 1000%float) "DOGEUSDT" "USDT" 0%float
       (started (debiting 1000%float) (1 # 2)))
     = Raise (KeyError "DOGE") /\
   calls (snd (buy (debiting 1000%float) "DOGEUSDT" "USDT" 0%float
                 (started (debiting 1000%float) (1 # 2))))
     = [GetAccount; GetAccount; OrderMarketBuy "DOGEUSDT" 500%float;
        GetSymbolInfo "DOGEUSDT"]).
Proof.
  repeat split; vm_compute; reflexivity.
Qed.

End OrderStatus.

(** ** C8: Bittrex.buy and the name rate *)

Section BittrexBuy.
Import Bittrex BittrexScenario.

(** [rate] is no name of the module. *)
Lemma rate_is_unbound (F : Type) : load_global (F := F) "rate"
    = Raise (NameError "rate").
Proof. reflexivity. Qed.

(** C8.  A call of [Bittrex.buy] that passes the minimum-balance check
    raises NameError for [rate]; whatever the balances, no request is ever
    sent to the exchange; and when the call returns at all it returns
    (False, 'Cash under Minimum limit.') and leaves the object as it was. *)
Theorem bittrex_buy_rate_unbound
    (F : Type) (PF : PyFloat F) (conn : @Client F)
    (coin : string) (amount price : F) (w : World) :
  (forall a : F,
      available w !! split_head coin = Some a ->
      fle a (min_limit w) = false ->
      buy conn coin amount price w = (Raise (NameError "rate"), w)) /\
  calls (snd (buy conn coin amount price w)) = calls w /\
  (forall (r : bool * Info) (w' : World),
      buy conn coin amount price w = (Return r, w') ->
      r = (false, Text "Cash under Minimum limit.") /\ w' = w).
Proof.
  unfold buy, bind, get, lift, getitem, ret.
  split; [|split].
  - intros a Ea Hle. rewrite Ea, Hle. reflexivity.
  - destruct (available w !! split_head coin) as [a|]; [|reflexivity].
    destruct (fle a (min_limit w)); reflexivity.
  - intros r w'.
    destruct (available w !! split_head coin) as [a|]; [|discriminate].
    destruct (fle a (min_limit w)); [|discriminate].
    intros E. injection E as <- <-. split; reflexivity.
Qed.

(** 100 USDT against a minimum of 50, on a client that would accept the
    order (binary64). *)
Lemma bittrex_buy_rate_unbound_witness :
  buy obliging "USDT-BTC" 1%float 20000%float (funded "USDT" 100)
    = (Raise (NameError "rate"), funded "USDT" 100).
Proof.
  refine (proj1 (bittrex_buy_rate_unbound float _ obliging "USDT-BTC"
            1%float 20000%float (funded "USDT" 100)) 100%float _ _);
    vm_compute; reflexivity.
Defined.

End BittrexBuy.

(** ** C10: sell with an explicit quantity *)

Section SellExplicit.
Import Binance Run Scenario.

(** C10.  A call of [Binance.sell] with a non-zero quantity sends the
    balance refresh and nothing else, so no order is placed; it never
    returns; once the refresh is answered it raises UnboundLocalError for
    [sell_order], and a refresh that fails raises its own exception before
    the return is reached. *)
Theorem sell_explicit_quantity_unbound
    (F : Type) (PF : PyFloat F) (conn : @Client F)
    (coin currency : string) (quantity : F) (w : World) :
  ftruth quantity = true ->
  calls (snd (sell conn coin currency quantity w)) = calls w ++ [GetAccount] /\
  orders (calls (snd (sell conn coin currency quantity w))) = orders (calls w) /\
  is_return (fst (sell conn coin currency quantity w)) = false /\
  (forall rows : list BalanceRow,
      get_account conn (calls w) = Return rows ->
      sell conn coin currency quantity w
        = (Raise (UnboundLocalError "sell_order"), refreshed rows w)) /\
  (forall e : exn,
      get_account conn (calls w) = Raise e ->
      sell conn coin currency quantity w = (Raise e, log_call GetAccount w)).
Proof.
  intros Ht.
  assert (Hrows : forall rows, get_account conn (calls w) = Return rows ->
            sell conn coin currency quantity w
              = (Raise (UnboundLocalError "sell_order"), refreshed rows w)).
  { intros rows E. unfold sell.
    rewrite (bind_return _ _ _ _ _ (refresh_answered conn w rows E)).
    rewrite Ht. reflexivity. }
  assert (Hexn : forall e, get_account conn (calls w) = Raise e ->
            sell conn coin currency quantity w = (Raise e, log_call GetAccount w)).
  { intros e E. unfold sell.
    exact (bind_raise _ _ _ _ _ (refresh_failed conn w e E)). }
  destruct (get_account conn (calls w)) as [rows|e] eqn:E.
  - rewrite (Hrows rows eq_refl). cbn [fst snd is_return].
    split; [reflexivity|]. split; [apply orders_refreshed|].
    split; [reflexivity|].
    split; [intros rows' Er; injection Er as <-; reflexivity|].
    intros e' Ee. discriminate Ee.
  - rewrite (Hexn e eq_refl). cbn [fst snd is_return].
    split; [reflexivity|].
    split; [cbn [calls log_call]; rewrite orders_app; apply app_nil_r|].
    split; [reflexivity|].
    split; [intros rows Er; discriminate Er|].
    intros e' Ee. injection Ee as <-. reflexivity.
Qed.

(** Selling 1.5 BTC explicitly on an exchange that would fill the order
    (binary64). *)
Lemma sell_explicit_quantity_unbound_witness :
  sell (debiting 1000%float) "BTCUSDT" "USDT" 1.5%float
      (started (debiting 1000%float) (1 # 2))
    = (Raise (UnboundLocalError "sell_order"),
       refreshed (usdt_account 1000 0) (started (debiting 1000%float) (1 # 2))).
Proof.
  refine (proj1 (proj2 (proj2 (proj2 (sell_explicit_quantity_unbound float _
            (debiting 1000%float) "BTCUSDT" "USDT" 1.5%float
                (started (debiting 1000%float) (1 # 2))
            _)))) (usdt_account 1000 0) _);
    vm_compute; reflexivity.
Defined.

End SellExplicit.

(** ** C6: the exit triggers *)

Section ExitTriggers.

(** In exact arithmetic the threshold is [anchor * (1 - pct / 100)]. *)
Lemma exact_threshold (anchor pct : Q) :
  (fmul anchor (fsub (lit 1) (fmul pct (lit (1 # 100))))
   == anchor * (1 - pct / 100))%Q.
Proof.
  cbn [fmul fsub lit exact_float]. unfold Exact.mul, Exact.sub.
  rewrite !Qred_correct. unfold Qdiv.
  change (/ 100)%Q with (1 # 100)%Q. reflexivity.
Qed.

Lemma exact_stop_loss_iff (last entry pct : Q) :
  Aux.stop_loss last entry pct = true <-> (last <= entry * (1 - pct / 100))%Q.
Proof.
  unfold Aux.stop_loss. cbn [fle exact_float]. unfold Exact.le.
  rewrite Qle_bool_iff, exact_threshold. reflexivity.
Qed.

Lemma exact_trailing_stop_loss_iff (last higher pct : Q) :
  Aux.trailing_stop_loss last higher pct = true
  <-> (last <= higher * (1 - pct / 100))%Q.
Proof.
  unfold Aux.trailing_stop_loss. cbn [fle exact_float]. unfold Exact.le.
  rewrite Qle_bool_iff, exact_threshold. reflexivity.
Qed.

(** With the highest price above the entry, the trailing threshold itself
    is a last price at which only the trailing stop fires. *)
Lemma exact_trailing_fires_first (entry higher pct : Q) :
  (entry < higher)%Q -> (pct < 100)%Q ->
  Aux.trailing_stop_loss (higher * (1 - pct / 100))%Q higher pct = true /\
  Aux.stop_loss (higher * (1 - pct / 100))%Q entry pct = false.
Proof.
  intros He Hp. split.
  - apply exact_trailing_stop_loss_iff. apply Qle_refl.
  - apply Bool.not_true_is_false. rewrite exact_stop_loss_iff.
    apply Qlt_not_le.
    assert (Hpos : (0 < 1 - pct / 100)%Q).
    { unfold Qdiv. change (/ 100)%Q with (1 # 100)%Q. lra. }
    nra.
Qed.

(** *** The order of binary64 *)

Lemma SFcompare_lt_gt (x y : spec_float) :
  SFcompare x y = Some Lt -> SFcompare y x = Some Gt.
Proof.
  destruct x as [sx|sx| |sx mx ex], y as [sy|sy| |sy my ey]; cbn [SFcompare];
    try discriminate;
    try (destruct sx; intros E; (discriminate E || reflexivity));
    try (destruct sy; intros E; (discriminate E || reflexivity));
    try (destruct sx, sy; intros E; (discriminate E || reflexivity)).
  rewrite (Z.compare_antisym ex ey).
  change (Pos.compare_cont Eq my mx) with (Pos.compare_cont (CompOpp Eq) my mx).
  rewrite <- (Pos.compare_cont_antisym mx my Eq).
  destruct sx, sy; try (intros E; (discriminate E || reflexivity));
    destruct (ex ?= ey)%Z; cbn [CompOpp];
    try (intros E; (discriminate E || reflexivity));
    destruct (Pos.compare_cont Eq mx my); cbn [CompOpp];
    intros E; (discriminate E || reflexivity).
Qed.

Lemma SFcompare_refl (x : spec_float) :
  x <> S754_nan -> SFcompare x x = Some Eq.
Proof.
  destruct x as [s|s| |s m e]; cbn [SFcompare]; intros Hx; try congruence.
  - destruct s; reflexivity.
  - rewrite Z.compare_refl, Pos.compare_cont_refl. destruct s; reflexivity.
Qed.

(** Below a float there is no float it is below or equal to. *)
Lemma ltb_leb_false (x y : float) :
  PrimFloat.ltb x y = true -> PrimFloat.leb y x = false.
Proof.
  rewrite ltb_spec, leb_spec. unfold SFltb, SFleb.
  destruct (SFcompare (Prim2SF x) (Prim2SF y)) as [[]|] eqn:E; try discriminate.
  rewrite (SFcompare_lt_gt _ _ E). reflexivity.
Qed.

Lemma ltb_leb_refl (x y : float) :
  PrimFloat.ltb x y = true -> PrimFloat.leb y y = true.
Proof.
  rewrite ltb_spec, leb_spec. unfold SFltb, SFleb.
  destruct (SFcompare (Prim2SF x) (Prim2SF y)) as [[]|] eqn:E; try discriminate.
  intros _. rewrite SFcompare_refl; [reflexivity|].
  intros Hy. rewrite Hy in E. destruct (Prim2SF x); discriminate.
Qed.

(** With the threshold of the entry below that of the highest price, the
    latter is a last price at which only the trailing stop fires. *)
Lemma binary64_trailing_fires_first (entry highest pct : float) :
  PrimFloat.ltb (Aux.threshold entry pct) (Aux.threshold highest pct) = true ->
  Aux.trailing_stop_loss (Aux.threshold highest pct) highest pct = true /\
  Aux.stop_loss (Aux.threshold highest pct) entry pct = false.
Proof.
  intros Hlt. split.
  - exact (ltb_leb_refl _ _ Hlt).
  - exact (ltb_leb_false _ _ Hlt).
Qed.

(** The conversion of an operand raises nothing but OverflowError. *)
Lemma as_float_raises (n : AuxNum.Num) (e : exn) :
  AuxNum.as_float n = Raise e -> e = OverflowError.
Proof.
  destruct n as [z|x]; cbn [AuxNum.as_float]; [|discriminate].
  destruct (Prim2SF (Binary64.of_Q (inject_Z z))); congruence.
Qed.

Lemma threshold_overflow (anchor pct : AuxNum.Num) :
  AuxNum.as_float anchor = Raise OverflowError \/
  AuxNum.as_float pct = Raise OverflowError ->
  AuxNum.threshold anchor pct = Raise OverflowError.
Proof.
  unfold AuxNum.threshold. intros [Ha|Hp].
  - rewrite Ha. destruct (AuxNum.as_float pct) as [p|e] eqn:Ep; [reflexivity|].
    rewrite (as_float_raises pct e Ep). reflexivity.
  - rewrite Hp. reflexivity.
Qed.

(** C6, as the code has it.  Both predicates compare [last] with
    [anchor * (1 - pct * 0.01)], computed in the arithmetic of their
    arguments, and are one and the same function of (last, anchor, pct).
    In exact arithmetic this is last <= anchor * (1 - pct / 100).  In
    Python, on float arguments they return the comparison with the
    binary64 threshold; when the anchor or the percentage is an int too
    large for a float they raise OverflowError, as stop_loss(1, 10**400, 1)
    does, and otherwise they return the exact comparison of the last price
    with the binary64 threshold.  In binary64, when the threshold of the
    entry is below that of the highest price, the latter threshold is a
    last price at which the trailing stop fires and the plain stop does
    not; a highest price above the entry is not enough: at entry 26580.0,
    highest 26580.000000000004 and pct 30 the two stops agree on every last
    price.  In exact arithmetic, with pct < 100, a highest price above the
    entry is enough.  At last=95, entry=100, highest=110, pct=10 the
    trailing stop fires and the plain stop does not, in both
    arithmetics. *)
Theorem stop_loss_thresholds :
  (forall last entry pct : Q,
      Aux.stop_loss last entry pct = true
      <-> (last <= entry * (1 - pct / 100))%Q) /\
  (forall last higher pct : Q,
      Aux.trailing_stop_loss last higher pct = true
      <-> (last <= higher * (1 - pct / 100))%Q) /\
  (forall (F : Type) (PF : PyFloat F) (last anchor pct : F),
      Aux.trailing_stop_loss last anchor pct = Aux.stop_loss last anchor pct) /\
  (forall last anchor pct : float,
      AuxNum.stop_loss (AuxNum.Float last) (AuxNum.Float anchor) (AuxNum.Float pct)
        = Return (Aux.stop_loss last anchor pct) /\
      AuxNum.trailing_stop_loss (AuxNum.Float last) (AuxNum.Float anchor)
          (AuxNum.Float pct)
        = Return (Aux.trailing_stop_loss last anchor pct)) /\
  (forall last anchor pct : AuxNum.Num,
      (AuxNum.as_float anchor = Raise OverflowError \/
       AuxNum.as_float pct = Raise OverflowError ->
       AuxNum.stop_loss last anchor pct = Raise OverflowError /\
       AuxNum.trailing_stop_loss last anchor pct = Raise OverflowError) /\
      (forall a p : float,
          AuxNum.as_float anchor = Return a ->
          AuxNum.as_float pct = Return p ->
          AuxNum.stop_loss last anchor pct
            = Return (AuxNum.le_float last (Aux.threshold a p)) /\
          AuxNum.trailing_stop_loss last anchor pct
            = Return (AuxNum.le_float last (Aux.threshold a p)))) /\
  (AuxNum.as_float (AuxNum.Int (10 ^ 400)) = Raise OverflowError /\
   AuxNum.stop_loss (AuxNum.Int 1) (AuxNum.Int (10 ^ 400)) (AuxNum.Int 1)
     = Raise OverflowError) /\
  (forall entry highest pct : float,
      PrimFloat.ltb (Aux.threshold entry pct) (Aux.threshold highest pct) = true ->
      Aux.trailing_stop_loss (Aux.threshold highest pct) highest pct = true /\
      Aux.stop_loss (Aux.threshold highest pct) entry pct = false) /\
  (PrimFloat.ltb 26580%float 26580.000000000004%float = true /\
   forall last : float,
     Aux.trailing_stop_loss last 26580.000000000004%float 30%float
     = Aux.stop_loss last 26580%float 30%float) /\
  (forall entry higher pct : Q,
      (entry < higher)%Q -> (pct < 100)%Q ->
      Aux.trailing_stop_loss (higher * (1 - pct / 100))%Q higher pct = true /\
      Aux.stop_loss (higher * (1 - pct / 100))%Q entry pct = false) /\
  (Aux.trailing_stop_loss 95%float 110%float 10%float = true /\
   Aux.stop_loss 95%float 100%float 10%float = false) /\
  (Aux.trailing_stop_loss 95%Q 110%Q 10%Q = true /\
   Aux.stop_loss 95%Q 100%Q 10%Q = false).
Proof.
  split; [exact exact_stop_loss_iff|].
  split; [exact exact_trailing_stop_loss_iff|].
  split; [reflexivity|].
  split; [intros; split; reflexivity|].
  split.
  { intros last anchor pct. split.
    - intros Hover. unfold AuxNum.stop_loss, AuxNum.trailing_stop_loss.
      rewrite (threshold_overflow anchor pct Hover). split; reflexivity.
    - intros a p Ea Ep.
      unfold AuxNum.stop_loss, AuxNum.trailing_stop_loss, AuxNum.threshold.
      rewrite Ea, Ep. split; reflexivity. }
  split; [split; vm_compute; reflexivity|].
  split; [exact binary64_trailing_fires_first|].
  split.
  { split; [vm_compute; reflexivity|].
    intros last. unfold Aux.trailing_stop_loss, Aux.stop_loss.
    f_equal; vm_compute; reflexivity. }
  split; [exact exact_trailing_fires_first|].
  split; split; vm_compute; reflexivity.
Qed.

(** Entry 100, highest 110, pct 10, in binary64: the thresholds are 90 and
    99, and at 99 only the trailing stop fires. *)
Lemma stop_loss_thresholds_witness :
  Aux.trailing_stop_loss (Aux.threshold 110%float 10%float) 110%float 10%float
    = true /\
  Aux.stop_loss (Aux.threshold 110%float 10%float) 100%float 10%float = false.
Proof.
  refine (proj1 (proj2 (proj2 (proj2 (proj2 (proj2 (proj2 stop_loss_thresholds))))))
            100%float 110%float 10%float _).
  vm_compute. reflexivity.
Defined.

(** C6 fails as stated on Python's numbers.  stop_loss(65, 100, 35) is
    false although 65 <= 100 * (1 - 35/100) = 65: in binary64,
    35 * 0.01 = 0.35000000000000003, 1 - 0.35000000000000003
    = 0.6499999999999999 and 100 * 0.6499999999999999 = 64.99999999999999,
    which is below 65; the same holds of trailing_stop_loss, and of int
    arguments.  The functions are not total: stop_loss(1, 10**400, 1)
    raises OverflowError.  And a highest price above the entry does not
    always leave a last price between the two stops: at entry 26580.0,
    highest 26580.000000000004 and pct 30 both thresholds are 18606.0. *)
Lemma stop_loss_boundary_counterexample :
  (PrimFloat.mul 35 0.01 = 0.35000000000000003%float /\
   PrimFloat.sub 1 0.35000000000000003 = 0.64999999999999991%float /\
   PrimFloat.mul 100 0.64999999999999991 = 64.999999999999986%float /\
   Aux.stop_loss 65%float 100%float 35%float = false /\
   Aux.trailing_stop_loss 65%float 100%float 35%float = false /\
   AuxNum.stop_loss (AuxNum.Int 65) (AuxNum.Int 100) (AuxNum.Int 35)
     = Return false /\
   (65 <= 100 * (1 - 35 / 100))%Q) /\
  AuxNum.stop_loss (AuxNum.Int 1) (AuxNum.Int (10 ^ 400)) (AuxNum.Int 1)
    = Raise OverflowError /\
  (PrimFloat.ltb 26580%float 26580.000000000004%float = true /\
   Aux.threshold 26580%float 30%float = 18606%float /\
   Aux.threshold 26580.000000000004%float 30%float = 18606%float).
Proof.
  repeat split; try (vm_compute; reflexivity).
  vm_compute. discriminate.
Qed.

End ExitTriggers.

(** ** C5: the quantity of a default sell *)

Section DefaultSell.
Import Binance Run Scenario.

Section Generic.
Context {F : Type} `{PyFloat F}.
Variable conn : @Client F.

Lemma prec_quantity_computed (base : string) (w : World) (a : Asset)
    (i : AssetInfo) (r q : F) :
  assets w !! base = Some a ->
  info a = Some i ->
  fmod (available a) (lot_size i) = Return r ->
  fround (fsub (available a) r) (precision i) = Return q ->
  prec_quantity_of base w = (Return q, w).
Proof.
  intros Ea Ei Er Eq.
  unfold prec_quantity_of, info_field, asset_of, bind, get, lift, getitem, ret.
  rewrite Ea. cbv beta iota. rewrite Ei. cbv beta iota.
  rewrite Er. cbv beta iota. rewrite Ea. cbv beta iota. rewrite Ei.
  cbv beta iota. rewrite Eq. reflexivity.
Qed.

(** A default sell whose quantity could be computed: the one order it
    sends and what it returns. *)
Lemma sell_default_order (coin currency : string) (quantity : F) (w : World)
    (rows : list BalanceRow) (a : Asset) (i : AssetInfo) (r q : F) :
  get_account conn (calls w) = Return rows ->
  ftruth quantity = false ->
  assets (refreshed rows w) !! replace_empty coin currency = Some a ->
  info a = Some i ->
  fmod (available a) (lot_size i) = Return r ->
  fround (fsub (available a) r) (precision i) = Return q ->
  orders (calls (snd (sell conn coin currency quantity w)))
    = orders (calls w) ++ [OrderMarketSell coin q] /\
  (forall o : Payload,
      order_market_sell conn (calls (refreshed rows w)) coin q = Return o ->
      fst (sell conn coin currency quantity w) = Return (true, SellOrder o)) /\
  (forall e : exn,
      order_market_sell conn (calls (refreshed rows w)) coin q = Raise e ->
      fst (sell conn coin currency quantity w)
        = Return (false, SellError e coin q (available a) (info a))).
Proof.
  intros Eacc Ht Ea Ei Er Eq.
  assert (Hsell : sell conn coin currency quantity w
            = (match order_market_sell conn (calls (refreshed rows w)) coin q with
               | Return o => Return (true, SellOrder o)
               | Raise e => Return (false, SellError e coin q (available a) (info a))
               end,
               log_call (OrderMarketSell coin q) (refreshed rows w))).
  { unfold sell.
    rewrite (bind_return _ _ _ _ _ (refresh_answered conn w rows Eacc)).
    rewrite Ht. cbn [negb].
    unfold try_ at 1. unfold bind at 1.
    rewrite (prec_quantity_computed _ _ a i r q Ea Ei Er Eq).
    unfold try_, call, bind, asset_of, get, lift, getitem, ret.
    destruct (order_market_sell conn (calls (refreshed rows w)) coin q) as [o|e];
      [reflexivity|].
    unfold bind, get. cbn [assets log_call]. rewrite Ea. reflexivity. }
  rewrite Hsell. cbn [fst snd].
  split; [|split].
  - cbn [calls log_call refreshed set_assets].
    rewrite !orders_app. cbn. rewrite app_nil_r. reflexivity.
  - intros o E. rewrite E. reflexivity.
  - intros e E. rewrite E. reflexivity.
Qed.

End Generic.

(** *** The arithmetic of the lot grid, exactly *)

Lemma round_half_even_integer (q : Q) (z : Z) :
  (q == inject_Z z)%Q -> round_half_even q = z.
Proof.
  destruct q as [n d]. unfold Qeq, round_half_even. cbn [Qnum Qden inject_Z].
  intros E. rewrite Z.mul_1_r in E. subst n.
  rewrite Z.div_mul, Z.mod_mul by discriminate.
  reflexivity.
Qed.

Lemma pow10_nonzero (p : Z) : ~ (pow10 p == 0)%Q.
Proof. apply Qpower_not_0. discriminate. Qed.

(** Rounding to [p] decimals leaves a value of the decimal grid alone. *)
Lemma round_decimal_on_grid (x : Q) (p z : Z) :
  (x * pow10 p == inject_Z z)%Q -> (round_decimal x p == x)%Q.
Proof.
  intros E. unfold round_decimal.
  rewrite Qred_correct, (round_half_even_integer _ z E), <- E.
  apply Qdiv_mult_l, pow10_nonzero.
Qed.

Lemma exact_mod_positive (x lot : Q) :
  (0 < lot)%Q ->
  fmod x lot = Return (Qred (x - lot * inject_Z (Qfloor (x / lot)))).
Proof.
  intros Hl. cbn [fmod exact_float]. unfold Exact.mod_.
  destruct (Qeq_bool lot 0) eqn:E; [|reflexivity].
  apply Qeq_bool_eq in E. rewrite E in Hl. discriminate Hl.
Qed.

(** The multiple of the lot size at or below [x]. *)
Lemma lot_floor_le (x lot : Q) :
  (0 < lot)%Q -> (lot * inject_Z (Qfloor (x / lot)) <= x)%Q.
Proof.
  intros Hl.
  assert (E : (x == lot * (x / lot))%Q) by (field; lra).
  rewrite E at 2.
  apply Qmult_le_l; [assumption | apply Qfloor_le].
Qed.

Lemma exact_lot_rounding (x lot : Q) (p k : Z) :
  (0 < lot)%Q ->
  (lot * pow10 p == inject_Z k)%Q ->
  exists r q : Q,
    fmod x lot = Return r /\
    fround (fsub x r) p = Return q /\
    (q == x - r)%Q /\
    (q <= x)%Q /\
    exists r' : Q, fmod q lot = Return r' /\ (r' == 0)%Q.
Proof.
  intros Hl Hk.
  set (n := Qfloor (x / lot)).
  exists (Qred (x - lot * inject_Z n)).
  exists (round_decimal (fsub x (Qred (x - lot * inject_Z n))) p).
  assert (Hsub : (fsub x (Qred (x - lot * inject_Z n)) == lot * inject_Z n)%Q).
  { cbn [fsub exact_float]. unfold Exact.sub. rewrite !Qred_correct. ring. }
  assert (Hq : (round_decimal (fsub x (Qred (x - lot * inject_Z n))) p
                == lot * inject_Z n)%Q).
  { rewrite (round_decimal_on_grid _ p (k * n)); [exact Hsub|].
    rewrite Hsub, inject_Z_mult, <- Hk. ring. }
  split; [apply exact_mod_positive; assumption|].
  split; [reflexivity|].
  split; [rewrite Hq, Qred_correct; ring|].
  split; [rewrite Hq; apply lot_floor_le; assumption|].
  eexists. split; [apply exact_mod_positive; assumption|].
  rewrite Qred_correct.
  assert (Hn : Qfloor (round_decimal (fsub x (Qred (x - lot * inject_Z n))) p / lot)
      = n).
  { transitivity (Qfloor (inject_Z n)); [|apply Qfloor_Z].
    apply Qfloor_comp. rewrite Hq. field. lra. }
  rewrite Hn, Hq. ring.
Qed.

(** C5, as the code has it.  A [sell] without a quantity sends one market
    order, for round(available - (available mod L), p) with the refreshed
    available balance of the base asset: the modulus is subtracted first
    and the difference is rounded, all in the arithmetic of the numbers at
    hand.  The two bounds hold in exact arithmetic only, and there for a
    lot size L > 0 that is a whole multiple of 10^-p: the rounding then
    changes nothing, and the quantity is available - (available mod L), at
    most the available balance and a multiple of L.  In binary64, which
    the code runs, they fail for such lot sizes too: with 1.0 available,
    L = 0.1 and p = 1 the order is for 0.9, and 0.9 mod 0.1 is
    0.09999999999999998; with 0.00020999999999999998 available, L = 0.00007
    and p = 8 the order is for 0.00021, above what is available. *)
Theorem default_sell_quantity :
  (forall (F : Type) (PF : PyFloat F) (conn : @Client F)
          (coin currency : string) (quantity : F) (w : World)
          (rows : list BalanceRow) (a : Asset) (i : AssetInfo) (r q : F),
      get_account conn (calls w) = Return rows ->
      ftruth quantity = false ->
      assets (refreshed rows w) !! replace_empty coin currency = Some a ->
      info a = Some i ->
      fmod (available a) (lot_size i) = Return r ->
      fround (fsub (available a) r) (precision i) = Return q ->
      orders (calls (snd (sell conn coin currency quantity w)))
        = orders (calls w) ++ [OrderMarketSell coin q]) /\
  (forall (x lot : Q) (p k : Z),
      (0 < lot)%Q ->
      (lot * pow10 p == inject_Z k)%Q ->
      exists r q : Q,
        fmod x lot = Return r /\
        fround (fsub x r) p = Return q /\
        (q == x - r)%Q /\
        (q <= x)%Q /\
        exists r' : Q, fmod q lot = Return r' /\ (r' == 0)%Q) /\
  (orders (calls (snd (sell (lot_market 1000 1 (1 # 10) 1)
                         "BTCUSDT" "USDT" 0%float
                         (after_purchase (lot_market 1000 1 (1 # 10) 1)))))
     = [OrderMarketBuy "BTCUSDT" 500%float; OrderMarketSell "BTCUSDT" 0.9%float] /\
   fmod 0.9%float 0.1%float = Return 0.09999999999999998%float /\
   orders (calls (snd (sell
                         (lot_market 1000
                            (20999999999999998 # 100000000000000000000)
                            (7 # 100000) 8)
                         "BTCUSDT" "USDT" 0%float
                         (after_purchase
                            (lot_market 1000
                               (20999999999999998 # 100000000000000000000)
                               (7 # 100000) 8)))))
     = [OrderMarketBuy "BTCUSDT" 500%float;
        OrderMarketSell "BTCUSDT" 0.00021%float] /\
   lit (20999999999999998 # 100000000000000000000)
     = 0.00020999999999999998%float /\
   PrimFloat.ltb 0.00020999999999999998%float 0.00021%float = true).
Proof.
  split; [|split; [exact exact_lot_rounding|]].
  - intros F PF conn coin currency quantity w rows a i r q Eacc Ht Ea Ei Er Eq.
    exact (proj1 (sell_default_order conn coin currency quantity w rows a i r q
                    Eacc Ht Ea Ei Er Eq)).
  - repeat split; vm_compute; reflexivity.
Qed.

(** Selling all of 1.5 BTC with a step size of 0.25 and a precision of 2,
    after a first purchase (binary64): 1.5 mod 0.25 = 0 and the order is
    for 1.5.  And in exact arithmetic, 1.23456789 BTC with a step size of
    0.001 = 100000 * 10^-8 and a precision of 8. *)
Lemma default_sell_quantity_witness :
  orders (calls (snd (sell (lot_market 1000 (3 # 2) (1 # 4) 2)
                        "BTCUSDT" "USDT" 0%float
                        (after_purchase (lot_market 1000 (3 # 2) (1 # 4) 2)))))
    = [OrderMarketBuy "BTCUSDT" 500%float]
      ++ [OrderMarketSell "BTCUSDT" 1.5%float] /\
  exists r q : Q,
    fmod (123456789 # 100000000)%Q (1 # 1000)%Q = Return r /\
    fround (fsub (123456789 # 100000000)%Q r) 8 = Return q /\
    (q == (123456789 # 100000000) - r)%Q /\
    (q <= 123456789 # 100000000)%Q /\
    exists r' : Q, fmod q (1 # 1000)%Q = Return r' /\ (r' == 0)%Q.
Proof.
  split.
  - refine (proj1 default_sell_quantity float _
              (lot_market 1000 (3 # 2) (1 # 4) 2) "BTCUSDT" "USDT" 0%float
              (after_purchase (lot_market 1000 (3 # 2) (1 # 4) 2))
              (btc_account 1000 (3 # 2))
              {| available := 1.5%float; pending := 0%float;
                 info := Some (btc_info (1 # 4) 2) |}
              (btc_info (1 # 4) 2) 0%float 1.5%float _ _ _ _ _ _);
      vm_compute; reflexivity.
  - refine (proj1 (proj2 default_sell_quantity) (123456789 # 100000000)%Q
              (1 # 1000)%Q 8 100000 _ _); vm_compute; reflexivity.
Defined.

(** C5 fails as stated, in the arithmetic the code runs and for lot sizes
    on the decimal grid of the precision.  After a first purchase, in
    binary64: with 1.0 BTC available, a step size of 0.1 and a precision of
    1 the sell order is for 0.9, which leaves 0.1 BTC unsold, and
    0.9 mod 0.1 = 0.09999999999999998 is not 0; with
    0.00020999999999999998 BTC available, a step size of 0.00007 and a
    precision of 8 the order is for 0.00021, which exceeds what is
    available.  In exact arithmetic the first order is for 1.  And for a
    lot size off the grid, a step size of 0.25 with a precision of 1 (all
    values binary fractions): 0.25 BTC available gives an order for
    round(0.25, 1) = 0.2, with 0.2 mod 0.25 = 0.2, and 0.75 BTC gives
    round(0.75, 1) = 0.8, which exceeds 0.75; in binary64 and in exact
    arithmetic alike. *)
Lemma default_sell_quantity_counterexample :
  (orders (calls (snd (sell (lot_market 1000 1 (1 # 10) 1)
                         "BTCUSDT" "USDT" 0%float
                         (after_purchase (lot_market 1000 1 (1 # 10) 1)))))
     = [OrderMarketBuy "BTCUSDT" 500%float; OrderMarketSell "BTCUSDT" 0.9%float] /\
   fmod 0.9%float 0.1%float = Return 0.09999999999999998%float /\
   PrimFloat.eqb 0.09999999999999998%float 0%float = false /\
   orders (calls (snd (sell (F := Q) (lot_market 1000 1 (1 # 10) 1)
                         "BTCUSDT" "USDT" 0%Q
                         (after_purchase (lot_market 1000 1 (1 # 10) 1)))))
     = [OrderMarketBuy "BTCUSDT" 500%Q; OrderMarketSell "BTCUSDT" 1%Q] /\
   orders (calls (snd (sell
                         (lot_market 1000
                            (20999999999999998 # 100000000000000000000)
                            (7 # 100000) 8)
                         "BTCUSDT" "USDT" 0%float
                         (after_purchase
                            (lot_market 1000
                               (20999999999999998 # 100000000000000000000)
                               (7 # 100000) 8)))))
     = [OrderMarketBuy "BTCUSDT" 500%float;
        OrderMarketSell "BTCUSDT" 0.00021%float] /\
   lit (20999999999999998 # 100000000000000000000)
     = 0.00020999999999999998%float /\
   PrimFloat.ltb 0.00020999999999999998%float 0.00021%float = true) /\
  (orders (calls (snd (sell (lot_market 1000 (1 # 4) (1 # 4) 1)
                         "BTCUSDT" "USDT" 0%float
                         (after_purchase (lot_market 1000 (1 # 4) (1 # 4) 1)))))
     = [OrderMarketBuy "BTCUSDT" 500%float; OrderMarketSell "BTCUSDT" 0.2%float] /\
   fmod 0.2%float 0.25%float = Return 0.2%float /\
   orders (calls (snd (sell (lot_market 1000 (3 # 4) (1 # 4) 1)
                         "BTCUSDT" "USDT" 0%float
                         (after_purchase (lot_market 1000 (3 # 4) (1 # 4) 1)))))
     = [OrderMarketBuy "BTCUSDT" 500%float; OrderMarketSell "BTCUSDT" 0.8%float] /\
   PrimFloat.ltb 0.75%float 0.8%float = true) /\
  (orders (calls (snd (sell (F := Q) (lot_market 1000 (1 # 4) (1 # 4) 1)
                         "BTCUSDT" "USDT" 0%Q
                         (after_purchase (lot_market 1000 (1 # 4) (1 # 4) 1)))))
     = [OrderMarketBuy "BTCUSDT" 500%Q; OrderMarketSell "BTCUSDT" (1 # 5)%Q] /\
   fmod (1 # 5)%Q (1 # 4)%Q = Return (1 # 5)%Q /\
   orders (calls (snd (sell (F := Q) (lot_market 1000 (3 # 4) (1 # 4) 1)
                         "BTCUSDT" "USDT" 0%Q
                         (after_purchase (lot_market 1000 (3 # 4) (1 # 4) 1)))))
     = [OrderMarketBuy "BTCUSDT" 500%Q; OrderMarketSell "BTCUSDT" (4 # 5)%Q] /\
   ~ ((4 # 5) <= (3 # 4))%Q).
Proof.
  split; [|split]; repeat split; try (vm_compute; reflexivity).
  vm_compute. congruence.
Qed.

End DefaultSell.

(** ** C3: how failures reach the caller *)

Section FailureReporting.
Import Binance Run Scenario.

Section Generic.
Context {F : Type} `{PyFloat F}.
Variable conn : @Client F.

(** A placement that raises is caught by the [try] of [buy]. *)
Lemma submit_rejected (coin currency : string) (price q : F) (w w1 : World)
    (e : exn) :
  place_buy conn coin currency price q w = (Raise e, w1) ->
  buy_submit conn coin currency price q w = (Return (false, BuyErrorExn e), w1).
Proof.
  intros E. unfold buy_submit, try_, bind. rewrite E. reflexivity.
Qed.

Lemma buy_unknown_currency (coin currency : string) (price : F) (w : World)
    (rows : list BalanceRow) :
  get_account conn (calls w) = Return rows ->
  assets (refreshed rows w) !! currency = None ->
  buy conn coin currency price w = (Raise (KeyError currency), refreshed rows w).
Proof.
  intros Eacc Ea.
  assert (Hs : buy_size conn currency w
                 = (Raise (KeyError currency), refreshed rows w)).
  { unfold buy_size.
    rewrite (bind_return _ _ _ _ _ (refresh_answered conn w rows Eacc)).
    unfold asset_of, bind, get, lift, getitem. rewrite Ea. reflexivity. }
  unfold buy. exact (bind_raise _ _ _ _ _ Hs).
Qed.

Lemma get_balances_all (w : World) (rows : list BalanceRow) :
  get_account conn (calls w) = Return rows ->
  get_balances conn NoCoins w
    = (Return (AllAssets (assets (refreshed rows w))), refreshed rows w).
Proof.
  intros Eacc. unfold get_balances.
  rewrite (bind_return _ _ _ _ _ (refresh_answered conn w rows Eacc)).
  reflexivity.
Qed.

Lemma get_balances_unknown (c : string) (w : World) (rows : list BalanceRow) :
  get_account conn (calls w) = Return rows ->
  c <> EmptyString ->
  assets (refreshed rows w) !! c = None ->
  get_balances conn (OneCoin c) w = (Raise (KeyError c), refreshed rows w).
Proof.
  intros Eacc Hc Ea. unfold get_balances.
  rewrite (bind_return _ _ _ _ _ (refresh_answered conn w rows Eacc)).
  unfold bind, get, lift, getitem. cbn [no_coins].
  destruct c as [|ch rest]; [contradiction|].
  rewrite Ea. reflexivity.
Qed.

(** A default [sell] of an asset the ledger holds no metadata for: the
    KeyError is caught, and the handler then reads [prec_quantity], which
    was never bound. *)
Lemma sell_without_metadata (coin currency : string) (quantity : F) (w : World)
    (rows : list BalanceRow) (a : Asset) :
  get_account conn (calls w) = Return rows ->
  ftruth quantity = false ->
  assets (refreshed rows w) !! replace_empty coin currency = Some a ->
  info a = None ->
  sell conn coin currency quantity w
    = (Raise (UnboundLocalError "prec_quantity"), refreshed rows w).
Proof.
  intros Eacc Ht Ea Ei. unfold sell.
  rewrite (bind_return _ _ _ _ _ (refresh_answered conn w rows Eacc)).
  rewrite Ht. cbn [negb].
  unfold try_, prec_quantity_of, info_field, asset_of, bind, get, lift, getitem.
  rewrite Ea. cbv beta iota. rewrite Ei. reflexivity.
Qed.

(** An exception of the balance refresh leaves each operation as it is. *)
Lemma refresh_failure_propagates (w : World) (e : exn) :
  get_account conn (calls w) = Raise e ->
  (forall (coin currency : string) (price : F),
      fst (buy conn coin currency price w) = Raise e) /\
  (forall (coin currency : string) (quantity : F),
      fst (sell conn coin currency quantity w) = Raise e) /\
  (forall coins : Coins, fst (get_balances conn coins w) = Raise e).
Proof.
  intros E. pose proof (refresh_failed conn w e E) as Hr.
  split; [|split]; intros.
  - unfold buy.
    rewrite (bind_raise _ _ _ _ _
               (bind_raise (refresh_balance conn) _ _ _ _ Hr
                   : buy_size conn currency w = _)).
    reflexivity.
  - unfold sell. rewrite (bind_raise _ _ _ _ _ Hr). reflexivity.
  - unfold get_balances. rewrite (bind_raise _ _ _ _ _ Hr). reflexivity.
Qed.

End Generic.

(** C3, as the code has it.  [buy] and [sell] return a pair
    (False, info), without raising, for an account under its minimum, for a
    spend over the available balance, and for a placement call that the
    exchange client rejects by raising.  [get_balances] returns the ledger
    itself and [cancel_order] the client's answer, neither a pair; an asset
    the ledger does not know raises KeyError out of [get_balances] and out
    of [buy]; whatever the client raises in [cancel_order] or in the
    balance refresh reaches the caller. *)
Theorem failure_reporting
    (F : Type) (PF : PyFloat F) (conn : @Client F) (w : World) :
  (forall (coin currency : string) (price : F)
          (rows : list BalanceRow) (a : Asset) (m : F),
      get_account conn (calls w) = Return rows ->
      assets (refreshed rows w) !! currency = Some a ->
      min_limit w !! currency = Some m ->
      (flt (cur_balance a) m = true ->
         buy conn coin currency price w
           = (Return (false, BuyErrorText "Insufficient funds"),
              refreshed rows w)) /\
      (flt (cur_balance a) m = false ->
       fgt (quantity_to_buy a (risk w)) (available a) = true ->
         buy conn coin currency price w
           = (Return (false, BuyErrorText "Portfolio has no space for new assets"),
              refreshed rows w)) /\
      (flt (cur_balance a) m = false ->
       fgt (quantity_to_buy a (risk w)) (available a) = false ->
       forall (e : exn) (w1 : World),
         place_buy conn coin currency price (quantity_to_buy a (risk w))
             (refreshed rows w) = (Raise e, w1) ->
         buy conn coin currency price w
           = (Return (false, BuyErrorExn e), w1))) /\
  (forall (coin currency : string) (quantity : F)
          (rows : list BalanceRow) (a : Asset) (i : AssetInfo) (r q : F)
          (e : exn),
      get_account conn (calls w) = Return rows ->
      ftruth quantity = false ->
      assets (refreshed rows w) !! replace_empty coin currency = Some a ->
      info a = Some i ->
      fmod (available a) (lot_size i) = Return r ->
      fround (fsub (available a) r) (precision i) = Return q ->
      order_market_sell conn (calls (refreshed rows w)) coin q = Raise e ->
      fst (sell conn coin currency quantity w)
        = Return (false, SellError e coin q (available a) (info a))) /\
  (forall rows : list BalanceRow,
      get_account conn (calls w) = Return rows ->
      get_balances conn NoCoins w
        = (Return (AllAssets (assets (refreshed rows w))), refreshed rows w)) /\
  (forall (c : string) (rows : list BalanceRow),
      get_account conn (calls w) = Return rows ->
      c <> EmptyString ->
      assets (refreshed rows w) !! c = None ->
      get_balances conn (OneCoin c) w = (Raise (KeyError c), refreshed rows w)) /\
  (forall (coin currency : string) (price : F) (rows : list BalanceRow),
      get_account conn (calls w) = Return rows ->
      assets (refreshed rows w) !! currency = None ->
      buy conn coin currency price w
        = (Raise (KeyError currency), refreshed rows w)) /\
  (forall sym order_id : string,
      cancel_order conn sym order_id w
        = (conn_cancel_order conn (calls w) sym order_id,
           log_call (CancelOrder sym order_id) w)) /\
  (forall e : exn,
      get_account conn (calls w) = Raise e ->
      (forall (coin currency : string) (price : F),
          fst (buy conn coin currency price w) = Raise e) /\
      (forall (coin currency : string) (quantity : F),
          fst (sell conn coin currency quantity w) = Raise e) /\
      (forall coins : Coins, fst (get_balances conn coins w) = Raise e)).
Proof.
  split; [|split; [|split; [|split; [|split; [|split]]]]].
  - intros coin currency price rows a m Eacc Ea Em.
    pose proof (buy_size_answered conn currency w rows a m Eacc Ea Em) as Hs.
    split; [|split].
    + intros Hmin. rewrite Hmin in Hs. exact (buy_early conn _ _ _ _ _ _ Hs).
    + intros Hmin Hg. rewrite Hmin, Hg in Hs. exact (buy_early conn _ _ _ _ _ _ Hs).
    + intros Hmin Hg e w1 Hp. rewrite Hmin, Hg in Hs.
      rewrite (buy_sized conn _ _ _ _ _ _ Hs).
      exact (submit_rejected conn _ _ _ _ _ _ _ Hp).
  - intros coin currency quantity rows a i r q e Eacc Ht Ea Ei Er Eq Eo.
    exact (proj2 (proj2 (sell_default_order conn coin currency quantity w rows
                           a i r q Eacc Ht Ea Ei Er Eq)) e Eo).
  - exact (get_balances_all conn w).
  - intros c rows. exact (get_balances_unknown conn c w rows).
  - intros coin currency price rows.
    exact (buy_unknown_currency conn coin currency price w rows).
  - reflexivity.
  - exact (refresh_failure_propagates conn w).
Qed.

(** A market buy of half of 1000 USDT on an exchange that rejects the
    order (binary64): the pair (False, {'error': e}). *)
Lemma failure_reporting_witness :
  buy (rejecting 1000 0) "BTCUSDT" "USDT" 0%float (started (rejecting 1000 0) (1 # 2))
    = (Return (false, BuyErrorExn (ExchangeError "rejected")),
       log_call (OrderMarketBuy "BTCUSDT" 500%float)
         (refreshed (usdt_account 1000 0) (started (rejecting 1000 0) (1 # 2)))).
Proof.
  refine (proj2 (proj2 (proj1 (failure_reporting float _ (rejecting 1000 0)
            (started (rejecting 1000 0) (1 # 2))) "BTCUSDT" "USDT" 0%float
                (usdt_account 1000 0)
            (plain 1000 0) 50%float _ _ _)) _ _
            (ExchangeError "rejected") _ _);
    vm_compute; reflexivity.
Defined.

(** C3 fails as stated: asking [get_balances] for an asset the account
    does not list raises KeyError; a cancellation that the exchange
    rejects raises out of [cancel_order]; a [buy] against a quote
    currency the account does not list raises KeyError; and what
    [get_balances] returns when it returns is the ledger, not a pair. *)
Lemma failure_reporting_counterexample :
  fst (get_balances (quiet 1000 0 "NEW") (OneCoin "DOGE")
         (started (F := float) (quiet 1000 0 "NEW") (1 # 2)))
    = Raise (KeyError "DOGE") /\
  fst (cancel_order (rejecting 1000 0) "BTCUSDT" "42"
         (started (F := float) (rejecting 1000 0) (1 # 2)))
    = Raise (ExchangeError "rejected") /\
  fst (buy (quiet 1000 0 "NEW") "BTCETH" "ETH" 0%float
      (started (quiet 1000 0 "NEW") (1 # 2)))
    = Raise (KeyError "ETH") /\
  fst (get_balances (quiet 1000 0 "NEW") NoCoins
      (started (F := float) (quiet 1000 0 "NEW") (1 # 2)))
    = Return (AllAssets (assets (refreshed (usdt_account 1000 0)
                                   (started (quiet 1000 0 "NEW") (1 # 2))))).
Proof.
  repeat split; vm_compute; reflexivity.
Qed.

End FailureReporting.

(** ** C9: two calls of buy *)

Section TwoBuys.
Import Binance Run Ledger Scenario.

Section Generic.
Context {F : Type} `{PyFloat F}.
Variable conn : @Client F.

Lemma refresh_row_lookup (m : gmap string (@Asset F)) (row : BalanceRow) (c : string) :
  refresh_row m row !! c = refresh_entry c (m !! c) row.
Proof.
  unfold refresh_row, refresh_entry, fresh_asset.
  destruct (String.eqb_spec (asset row) c) as [<-|Hne].
  - destruct (m !! asset row) as [old|]; rewrite lookup_insert_eq; reflexivity.
  - destruct (m !! asset row) as [old|]; rewrite lookup_insert_ne by assumption;
      reflexivity.
Qed.

Lemma refresh_fold_lookup (rows : list BalanceRow) (m : gmap string (@Asset F))
    (c : string) :
  fold_left refresh_row rows m !! c = fold_left (refresh_entry c) rows (m !! c).
Proof.
  revert m. induction rows as [|row rows IH]; intros m; [reflexivity|].
  cbn [fold_left]. rewrite IH, refresh_row_lookup. reflexivity.
Qed.

Lemma refresh_entry_info (c : string) (rows : list BalanceRow) (o : option (@Asset F)) :
  info_of (fold_left (refresh_entry c) rows o) = info_of o.
Proof.
  revert o. induction rows as [|row rows IH]; intros o; [reflexivity|].
  cbn [fold_left]. rewrite IH. unfold refresh_entry.
  destruct (String.eqb (asset row) c); reflexivity.
Qed.

Lemma refresh_entry_hit (c : string) (o : option (@Asset F)) (row : BalanceRow) :
  String.eqb (asset row) c = true ->
  refresh_entry c o row
  = Some {| available := free row; pending := locked row; info := info_of o |}.
Proof. intros E. unfold refresh_entry. rewrite E. reflexivity. Qed.

Lemma refresh_entry_miss (c : string) (o : option (@Asset F)) (row : BalanceRow) :
  String.eqb (asset row) c = false -> refresh_entry c o row = o.
Proof. intros E. unfold refresh_entry. rewrite E. reflexivity. Qed.

(** Refreshing twice from the same answer is refreshing once. *)
Lemma refresh_entry_twice (c : string) (rows : list BalanceRow) (o
    : option (@Asset F)) :
  fold_left (refresh_entry c) rows (fold_left (refresh_entry c) rows o)
  = fold_left (refresh_entry c) rows o.
Proof.
  induction rows as [|row rows IH] using rev_ind; [reflexivity|].
  rewrite !fold_left_app. cbn [fold_left].
  destruct (String.eqb (asset row) c) eqn:E.
  - rewrite !(refresh_entry_hit c _ row E).
    rewrite refresh_entry_info. reflexivity.
  - rewrite !(refresh_entry_miss c _ row E). exact IH.
Qed.












End Generic.




End TwoBuys.

(** * Further properties of riskmanagement.py *)

(** ** The ledger under refresh_balance and init_balance *)

Section LedgerRefresh.
Import Binance Run Ledger Scenario.

Section Generic.
Context {F : Type} `{PyFloat F}.
Variable conn : @Client F.

Lemma refresh_entry_unlisted (c : string) (rows : list BalanceRow)
    (o : option (@Asset F)) :
  listed c rows = false -> fold_left (refresh_entry c) rows o = o.
Proof.
  revert o. induction rows as [|row rows IH]; intros o Hl; [reflexivity|].
  cbn [listed existsb] in Hl. apply Bool.orb_false_iff in Hl as [Hrow Hrest].
  cbn [fold_left]. rewrite (refresh_entry_miss c o row Hrow). exact (IH o Hrest).
Qed.

Lemma refresh_entry_last (c : string) (pre post : list BalanceRow)
    (row : BalanceRow) (o : option (@Asset F)) :
  asset row = c ->
  listed c post = false ->
  fold_left (refresh_entry c) (pre ++ row :: post) o
  = Some {| available := free row; pending := locked row; info := info_of o |}.
Proof.
  intros Hc Hpost. rewrite fold_left_app. cbn [fold_left].
  rewrite refresh_entry_unlisted by assumption.
  rewrite refresh_entry_hit by (rewrite Hc; apply String.eqb_refl).
  rewrite refresh_entry_info. reflexivity.
Qed.

Lemma refresh_entry_some (c : string) (rows : list BalanceRow)
    (o : option (@Asset F)) :
  is_Some o -> is_Some (fold_left (refresh_entry c) rows o).
Proof.
  revert o. induction rows as [|row rows IH]; intros o Ho; [exact Ho|].
  cbn [fold_left]. apply IH. unfold refresh_entry.
  destruct (String.eqb (asset row) c); [eexists; reflexivity | exact Ho].
Qed.

(** The ledger after a refresh, whatever the exchange did. *)
Lemma refresh_assets (w : World) :
  assets (snd (refresh_balance conn w))
  = match get_account conn (calls w) with
    | Return rows => fold_left refresh_row rows (assets w)
    | Raise _ => assets w
    end.
Proof.
  destruct (get_account conn (calls w)) as [rows|e] eqn:E.
  - rewrite (refresh_answered conn w rows E). reflexivity.
  - rewrite (refresh_failed conn w e E). reflexivity.
Qed.

End Generic.

(** X1.  [refresh_balance] never drops an asset from the ledger and never
    touches the metadata stored for one, whatever the exchange answers (or
    raises). *)
Theorem refresh_keeps_assets_and_metadata
    (F : Type) (PF : PyFloat F) (conn : @Client F) (w : World) (c : string) :
  info_of (assets (snd (refresh_balance conn w)) !! c) = info_of (assets w !! c) /\
  (is_Some (assets w !! c) -> is_Some (assets (snd (refresh_balance conn w)) !! c)).
Proof.
  rewrite refresh_assets.
  destruct (get_account conn (calls w)) as [rows|e]; [|split; [reflexivity|tauto]].
  rewrite refresh_fold_lookup. split.
  - apply refresh_entry_info.
  - apply refresh_entry_some.
Qed.

(** X2.  After an answered refresh, an asset listed by the exchange carries
    the free and locked amounts of its last row and keeps its metadata; an
    asset the exchange does not list is left as it was. *)
Theorem refresh_tracks_last_row
    (F : Type) (PF : PyFloat F) (conn : @Client F) (w : World)
    (rows : list BalanceRow) :
  get_account conn (calls w) = Return rows ->
  (forall (pre post : list BalanceRow) (row : BalanceRow),
      rows = pre ++ row :: post ->
      listed (asset row) post = false ->
      assets (snd (refresh_balance conn w)) !! asset row
      = Some {| available := free row; pending := locked row;
                info := info_of (assets w !! asset row) |}) /\
  (forall c : string,
      listed c rows = false ->
      assets (snd (refresh_balance conn w)) !! c = assets w !! c).
Proof.
  intros E. rewrite refresh_assets, E. split.
  - intros pre post row -> Hpost.
    rewrite refresh_fold_lookup. apply refresh_entry_last; [reflexivity|assumption].
  - intros c Hc. rewrite refresh_fold_lookup. apply refresh_entry_unlisted, Hc.
Qed.

(** 1000 USDT free and 5 locked, reported to an object that holds nothing
    yet (binary64). *)
Lemma refresh_tracks_last_row_witness :
  assets (snd (refresh_balance (quiet 1000 5 "NEW") (new 50 0.001 0.5)%float))
    !! "USDT"
  = Some {| available := 1000%float; pending := 5%float; info := None |}.
Proof.
  refine (proj1 (refresh_tracks_last_row float _ (quiet 1000 5 "NEW")
            (new 50 0.001 0.5)%float (usdt_account 1000 5) _)
            [] [ {| asset := "BTC"; free := 0%float; locked := 0%float |} ]
            {| asset := "USDT"; free := 1000%float; locked := 5%float |} _ _);
    vm_compute; reflexivity.
Defined.

(** X3.  Refreshing twice from the same answer of the exchange gives the
    ledger of one refresh. *)
Theorem refresh_twice_same_ledger
    (F : Type) (PF : PyFloat F) (conn : @Client F) (w : World)
    (rows : list BalanceRow) :
  get_account conn (calls w) = Return rows ->
  get_account conn (calls w ++ [GetAccount]) = Return rows ->
  assets (snd (refresh_balance conn (snd (refresh_balance conn w))))
  = assets (snd (refresh_balance conn w)).
Proof.
  intros E1 E2.
  rewrite (refresh_assets conn (snd (refresh_balance conn w))).
  rewrite refresh_calls, E2, (refresh_assets conn w), E1.
  apply map_eq. intros c.
  rewrite !refresh_fold_lookup. apply refresh_entry_twice.
Qed.

Lemma refresh_twice_same_ledger_witness :
  assets (snd (refresh_balance (quiet 1000 5 "NEW")
                 (snd (refresh_balance (quiet 1000 5 "NEW")
                         (new 50 0.001 0.5)%float))))
  = assets (snd (refresh_balance (quiet 1000 5 "NEW") (new 50 0.001 0.5)%float)).
Proof.
  refine (refresh_twice_same_ledger float _ (quiet 1000 5 "NEW")
            (new 50 0.001 0.5)%float (usdt_account 1000 5) _ _);
    vm_compute; reflexivity.
Defined.

Section InitGeneric.
Context {F : Type} `{PyFloat F}.
Variable conn : @Client F.

Lemma init_row_lookup (m : gmap string (@Asset F)) (row : BalanceRow) (c : string) :
  init_row m row !! c = init_entry c (m !! c) row.
Proof.
  unfold init_row, init_entry.
  destruct (String.eqb_spec (asset row) c) as [<-|Hne].
  - apply lookup_insert_eq.
  - apply lookup_insert_ne, Hne.
Qed.

Lemma init_fold_lookup (rows : list BalanceRow) (m : gmap string (@Asset F))
    (c : string) :
  fold_left init_row rows m !! c = fold_left (init_entry c) rows (m !! c).
Proof.
  revert m. induction rows as [|row rows IH]; intros m; [reflexivity|].
  cbn [fold_left]. rewrite IH, init_row_lookup. reflexivity.
Qed.

(** An entry without metadata stays one under [init_entry]. *)
Lemma init_entry_bare (c : string) (rows : list BalanceRow) (a : @Asset F) :
  info a = None ->
  exists a', fold_left (init_entry c) rows (Some a) = Some a' /\ info a' = None.
Proof.
  revert a. induction rows as [|row rows IH]; intros a Ha; [eauto|].
  cbn [fold_left]. unfold init_entry at 2.
  destruct (String.eqb (asset row) c); [apply IH; reflexivity | apply IH, Ha].
Qed.

Lemma init_entry_listed (c : string) (rows : list BalanceRow)
    (o : option (@Asset F)) :
  listed c rows = true ->
  exists a, fold_left (init_entry c) rows o = Some a /\ info a = None.
Proof.
  revert o. induction rows as [|row rows IH]; intros o Hl; [discriminate|].
  cbn [listed existsb] in Hl. cbn [fold_left]. unfold init_entry at 2.
  destruct (String.eqb (asset row) c) eqn:E.
  - apply init_entry_bare. reflexivity.
  - apply IH. exact Hl.
Qed.

(** Without metadata to keep, refreshing an entry is initialising it. *)
Lemma refresh_entry_as_init (c : string) (rows : list BalanceRow)
    (o : option (@Asset F)) :
  info_of o = None ->
  fold_left (refresh_entry c) rows o = fold_left (init_entry c) rows o.
Proof.
  revert o. induction rows as [|row rows IH]; intros o Ho; [reflexivity|].
  cbn [fold_left].
  assert (E : refresh_entry c o row = init_entry c o row).
  { unfold refresh_entry, init_entry, fresh_asset. rewrite Ho. reflexivity. }
  rewrite E. apply IH. unfold init_entry.
  destruct (String.eqb (asset row) c); [reflexivity | exact Ho].
Qed.

Lemma init_answered (w : World) (rows : list BalanceRow) :
  get_account conn (calls w) = Return rows ->
  init_balance conn w
  = (Return tt, set_assets (fold_left init_row rows (assets w))
                  (log_call GetAccount w)).
Proof.
  intros E. unfold init_balance, call, bind, get, put. rewrite E. reflexivity.
Qed.

End InitGeneric.

(** X4.  After an answered [init_balance], every asset the exchange lists
    is in the ledger without metadata, whatever was stored for it before;
    and on an empty ledger [init_balance] and [refresh_balance] build the
    same ledger. *)
Theorem init_balance_resets_metadata
    (F : Type) (PF : PyFloat F) (conn : @Client F) (w : World)
    (rows : list BalanceRow) :
  get_account conn (calls w) = Return rows ->
  (forall c : string,
      listed c rows = true ->
      exists a : Asset,
        assets (snd (init_balance conn w)) !! c = Some a /\ info a = None) /\
  (assets w = ∅ ->
   assets (snd (init_balance conn w)) = assets (snd (refresh_balance conn w))).
Proof.
  intros E. rewrite (init_answered conn w rows E), (refresh_answered conn w rows E).
  cbn [snd assets set_assets refreshed log_call]. split.
  - intros c Hc. rewrite init_fold_lookup. apply init_entry_listed, Hc.
  - intros Hempty. apply map_eq. intros c.
    rewrite init_fold_lookup, refresh_fold_lookup, Hempty, lookup_empty.
    symmetry. apply refresh_entry_as_init. reflexivity.
Qed.

(** The object after a first filled purchase holds metadata for BTC; a
    new [init_balance] drops it (binary64). *)
Lemma init_balance_resets_metadata_witness :
  exists a : Asset,
    assets (snd (init_balance (lot_market 1000 (3 # 2) (1 # 4) 2)
                   (after_purchase (lot_market 1000 (3 # 2) (1 # 4) 2))))
      !! "BTC" = Some a /\
    info (F := float) a = None.
Proof.
  refine (proj1 (init_balance_resets_metadata float _
            (lot_market 1000 (3 # 2) (1 # 4) 2)
            (after_purchase (lot_market 1000 (3 # 2) (1 # 4) 2))
            (btc_account 1000 (3 # 2)) _) "BTC" _);
    vm_compute; reflexivity.
Defined.

End LedgerRefresh.

(** ** What buy, sell and the other operations leave alone *)

Section Invariants.
Import Binance BinanceAll Run Ledger Scenario.

Section Generic.
Context {F : Type} `{PyFloat F}.
Variable conn : @Client F.

(** A relation that holds along everything the class does apart from the
    balance refresh: it is a preorder, kept by the record of a request and
    by the storing of metadata. *)
Variable R : @World F -> @World F -> Prop.
Hypothesis R_refl : forall w, R w w.
Hypothesis R_trans : forall w1 w2 w3, R w1 w2 -> R w2 w3 -> R w1 w3.
Hypothesis R_log : forall r w, R w (log_call r w).
Hypothesis R_info :
  forall (k : string) (old : Asset) (i : AssetInfo) (w : World),
    assets w !! k = Some old ->
    R w (set_assets
           (<[k := {| available := available old; pending := pending old;
                      info := Some i |}]> (assets w)) w).

Lemma respects_ret {A : Type} (a : A) : respects R (ret a).
Proof. intros w. apply R_refl. Qed.

Lemma respects_raise {A : Type} (e : exn) : respects R (raise (A := A) e).
Proof. intros w. apply R_refl. Qed.

Lemma respects_lift {A : Type} (o : Outcome A) : respects R (lift o).
Proof. intros w. apply R_refl. Qed.

Lemma respects_get : respects R get.
Proof. intros w. apply R_refl. Qed.

Lemma respects_bind {A B : Type} (c : M World A) (k : A -> M World B) :
  respects R c -> (forall a, respects R (k a)) -> respects R (bind c k).
Proof.
  intros Hc Hk w. unfold bind. specialize (Hc w).
  destruct (c w) as [[a|e] w1]; cbn [snd] in *.
  - exact (R_trans _ _ _ Hc (Hk a w1)).
  - exact Hc.
Qed.

Lemma respects_try {A : Type} (c : M World A) : respects R c -> respects R (try_ c).
Proof.
  intros Hc w. unfold try_. specialize (Hc w).
  destruct (c w) as [o w1]. exact Hc.
Qed.

Lemma respects_call {A : Type} (r : Request)
    (answer : list Request -> Outcome A) :
  respects R (call r answer).
Proof. intros w. apply R_log. Qed.

(** Where a computation ends, seen from where its first part ended. *)
Lemma respects_after {A B : Type} (c : M World A) (k : A -> M World B) (w : World) :
  (forall a, respects R (k a)) -> R (snd (c w)) (snd (bind c k w)).
Proof.
  intros Hk. unfold bind. destruct (c w) as [[a|e] w1]; cbn [snd].
  - apply Hk.
  - apply R_refl.
Qed.

Lemma respects_asset_of (k : string) : respects R (asset_of k).
Proof.
  unfold asset_of. apply respects_bind; [apply respects_get|].
  intros w. apply respects_lift.
Qed.

Lemma respects_asset_info (sym : string) : respects R (asset_info conn sym).
Proof.
  unfold asset_info. apply respects_bind; [apply respects_call|].
  intros [d|]; [|apply respects_raise].
  apply respects_bind; [apply respects_lift|].
  intros [|step l]; [apply respects_raise | apply respects_ret].
Qed.

Lemma respects_set_info (k : string) (i : AssetInfo) : respects R (set_info k i).
Proof.
  intros w. unfold set_info, bind, get, put, raise.
  destruct (assets w !! k) as [old|] eqn:E; cbn [snd].
  - apply R_info, E.
  - apply R_refl.
Qed.

Lemma respects_place_buy (coin currency : string) (price q : F) :
  respects R (place_buy conn coin currency price q).
Proof.
  unfold place_buy. apply respects_bind; [apply respects_get|]. intros w.
  destruct (negb (ftruth price)).
  - apply respects_bind; [apply respects_lift|]. intros p.
    apply respects_bind; [apply respects_lift|]. intros q'.
    apply respects_call.
  - apply respects_bind; [apply respects_lift|]. intros d.
    apply respects_bind; [apply respects_lift|]. intros p.
    apply respects_bind; [apply respects_lift|]. intros q'.
    apply respects_call.
Qed.

Lemma respects_settle_buy (coin currency : string) (o : Payload) :
  respects R (settle_buy conn coin currency o).
Proof.
  unfold settle_buy. apply respects_bind; [apply respects_lift|]. intros st.
  destruct (String.eqb st "FILLED"); [|apply respects_ret].
  apply respects_bind; [apply respects_asset_info|]. intros i.
  apply respects_bind; [apply respects_set_info|]. intros _.
  apply respects_ret.
Qed.

Lemma respects_buy_submit (coin currency : string) (price q : F) :
  respects R (buy_submit conn coin currency price q).
Proof.
  unfold buy_submit.
  apply respects_bind; [apply respects_try, respects_place_buy|].
  intros [o|e]; [apply respects_settle_buy | apply respects_ret].
Qed.

(** The part of [buy] that follows the refresh. *)
Lemma respects_buy_after_refresh (coin currency : string) (price : F) (w : World) :
  R (snd (refresh_balance conn w)) (snd (buy conn coin currency price w)).
Proof.
  apply R_trans with (snd (buy_size conn currency w));
    [unfold buy_size | unfold buy]; apply respects_after.
  - intros _. apply respects_bind; [apply respects_asset_of|]. intros a.
    apply respects_bind; [apply respects_get|]. intros w0.
    apply respects_bind; [apply respects_lift|]. intros m.
    destruct (flt (cur_balance a) m); [apply respects_ret|].
    destruct (fgt (quantity_to_buy a (risk w0)) (available a)); apply respects_ret.
  - intros [early|q]; [apply respects_ret | apply respects_buy_submit].
Qed.

Lemma respects_info_field {A : Type} (k field : string) (proj : AssetInfo -> A) :
  respects R (info_field k field proj).
Proof.
  unfold info_field. apply respects_bind; [apply respects_asset_of|]. intros a.
  destruct (info a); [apply respects_ret | apply respects_raise].
Qed.

Lemma respects_prec_quantity_of (base : string) : respects R (prec_quantity_of base).
Proof.
  unfold prec_quantity_of.
  apply respects_bind; [apply respects_asset_of|]. intros a.
  apply respects_bind; [apply respects_info_field|]. intros lot.
  apply respects_bind; [apply respects_lift|]. intros r.
  apply respects_bind; [apply respects_info_field|]. intros p.
  apply respects_lift.
Qed.

(** The part of [sell] that follows the refresh. *)
Lemma respects_sell_after_refresh (coin currency : string) (quantity : F)
    (w : World) :
  R (snd (refresh_balance conn w)) (snd (sell conn coin currency quantity w)).
Proof.
  unfold sell. apply respects_after. intros _.
  destruct (negb (ftruth quantity)); [|apply respects_raise].
  apply respects_bind; [apply respects_try, respects_prec_quantity_of|].
  intros [pq|e]; [|apply respects_raise].
  apply respects_bind; [apply respects_try, respects_call|].
  intros [o|e]; [apply respects_ret|].
  apply respects_bind; [apply respects_asset_of|]. intros a. apply respects_ret.
Qed.

Lemma respects_get_balances_after_refresh (coins : Coins) (w : World) :
  R (snd (refresh_balance conn w)) (snd (get_balances conn coins w)).
Proof.
  unfold get_balances. apply respects_after. intros _.
  apply respects_bind; [apply respects_get|]. intros w0.
  destruct (no_coins coins); [apply respects_ret|].
  destruct coins as [|c|cs]; [apply respects_ret| |];
    (apply respects_bind; [apply respects_lift|]; intros r; apply respects_ret).
Qed.

Lemma respects_sell_all_after_refresh (w : World) :
  R (snd (refresh_balance conn w)) (snd (sell_all conn w)).
Proof.
  unfold sell_all. apply respects_after. intros _.
  intros w0. apply R_refl.
Qed.

End Generic.

Section Instances.
Context {F : Type} `{PyFloat F}.
Variable conn : @Client F.

Lemma refresh_same_configuration (w : World) :
  same_configuration w (snd (refresh_balance conn w)).
Proof.
  destruct (get_account conn (calls w)) as [rows|e] eqn:E.
  - rewrite (refresh_answered conn w rows E). reflexivity.
  - rewrite (refresh_failed conn w e E). reflexivity.
Qed.

Lemma same_configuration_trans (w1 w2 w3 : @World F) :
  same_configuration w1 w2 -> same_configuration w2 w3 -> same_configuration w1 w3.
Proof. unfold same_configuration. congruence. Qed.

Lemma same_configuration_info (k : string) (old : Asset) (i : AssetInfo)
    (w : @World F) :
  assets w !! k = Some old ->
  same_configuration w
    (set_assets (<[k := {| available := available old; pending := pending old;
                           info := Some i |}]> (assets w)) w).
Proof. reflexivity. Qed.

Lemma same_balances_trans (w1 w2 w3 : @World F) :
  same_balances w1 w2 -> same_balances w2 w3 -> same_balances w1 w3.
Proof. unfold same_balances. intros H12 H23 k. rewrite H23. apply H12. Qed.

Lemma same_balances_info (k : string) (old : Asset) (i : AssetInfo)
    (w : @World F) :
  assets w !! k = Some old ->
  same_balances w
    (set_assets (<[k := {| available := available old; pending := pending old;
                           info := Some i |}]> (assets w)) w).
Proof.
  intros E k'. cbn [assets set_assets].
  destruct (decide (k = k')) as [<-|Hne].
  - rewrite lookup_insert_eq, E. reflexivity.
  - rewrite lookup_insert_ne by assumption. reflexivity.
Qed.

End Instances.

(** X5.  No operation of the class changes the thresholds, the
    precisions or the risk it was configured with, whatever the exchange
    answers. *)
Theorem operations_keep_configuration
    (F : Type) (PF : PyFloat F) (conn : @Client F) (w : World) :
  (forall (coin currency : string) (price : F),
      configuration (snd (buy conn coin currency price w)) = configuration w) /\
  (forall (coin currency : string) (quantity : F),
      configuration (snd (sell conn coin currency quantity w)) = configuration w) /\
  (forall coins : Coins,
      configuration (snd (get_balances conn coins w)) = configuration w) /\
  (forall sym order_id : string,
      configuration (snd (cancel_order conn sym order_id w)) = configuration w) /\
  configuration (snd (sell_all conn w)) = configuration w /\
  configuration (snd (init_balance conn w)) = configuration w.
Proof.
  pose proof (refresh_same_configuration conn w) as Hr.
  assert (Hlog : forall r (w0 : @World F), same_configuration w0 (log_call r w0))
    by reflexivity.
  assert (Hrefl : forall w0 : @World F, same_configuration w0 w0) by reflexivity.
  split; [|split; [|split; [|split; [|split]]]].
  - intros coin currency price.
    apply (same_configuration_trans _ _ _ Hr).
    apply respects_buy_after_refresh;
      first [exact Hrefl | exact same_configuration_trans | exact Hlog
            | exact same_configuration_info].
  - intros coin currency quantity.
    apply (same_configuration_trans _ _ _ Hr).
    apply respects_sell_after_refresh;
      first [exact Hrefl | exact same_configuration_trans | exact Hlog].
  - intros coins.
    apply (same_configuration_trans _ _ _ Hr).
    apply respects_get_balances_after_refresh;
      first [exact Hrefl | exact same_configuration_trans].
  - reflexivity.
  - apply (same_configuration_trans _ _ _ Hr).
    apply respects_sell_all_after_refresh; exact Hrefl.
  - unfold init_balance, call, bind, get, put.
    destruct (get_account conn (calls w)); reflexivity.
Qed.

(** X6.  Apart from its balance refresh, [buy] changes no amount of the
    ledger, and [sell] changes nothing of it: a filled order leaves the
    available and pending amounts as the refresh read them, until the next
    refresh. *)
Theorem orders_leave_balances
    (F : Type) (PF : PyFloat F) (conn : @Client F) (w : World) :
  (forall (coin currency : string) (price : F) (k : string),
      balance_of (assets (snd (buy conn coin currency price w)) !! k)
      = balance_of (assets (snd (refresh_balance conn w)) !! k)) /\
  (forall (coin currency : string) (quantity : F),
      assets (snd (sell conn coin currency quantity w))
      = assets (snd (refresh_balance conn w))).
Proof.
  split.
  - intros coin currency price.
    apply (respects_buy_after_refresh conn same_balances);
      first [exact same_balances_trans | exact same_balances_info
            | intros; intros k; reflexivity].
  - intros coin currency quantity.
    apply (respects_sell_after_refresh conn (fun w1 w2 => assets w2 = assets w1));
      first [reflexivity | intros; congruence].
Qed.

End Invariants.

(** ** The requests an operation sends *)

Section Requests.
Import Binance BinanceAll Run Ledger Scenario.

Section Generic.
Context {F : Type} `{PyFloat F}.
Variable conn : @Client F.

Lemma buy_size_calls (currency : string) (w : World) :
  calls (snd (buy_size conn currency w)) = calls w ++ [GetAccount].
Proof.
  unfold buy_size, bind at 1.
  pose proof (refresh_calls conn w) as Hc.
  destruct (refresh_balance conn w) as [[[]|e] w1]; cbn [snd] in *; [|exact Hc].
  unfold asset_of, bind, get, lift, getitem, ret.
  destruct (assets w1 !! currency) as [a|]; [|exact Hc].
  destruct (min_limit w1 !! currency) as [m|]; [|exact Hc].
  destruct (flt (cur_balance a) m); [exact Hc|].
  destruct (fgt (quantity_to_buy a (risk w1)) (available a)); exact Hc.
Qed.

(** The placement sends nothing when it raises before the call, and
    otherwise one order for the coin. *)
Lemma place_buy_calls (coin currency : string) (price spend : F) (w : World) :
  (is_return (fst (place_buy conn coin currency price spend w)) = false /\
   calls (snd (place_buy conn coin currency price spend w)) = calls w) \/
  exists q : F,
    calls (snd (place_buy conn coin currency price spend w))
    = calls w ++ [if ftruth price then OrderLimitBuy coin price q
                  else OrderMarketBuy coin q].
Proof.
  unfold place_buy, bind, get, lift, call.
  destruct (ftruth price); cbn [negb].
  - destruct (fdiv spend price) as [d|e]; [|left; split; reflexivity].
    destruct (getitem (coin_precision w) currency) as [p|e];
      [|left; split; reflexivity].
    destruct (fround d p) as [q|e]; [|left; split; reflexivity].
    right. exists q. reflexivity.
  - destruct (getitem (coin_precision w) currency) as [p|e];
      [|left; split; reflexivity].
    destruct (fround spend p) as [q|e]; [|left; split; reflexivity].
    right. exists q. reflexivity.
Qed.

Lemma settle_buy_calls (coin currency : string) (o : Payload) (w : World) :
  calls (snd (settle_buy conn coin currency o w)) = calls w \/
  calls (snd (settle_buy conn coin currency o w)) = calls w ++ [GetSymbolInfo coin].
Proof.
  unfold settle_buy, bind, lift, ret.
  destruct (getitem o "status") as [st|e]; [|left; reflexivity].
  destruct (String.eqb st "FILLED"); [|left; reflexivity].
  right. pose proof (asset_info_calls conn coin w) as Hc.
  destruct (asset_info conn coin w) as [[i|e] w1]; cbn [snd] in *; [|exact Hc].
  pose proof (set_info_calls (replace_empty coin currency) i w1) as Hs.
  destruct (set_info (replace_empty coin currency) i w1) as [[[]|e] w2];
    cbn [snd] in *; congruence.
Qed.

Lemma buy_submit_calls (coin currency : string) (price spend : F) (w : World) :
  calls (snd (buy_submit conn coin currency price spend w)) = calls w \/
  exists q : F,
    let order := if ftruth price then OrderLimitBuy coin price q
                 else OrderMarketBuy coin q in
    calls (snd (buy_submit conn coin currency price spend w)) = calls w ++ [order] \/
    calls (snd (buy_submit conn coin currency price spend w))
    = calls w ++ [order; GetSymbolInfo coin].
Proof.
  unfold buy_submit, try_, bind.
  pose proof (place_buy_calls coin currency price spend w) as Hp.
  destruct (place_buy conn coin currency price spend w) as [[o|e] w1];
    cbn [snd] in *.
  - pose proof (settle_buy_calls coin currency o w1) as Hs.
    destruct Hp as [[Hp _]|[q Hp]]; [discriminate Hp|].
    right. exists q. cbn zeta.
    destruct Hs as [Hs|Hs]; rewrite Hs, Hp; [left; reflexivity|].
    right. rewrite <- app_assoc. reflexivity.
  - destruct Hp as [[_ Hp]|[q Hp]]; [left; exact Hp|].
    right. exists q. left. exact Hp.
Qed.

(** Computing the quantity of a default sell changes nothing. *)
Lemma prec_quantity_world (base : string) (w : World) :
  snd (prec_quantity_of (F := F) base w) = w.
Proof.
  unfold prec_quantity_of, info_field, asset_of, bind, get, lift, getitem, ret, raise.
  destruct (assets w !! base) as [a|] eqn:Ea; [|reflexivity].
  cbv beta iota. rewrite ?Ea. cbv beta iota.
  destruct (info a) as [i|] eqn:Ei; [|reflexivity].
  cbv beta iota.
  destruct (fmod (available a) (lot_size i)) as [r|e]; [|reflexivity].
  cbv beta iota. rewrite ?Ea. cbv beta iota. rewrite ?Ei. cbv beta iota.
  destruct (fround (fsub (available a) r) (precision i)); reflexivity.
Qed.

Lemma sell_calls (coin currency : string) (quantity : F) (w : World) :
  calls (snd (sell conn coin currency quantity w))
  = calls w ++ GetAccount ::
      match fst (refresh_balance conn w) with
      | Raise _ => []
      | Return _ =>
          if negb (ftruth quantity) then
            match fst (prec_quantity_of (replace_empty coin currency)
                         (snd (refresh_balance conn w))) with
            | Return pq => [OrderMarketSell coin pq]
            | Raise _ => []
            end
          else []
      end.
Proof.
  unfold sell. unfold bind at 1.
  pose proof (refresh_calls conn w) as Hc.
  destruct (refresh_balance conn w) as [[[]|e] w1]; cbn [fst snd] in *;
    [|exact Hc].
  destruct (negb (ftruth quantity)); [|exact Hc].
  unfold try_ at 1, bind at 1.
  pose proof (prec_quantity_world (replace_empty coin currency) w1) as Hw.
  destruct (prec_quantity_of (replace_empty coin currency) w1) as [[pq|e] w2];
    cbn [fst snd] in *; subst w2; [|exact Hc].
  unfold try_, call, bind, asset_of, get, lift, getitem, ret.
  destruct (order_market_sell conn (calls w1) coin pq) as [o|e].
  - cbn [snd calls log_call]. rewrite Hc, <- app_assoc. reflexivity.
  - unfold bind, get. cbn [assets log_call].
    destruct (assets w1 !! replace_empty coin currency);
      cbn [snd calls log_call]; rewrite Hc, <- app_assoc; reflexivity.
Qed.

(** What a returned [asset_info] is made of. *)
Lemma asset_info_returned (sym : string) (w w1 : World) (i : AssetInfo) :
  asset_info conn sym w = (Return i, w1) ->
  w1 = log_call (GetSymbolInfo sym) w /\
  exists (d : SymbolInfo) (later : list F),
    get_symbol_info conn (calls w) sym = Return (Some d) /\
    lot_steps (filters d) = Return (lot_size i :: later) /\
    precision i = quoteAssetPrecision d /\
    info_symbol i = symbol d /\
    more i = d.
Proof.
  unfold asset_info, call, bind, lift, raise, ret.
  destruct (get_symbol_info conn (calls w) sym) as [[d|]|e]; try discriminate.
  destruct (lot_steps (filters d)) as [[|step later]|e] eqn:El; try discriminate.
  intros E. injection E as <- <-. split; [reflexivity|].
  exists d, later. repeat split; try reflexivity. exact El.
Qed.

End Generic.

(** X7.  Whatever the exchange answers, a call of [buy] sends the balance
    request, then at most one order (a limit order at the given price when
    the price is non-zero, a market order otherwise), then at most one
    symbol lookup, and nothing else: no second placement, no retry. *)
Theorem buy_sends_at_most_one_order
    (F : Type) (PF : PyFloat F) (conn : @Client F)
    (coin currency : string) (price : F) (w : World) :
  exists rest : list Request,
    calls (snd (buy conn coin currency price w)) = calls w ++ GetAccount :: rest /\
    (rest = [] \/
     exists q : F,
       let order := if ftruth price then OrderLimitBuy coin price q
                    else OrderMarketBuy coin q in
       rest = [order] \/ rest = [order; GetSymbolInfo coin]).
Proof.
  unfold buy, bind.
  pose proof (buy_size_calls conn currency w) as Hc.
  destruct (buy_size conn currency w) as [[[early|spend]|e] w1]; cbn [snd] in *.
  - exists []. split; [exact Hc | left; reflexivity].
  - pose proof (buy_submit_calls conn coin currency price spend w1) as Hs.
    destruct Hs as [Hs|[q Hs]].
    + exists []. split; [rewrite Hs; exact Hc | left; reflexivity].
    + cbn zeta in Hs. destruct Hs as [Hs|Hs]; rewrite Hs, Hc, <- app_assoc.
      * eexists. split; [reflexivity|]. right. exists q. left. reflexivity.
      * eexists. split; [reflexivity|]. right. exists q. right. reflexivity.
  - exists []. split; [exact Hc | left; reflexivity].
Qed.

(** X8.  Whatever the exchange answers, a call of [sell] sends the balance
    request and then at most one market sell order for the coin, and
    nothing else. *)
Theorem sell_sends_at_most_one_order
    (F : Type) (PF : PyFloat F) (conn : @Client F)
    (coin currency : string) (quantity : F) (w : World) :
  exists rest : list Request,
    calls (snd (sell conn coin currency quantity w)) = calls w ++ GetAccount :: rest /\
    (rest = [] \/ exists q : F, rest = [OrderMarketSell coin q]).
Proof.
  eexists. split; [apply sell_calls|].
  destruct (fst (refresh_balance conn w)); [|left; reflexivity].
  destruct (negb (ftruth quantity)); [|left; reflexivity].
  destruct (fst (prec_quantity_of _ _)) as [pq|e]; [|left; reflexivity].
  right. exists pq. reflexivity.
Qed.

End Requests.

(** ** Orders: amounts, metadata and failures *)

Section MoreOrders.
Import Binance BinanceAll Run Ledger Scenario.

Section Generic.
Context {F : Type} `{PyFloat F}.
Variable conn : @Client F.

(** The early returns of [buy] are failures. *)
Lemma buy_size_early (currency : string) (w w' : World) (r : bool * BuyInfo) :
  buy_size conn currency w = (Return (inl r), w') -> fst r = false.
Proof.
  unfold buy_size, bind at 1.
  destruct (refresh_balance conn w) as [[[]|e] w1]; [|discriminate].
  unfold asset_of, bind, get, lift, getitem, ret.
  destruct (assets w1 !! currency) as [a|]; [|discriminate].
  destruct (min_limit w1 !! currency) as [m|]; [|discriminate].
  destruct (flt (cur_balance a) m); [intros E; injection E as <- _; reflexivity|].
  destruct (fgt (quantity_to_buy a (risk w1)) (available a)); intros E;
    [injection E as <- _; reflexivity | discriminate].
Qed.

(** A success of the test of the order: the lookup returned and its
    result went into the ledger. *)
Lemma settle_buy_success (coin currency : string) (o : Payload) (w w2 : World)
    (x : BuyInfo) :
  settle_buy conn coin currency o w = (Return (true, x), w2) ->
  exists (i : AssetInfo) (w1 : World) (old : Asset),
    asset_info conn coin w = (Return i, w1) /\
    assets w1 !! replace_empty coin currency = Some old /\
    w2 = set_assets
           (<[replace_empty coin currency :=
                {| available := available old; pending := pending old;
                   info := Some i |}]> (assets w1)) w1.
Proof.
  unfold settle_buy, bind, lift, ret.
  destruct (getitem o "status") as [st|e]; [|discriminate].
  destruct (String.eqb st "FILLED"); [|discriminate].
  destruct (asset_info conn coin w) as [[i|e] w1]; [|discriminate].
  unfold set_info, bind, get, put, raise.
  destruct (assets w1 !! replace_empty coin currency) as [old|] eqn:Eo;
    [|discriminate].
  intros E. injection E as _ <-. exists i, w1, old. repeat split. exact Eo.
Qed.

Lemma buy_success (coin currency : string) (price : F) (w : World) (x : BuyInfo) :
  fst (buy conn coin currency price w) = Return (true, x) ->
  exists (o : Payload) (w0 : World),
    settle_buy conn coin currency o w0
    = (Return (true, x), snd (buy conn coin currency price w)).
Proof.
  destruct (buy_size conn currency w) as [[[early|q]|e] w0] eqn:Hs.
  - rewrite (buy_early conn coin currency price w w0 early Hs). cbn [fst].
    intros E. injection E as ->.
    pose proof (buy_size_early currency w w0 _ Hs) as Hf. discriminate Hf.
  - rewrite (buy_sized conn coin currency price q w w0 Hs).
    destruct (place_buy conn coin currency price q w0) as [[o|e'] w1] eqn:Hp.
    + rewrite (submit_placed conn coin currency price q w0 w1 o Hp).
      intros E. exists o, w1.
      destruct (settle_buy conn coin currency o w1) as [r w2].
      cbn [fst snd] in *. rewrite E. reflexivity.
    + rewrite (submit_rejected conn coin currency price q w0 w1 e' Hp).
      discriminate.
  - unfold buy. rewrite (bind_raise _ _ _ _ _ Hs). discriminate.
Qed.

End Generic.

(** X9.  A market buy (price zero) that passes both checks sends one order,
    for round(spend, coin_precision[currency]) of the quote currency. *)
Theorem market_buy_amount
    (F : Type) (PF : PyFloat F) (conn : @Client F)
    (coin currency : string) (price : F) (w : World)
    (rows : list BalanceRow) (a : Asset) (m q : F) (p : Z) :
  get_account conn (calls w) = Return rows ->
  assets (refreshed rows w) !! currency = Some a ->
  min_limit w !! currency = Some m ->
  flt (cur_balance a) m = false ->
  fgt (quantity_to_buy a (risk w)) (available a) = false ->
  ftruth price = false ->
  coin_precision w !! currency = Some p ->
  fround (quantity_to_buy a (risk w)) p = Return q ->
  orders (calls (snd (buy conn coin currency price w)))
    = orders (calls w) ++ [OrderMarketBuy coin q].
Proof.
  intros Eacc Ea Em Hmin Hbud Ht Ep Eq.
  pose proof (buy_size_answered conn currency w rows a m Eacc Ea Em) as Hs.
  rewrite Hmin, Hbud in Hs.
  rewrite (buy_sized conn _ _ _ _ _ _ Hs).
  rewrite (submit_market_orders conn coin currency price _ q p); try assumption.
  rewrite orders_refreshed. reflexivity.
Qed.

(** A third of 1000 USDT (binary64): the spend 333.3333333333333 goes out
    as 333.33. *)
Lemma market_buy_amount_witness :
  orders (calls (snd (buy (quiet 1000 0 "NEW") "BTCUSDT" "USDT" 0%float
                        (started (quiet 1000 0 "NEW") (1 # 3)))))
    = [] ++ [OrderMarketBuy "BTCUSDT" 333.33%float].
Proof.
  refine (market_buy_amount float _ (quiet 1000 0 "NEW") "BTCUSDT" "USDT"
            0%float (started (quiet 1000 0 "NEW") (1 # 3))
            (usdt_account 1000 0) (plain 1000 0) 50%float 333.33%float 2
            _ _ _ _ _ _ _ _);
    vm_compute; reflexivity.
Defined.

(** X10.  Whenever [buy] returns success, the ledger entry of the base
    asset holds the metadata of the symbol as the exchange gave it in the
    last request of the call: its quote precision, and as lot size the step
    of its first LOT_SIZE filter. *)
Theorem buy_success_stores_metadata
    (F : Type) (PF : PyFloat F) (conn : @Client F)
    (coin currency : string) (price : F) (w : World) (x : BuyInfo) :
  fst (buy conn coin currency price w) = Return (true, x) ->
  exists (a : Asset) (i : AssetInfo) (d : SymbolInfo) (later : list F)
         (h : list Request),
    assets (snd (buy conn coin currency price w)) !! replace_empty coin currency
      = Some a /\
    info a = Some i /\
    calls (snd (buy conn coin currency price w)) = h ++ [GetSymbolInfo coin] /\
    get_symbol_info conn h coin = Return (Some d) /\
    lot_steps (filters d) = Return (lot_size i :: later) /\
    precision i = quoteAssetPrecision d.
Proof.
  intros Hok.
  destruct (buy_success conn coin currency price w x Hok) as (o & w0 & Hs).
  destruct (settle_buy_success conn coin currency o w0 _ x Hs)
    as (i & w1 & old & Hi & Hold & Hw).
  destruct (asset_info_returned conn coin w0 w1 i Hi)
    as (Hw1 & d & later & Hd & Hl & Hp & _ & _).
  rewrite Hw. cbn [assets calls set_assets].
  eexists _, i, d, later, (calls w0).
  split; [apply lookup_insert_eq|]. split; [reflexivity|].
  split; [rewrite Hw1; reflexivity|].
  split; [exact Hd|]. split; [exact Hl | exact Hp].
Qed.

Lemma buy_success_stores_metadata_witness :
  exists (a : Asset) (i : AssetInfo) (d : SymbolInfo) (later : list float)
         (h : list Request),
    assets (snd (buy (lot_market 1000 0 (1 # 4) 2) "BTCUSDT" "USDT" 0%float
                   (started (lot_market 1000 0 (1 # 4) 2) (1 # 2))))
      !! replace_empty "BTCUSDT" "USDT" = Some a /\
    info a = Some i /\
    calls (snd (buy (lot_market 1000 0 (1 # 4) 2) "BTCUSDT" "USDT" 0%float
                  (started (lot_market 1000 0 (1 # 4) 2) (1 # 2))))
      = h ++ [GetSymbolInfo "BTCUSDT"] /\
    get_symbol_info (lot_market 1000 0 (1 # 4) 2) h "BTCUSDT" = Return (Some d) /\
    lot_steps (filters d) = Return (lot_size i :: later) /\
    precision i = quoteAssetPrecision d.
Proof.
  refine (buy_success_stores_metadata float _ (lot_market 1000 0 (1 # 4) 2)
            "BTCUSDT" "USDT" 0%float
            (started (lot_market 1000 0 (1 # 4) 2) (1 # 2))
            (BuyOrder (payload_with_status "FILLED")) _).
  vm_compute. reflexivity.
Defined.

(** X11.  A default [sell] whose order the exchange answers returns
    (True, payload) whatever the payload says: unlike [buy], [sell] does
    not look at the status of the order. *)
Theorem sell_success_whatever_status
    (F : Type) (PF : PyFloat F) (conn : @Client F)
    (coin currency : string) (quantity : F) (w : World)
    (rows : list BalanceRow) (a : Asset) (i : AssetInfo) (r q : F)
    (o : Payload) :
  get_account conn (calls w) = Return rows ->
  ftruth quantity = false ->
  assets (refreshed rows w) !! replace_empty coin currency = Some a ->
  info a = Some i ->
  fmod (available a) (lot_size i) = Return r ->
  fround (fsub (available a) r) (precision i) = Return q ->
  order_market_sell conn (calls (refreshed rows w)) coin q = Return o ->
  fst (sell conn coin currency quantity w) = Return (true, SellOrder o).
Proof.
  intros Eacc Ht Ea Ei Er Eq Eo.
  exact (proj1 (proj2 (sell_default_order conn coin currency quantity w rows
                         a i r q Eacc Ht Ea Ei Er Eq)) o Eo).
Qed.

(** An exchange that answers every order with the status EXPIRED: the
    sell of 1.5 BTC is reported as a success (binary64). *)
Lemma sell_success_whatever_status_witness :
  fst (sell (steady (btc_account 1000 (3 # 2))
               (Return (payload_with_status "EXPIRED")) (Return None))
         "BTCUSDT" "USDT" 0%float
         (after_purchase (lot_market 1000 (3 # 2) (1 # 4) 2)))
  = Return (true, SellOrder (payload_with_status "EXPIRED")).
Proof.
  refine (sell_success_whatever_status float _
            (steady (btc_account 1000 (3 # 2))
               (Return (payload_with_status "EXPIRED")) (Return None))
            "BTCUSDT" "USDT" 0%float
            (after_purchase (lot_market 1000 (3 # 2) (1 # 4) 2))
            (btc_account 1000 (3 # 2))
            {| available := 1.5%float; pending := 0%float;
               info := Some (btc_info (1 # 4) 2) |}
            (btc_info (1 # 4) 2) 0%float 1.5%float
            (payload_with_status "EXPIRED") _ _ _ _ _ _ _);
    vm_compute; reflexivity.
Defined.

(** X12.  A default [sell] that cannot compute its quantity raises
    UnboundLocalError for [prec_quantity] out of its own except handler and
    sends no order: so it is for an asset the ledger does not know, for an
    asset bought outside this object (no metadata stored), and for a lot
    size of zero. *)
Theorem sell_without_quantity_raises
    (F : Type) (PF : PyFloat F) (conn : @Client F)
    (coin currency : string) (quantity : F) (w : World)
    (rows : list BalanceRow) :
  get_account conn (calls w) = Return rows ->
  ftruth quantity = false ->
  (assets (refreshed rows w) !! replace_empty coin currency = None \/
   (exists a : Asset,
       assets (refreshed rows w) !! replace_empty coin currency = Some a /\
       info a = None) \/
   (exists (a : Asset) (i : AssetInfo) (e : exn),
       assets (refreshed rows w) !! replace_empty coin currency = Some a /\
       info a = Some i /\
       fmod (available a) (lot_size i) = Raise e)) ->
  sell conn coin currency quantity w
    = (Raise (UnboundLocalError "prec_quantity"), refreshed rows w) /\
  orders (calls (refreshed rows w)) = orders (calls w).
Proof.
  intros Eacc Ht Hcause. split; [|apply orders_refreshed].
  unfold sell.
  rewrite (bind_return _ _ _ _ _ (refresh_answered conn w rows Eacc)).
  rewrite Ht. cbn [negb].
  unfold try_, prec_quantity_of, info_field, asset_of, bind, get, lift, getitem.
  destruct Hcause as [Ea|[(a & Ea & Ei)|(a & i & e & Ea & Ei & Er)]].
  - rewrite Ea. reflexivity.
  - rewrite Ea. cbv beta iota. rewrite Ei. reflexivity.
  - rewrite Ea. cbv beta iota. rewrite Ei. cbv beta iota.
    unfold ret. cbv beta iota. rewrite Er. reflexivity.
Qed.

(** Selling the BTC of an account whose object never bought any
    (binary64). *)
Lemma sell_without_quantity_raises_witness :
  sell (quiet 1000 0 "NEW") "BTCUSDT" "USDT" 0%float
      (started (quiet 1000 0 "NEW") (1 # 2))
    = (Raise (UnboundLocalError "prec_quantity"),
       refreshed (usdt_account 1000 0) (started (quiet 1000 0 "NEW") (1 # 2))) /\
  orders (calls (refreshed (usdt_account 1000 0)
                   (started (F := float) (quiet 1000 0 "NEW") (1 # 2))))
    = orders (calls (started (F := float) (quiet 1000 0 "NEW") (1 # 2))).
Proof.
  refine (sell_without_quantity_raises float _ (quiet 1000 0 "NEW")
            "BTCUSDT" "USDT" 0%float (started (quiet 1000 0 "NEW") (1 # 2))
            (usdt_account 1000 0) _ _ _).
  - vm_compute. reflexivity.
  - vm_compute. reflexivity.
  - right. left. exists (plain 0 0). split; vm_compute; reflexivity.
Defined.

(** X13.  [sell_all] sells nothing: it sends the balance request and no
    other, never returns, and once the refresh is answered raises the
    TypeError of calling the ledger dict. *)
Theorem sell_all_never_sells
    (F : Type) (PF : PyFloat F) (conn : @Client F) (w : World) :
  calls (snd (sell_all conn w)) = calls w ++ [GetAccount] /\
  is_return (fst (sell_all conn w)) = false /\
  (forall rows : list BalanceRow,
      get_account conn (calls w) = Return rows ->
      sell_all conn w = (Raise TypeError, refreshed rows w)).
Proof.
  unfold sell_all.
  destruct (get_account conn (calls w)) as [rows|e] eqn:E.
  - rewrite (bind_return _ _ _ _ _ (refresh_answered conn w rows E)).
    cbn [fst snd is_return bind raise].
    split; [reflexivity|]. split; [reflexivity|].
    intros rows' Er. injection Er as <-. reflexivity.
  - rewrite (bind_raise _ _ _ _ _ (refresh_failed conn w e E)).
    cbn [fst snd is_return calls log_call].
    split; [reflexivity|]. split; [reflexivity|].
    intros rows Er. discriminate Er.
Qed.

End MoreOrders.

(** ** get_balances and asset_info *)

Section Lookups.
Import Binance Run Ledger Scenario.

Section Generic.
Context {F : Type} `{PyFloat F}.
Variable conn : @Client F.

(** The dict a complete comprehension builds. *)
Lemma pick_returned (a : gmap string (@Asset F)) (cs : list string)
    (acc m : gmap string Asset) :
  pick a cs acc = Return m ->
  forall k : string, m !! k = if decide (k ∈ cs) then a !! k else acc !! k.
Proof.
  revert acc. induction cs as [|c rest IH]; intros acc E k.
  - cbn [pick] in E. injection E as <-.
    destruct (decide (k ∈ [])) as [Hin|_]; [|reflexivity].
    inversion Hin.
  - cbn [pick] in E. unfold getitem in E.
    destruct (a !! c) as [v|] eqn:Ec; [|discriminate].
    rewrite (IH _ E k).
    destruct (decide (k ∈ rest)) as [Hin|Hout].
    + rewrite decide_True by (right; exact Hin). reflexivity.
    + destruct (decide (k = c)) as [->|Hne].
      * rewrite decide_True by left. rewrite lookup_insert_eq. symmetry. exact Ec.
      * rewrite decide_False.
        -- apply lookup_insert_ne. congruence.
        -- intros Hin. apply elem_of_cons in Hin as [?|?]; contradiction.
Qed.

Lemma pick_known (a : gmap string (@Asset F)) (cs : list string)
    (acc : gmap string Asset) :
  (forall k, k ∈ cs -> is_Some (a !! k)) ->
  exists m, pick a cs acc = Return m.
Proof.
  revert acc. induction cs as [|c rest IH]; intros acc Hk; [eexists; reflexivity|].
  cbn [pick]. unfold getitem.
  destruct (Hk c) as [v Ev]; [left|]. rewrite Ev.
  apply IH. intros k Hin. apply Hk. right. exact Hin.
Qed.

(** The comprehension stops at the first coin the ledger does not know. *)
Lemma pick_unknown (a : gmap string (@Asset F)) (pre post : list string)
    (c : string) (acc : gmap string Asset) :
  (forall k, k ∈ pre -> is_Some (a !! k)) ->
  a !! c = None ->
  pick a (pre ++ c :: post) acc = Raise (KeyError c).
Proof.
  revert acc. induction pre as [|k0 pre IH]; intros acc Hk Ec.
  - cbn [app pick]. unfold getitem. rewrite Ec. reflexivity.
  - cbn [app pick]. unfold getitem.
    destruct (Hk k0) as [v Ev]; [left|]. rewrite Ev.
    apply IH; [|exact Ec]. intros k Hin. apply Hk. right. exact Hin.
Qed.

Lemma get_balances_many (cs : list string) (w : World) (rows : list BalanceRow) :
  get_account conn (calls w) = Return rows ->
  cs <> [] ->
  get_balances conn (ManyCoins cs) w
  = (match pick (assets (refreshed rows w)) cs ∅ with
     | Return m => Return (SomeAssets m)
     | Raise e => Raise e
     end, refreshed rows w).
Proof.
  intros Eacc Hcs. unfold get_balances.
  rewrite (bind_return _ _ _ _ _ (refresh_answered conn w rows Eacc)).
  unfold bind, get, lift, ret. cbn [no_coins].
  destruct cs as [|c rest]; [contradiction|].
  destruct (pick (assets (refreshed rows w)) (c :: rest) ∅); reflexivity.
Qed.

(** The steps of a list of filters without LOT_SIZE filter. *)
Lemma lot_steps_none (fs : list (@Filter F)) :
  (forall f, f ∈ fs -> filterType f <> "LOT_SIZE") -> lot_steps fs = Return [].
Proof.
  induction fs as [|a rest IH]; intros Hf; [reflexivity|].
  cbn [lot_steps].
  destruct (String.eqb_spec (filterType a) "LOT_SIZE") as [E|_].
  - exfalso. exact (Hf a ltac:(left) E).
  - apply IH. intros f Hin. apply Hf. right. exact Hin.
Qed.

(** One LOT_SIZE filter without [stepSize] spoils the comprehension. *)
Lemma lot_steps_missing (fs : list (@Filter F)) (f : Filter) :
  f ∈ fs -> filterType f = "LOT_SIZE" -> stepSize f = None ->
  lot_steps fs = Raise (KeyError "stepSize").
Proof.
  induction fs as [|a rest IH]; intros Hin Ht Hs; [inversion Hin|].
  cbn [lot_steps].
  apply elem_of_cons in Hin as [<-|Hin].
  - rewrite Ht. cbn. rewrite Hs. reflexivity.
  - rewrite (IH Hin Ht Hs).
    destruct (String.eqb (filterType a) "LOT_SIZE"); [|reflexivity].
    destruct (stepSize a); reflexivity.
Qed.

Lemma lot_steps_complete (fs : list (@Filter F)) :
  (forall g, g ∈ fs -> filterType g = "LOT_SIZE" -> is_Some (stepSize g)) ->
  exists l, lot_steps fs = Return l.
Proof.
  induction fs as [|a rest IH]; intros Hg; [eexists; reflexivity|].
  cbn [lot_steps].
  destruct IH as [l El]; [intros g Hin; apply Hg; right; exact Hin|].
  rewrite El.
  destruct (String.eqb_spec (filterType a) "LOT_SIZE") as [E|_]; [|eauto].
  destruct (Hg a ltac:(left) E) as [s Es]. rewrite Es. eauto.
Qed.

Lemma lot_steps_first (pre post : list (@Filter F)) (f : Filter) (step : F) :
  (forall g, g ∈ pre -> filterType g <> "LOT_SIZE") ->
  filterType f = "LOT_SIZE" ->
  stepSize f = Some step ->
  (forall g, g ∈ post -> filterType g = "LOT_SIZE" -> is_Some (stepSize g)) ->
  exists later, lot_steps (pre ++ f :: post) = Return (step :: later).
Proof.
  intros Hpre Ht Hs Hpost.
  induction pre as [|a pre IH].
  - cbn [app lot_steps]. rewrite Ht. cbn. rewrite Hs.
    destruct (lot_steps_complete post Hpost) as [l El]. rewrite El. eauto.
  - cbn [app lot_steps].
    destruct (String.eqb_spec (filterType a) "LOT_SIZE") as [E|_].
    + exfalso. exact (Hpre a ltac:(left) E).
    + apply IH. intros g Hin. apply Hpre. right. exact Hin.
Qed.

Lemma asset_info_answered (sym : string) (w : World) (d : SymbolInfo) :
  get_symbol_info conn (calls w) sym = Return (Some d) ->
  fst (asset_info conn sym w)
  = match lot_steps (filters d) with
    | Return [] => Raise IndexError
    | Return (step :: _) =>
        Return {| info_symbol := symbol d; precision := quoteAssetPrecision d;
                  lot_size := step; more := d |}
    | Raise e => Raise e
    end.
Proof.
  intros E. unfold asset_info, call, bind, lift, raise, ret. rewrite E.
  destruct (lot_steps (filters d)) as [[|step l]|e]; reflexivity.
Qed.

End Generic.

(** X14.  [get_balances] with a non-empty list of coins: when the ledger
    knows them all, the answer is a dict with exactly these coins, each
    with its ledger entry; otherwise it raises KeyError for the first coin
    of the list the ledger does not know.  An empty list and an empty
    string are answered like no argument at all. *)
Theorem get_balances_of_list
    (F : Type) (PF : PyFloat F) (conn : @Client F) (w : World)
    (rows : list BalanceRow) (cs : list string) :
  get_account conn (calls w) = Return rows ->
  cs <> [] ->
  ((forall k, k ∈ cs -> is_Some (assets (refreshed rows w) !! k)) ->
   exists m : gmap string Asset,
     get_balances conn (ManyCoins cs) w
       = (Return (SomeAssets m), refreshed rows w) /\
     forall k : string,
       m !! k = if decide (k ∈ cs) then assets (refreshed rows w) !! k else None) /\
  (forall (pre post : list string) (c : string),
      cs = pre ++ c :: post ->
      (forall k, k ∈ pre -> is_Some (assets (refreshed rows w) !! k)) ->
      assets (refreshed rows w) !! c = None ->
      get_balances conn (ManyCoins cs) w
        = (Raise (KeyError c), refreshed rows w)) /\
  get_balances conn (ManyCoins []) w = get_balances conn NoCoins w /\
  get_balances conn (OneCoin EmptyString) w = get_balances conn NoCoins w.
Proof.
  intros Eacc Hcs. rewrite (get_balances_many conn cs w rows Eacc Hcs).
  split; [|split; [|split; reflexivity]].
  - intros Hk.
    destruct (pick_known (assets (refreshed rows w)) cs ∅ Hk) as [m Em].
    rewrite Em. exists m. split; [reflexivity|].
    intros k. rewrite (pick_returned _ _ _ _ Em k).
    destruct (decide (k ∈ cs)); [reflexivity | apply lookup_empty].
  - intros pre post c -> Hpre Ec.
    rewrite (pick_unknown _ pre post c ∅ Hpre Ec). reflexivity.
Qed.

(** Asking for USDT and DOGE on an account that lists USDT and BTC. *)
Lemma get_balances_of_list_witness :
  get_balances (quiet 1000 0 "NEW") (ManyCoins ["USDT"; "DOGE"])
      (started (quiet 1000 0 "NEW") (1 # 2))
  = (Raise (KeyError "DOGE"),
     refreshed (usdt_account 1000 0)
       (started (F := float) (quiet 1000 0 "NEW") (1 # 2))).
Proof.
  refine (proj1 (proj2 (get_balances_of_list float _ (quiet 1000 0 "NEW")
            (started (quiet 1000 0 "NEW") (1 # 2)) (usdt_account 1000 0)
            ["USDT"; "DOGE"] _ _)) ["USDT"] [] "DOGE" _ _ _).
  - vm_compute. reflexivity.
  - discriminate.
  - reflexivity.
  - intros k Hk. apply list_elem_of_singleton in Hk as ->.
    exists (plain 1000 0). vm_compute. reflexivity.
  - vm_compute. reflexivity.
Defined.

(** X15.  What [asset_info] makes of the exchange's answer: an unknown
    symbol raises TypeError; a symbol without LOT_SIZE filter raises
    IndexError; a LOT_SIZE filter without step size raises KeyError even
    when another one has a step size; and otherwise the result carries the
    quote precision and the step of the first LOT_SIZE filter. *)
Theorem asset_info_outcomes
    (F : Type) (PF : PyFloat F) (conn : @Client F) (sym : string) (w : World) :
  (get_symbol_info conn (calls w) sym = Return None ->
   fst (asset_info conn sym w) = Raise TypeError) /\
  (forall d : SymbolInfo,
      get_symbol_info conn (calls w) sym = Return (Some d) ->
      ((forall f, f ∈ filters d -> filterType f <> "LOT_SIZE") ->
       fst (asset_info conn sym w) = Raise IndexError) /\
      (forall f : Filter,
          f ∈ filters d -> filterType f = "LOT_SIZE" -> stepSize f = None ->
          fst (asset_info conn sym w) = Raise (KeyError "stepSize")) /\
      (forall (pre post : list Filter) (f : Filter) (step : F),
          filters d = pre ++ f :: post ->
          (forall g, g ∈ pre -> filterType g <> "LOT_SIZE") ->
          filterType f = "LOT_SIZE" ->
          stepSize f = Some step ->
          (forall g, g ∈ post -> filterType g = "LOT_SIZE" ->
                     is_Some (stepSize g)) ->
          fst (asset_info conn sym w)
          = Return {| info_symbol := symbol d;
                      precision := quoteAssetPrecision d;
                      lot_size := step; more := d |})).
Proof.
  split.
  - intros E. unfold asset_info, call, bind, raise. rewrite E. reflexivity.
  - intros d E. rewrite (asset_info_answered conn sym w d E).
    split; [|split].
    + intros Hf. rewrite (lot_steps_none _ Hf). reflexivity.
    + intros f Hin Ht Hs. rewrite (lot_steps_missing _ f Hin Ht Hs). reflexivity.
    + intros pre post f step Efs Hpre Ht Hs Hpost.
      destruct (lot_steps_first pre post f step Hpre Ht Hs Hpost) as [later El].
      rewrite Efs, El. reflexivity.
Qed.

(** The symbol of the examples: a PRICE_FILTER, then the LOT_SIZE filter
    with step 0.25 (binary64). *)
Lemma asset_info_outcomes_witness :
  fst (asset_info (lot_market 1000 0 (1 # 4) 2) "BTCUSDT"
         (started (lot_market 1000 0 (1 # 4) 2) (1 # 2)))
  = Return {| info_symbol := "BTCUSDT"; precision := 2; lot_size := 0.25%float;
              more := btc_symbol (1 # 4) 2 |}.
Proof.
  refine (proj2 (proj2 (proj2 (asset_info_outcomes float _
            (lot_market 1000 0 (1 # 4) 2) "BTCUSDT"
            (started (lot_market 1000 0 (1 # 4) 2) (1 # 2)))
            (btc_symbol (1 # 4) 2) _))
            [ {| filterType := "PRICE_FILTER"; stepSize := None |} ] []
            (lot_filter 0.25%float) 0.25%float _ _ _ _ _).
  - reflexivity.
  - vm_compute. reflexivity.
  - intros g Hg. apply list_elem_of_singleton in Hg as ->. discriminate.
  - reflexivity.
  - reflexivity.
  - intros g Hg. inversion Hg.
Defined.

End Lookups.

(** ** Bittrex.__init__ and the balances buy reads *)

Section BittrexBalances.
Import Bittrex BittrexInit BittrexScenario.

Section Generic.
Context {F : Type} `{PyFloat F}.

Lemma keep_positive_fold (c : string) (balances : list BalanceEntry)
    (acc : gmap string F) :
  fold_left keep_positive balances acc !! c
  = match last (stored_under c balances) with
    | Some v => Some v
    | None => acc !! c
    end.
Proof.
  revert acc. induction balances as [|i rest IH]; intros acc; [reflexivity|].
  cbn [fold_left]. rewrite IH. unfold stored_under. cbn [List.filter].
  unfold keep_positive.
  destruct (fgt (Available i) (lit 0)) eqn:Epos; cbn [andb].
  - destruct (String.eqb_spec (Currency i) c) as [Ec|Ec].
    + cbn [fmap list_fmap]. rewrite last_cons.
      fold (stored_under c rest).
      destruct (last (stored_under c rest)); [reflexivity|].
      rewrite <- Ec. apply lookup_insert_eq.
    + fold (stored_under c rest).
      destruct (last (stored_under c rest)); [reflexivity|].
      apply lookup_insert_ne. exact Ec.
  - reflexivity.
Qed.

Lemma stored_under_positive (c : string) (balances : list BalanceEntry) (v : F) :
  v ∈ stored_under c balances -> fgt v (lit 0) = true.
Proof.
  unfold stored_under. intros Hin.
  apply list_elem_of_fmap in Hin as (i & -> & Hi).
  apply list_elem_of_In, List.filter_In in Hi as [_ Hi].
  apply andb_true_iff in Hi as [Hi _]. exact Hi.
Qed.

Lemma stored_under_none (c : string) (balances : list BalanceEntry) :
  (forall i, i ∈ balances -> Currency i = c ->
             fgt (Available i) (lit 0) = false) ->
  stored_under c balances = [].
Proof.
  intros Hb. unfold stored_under.
  induction balances as [|i rest IH]; [reflexivity|].
  cbn [List.filter].
  destruct (fgt (Available i) (lit 0)) eqn:Epos; cbn [andb].
  - destruct (String.eqb_spec (Currency i) c) as [Ec|Ec].
    + rewrite (Hb i ltac:(left) Ec) in Epos. discriminate.
    + apply IH. intros j Hj. apply Hb. right. exact Hj.
  - apply IH. intros j Hj. apply Hb. right. exact Hj.
Qed.

End Generic.

(** X16.  After [Bittrex.__init__] the balance held for a currency is the
    amount of the last entry of the exchange's reply that names the
    currency with an amount above zero, and there is none when the reply
    has no such entry; so every balance held is above zero. *)
Theorem bittrex_init_balances
    (F : Type) (PF : PyFloat F) (usdt_min risk_ : F)
    (balances : list BalanceEntry) (c : string) :
  available (init usdt_min risk_ balances) !! c
    = last (stored_under c balances) /\
  forall v : F,
    available (init usdt_min risk_ balances) !! c = Some v ->
    fgt v (lit 0) = true.
Proof.
  assert (E : available (init usdt_min risk_ balances) !! c
              = last (stored_under c balances)).
  { unfold init. cbn [available]. rewrite keep_positive_fold.
    destruct (last (stored_under c balances)); [reflexivity | apply lookup_empty]. }
  split; [exact E|].
  intros v Ev. rewrite E in Ev.
  apply (stored_under_positive c balances).
  apply last_Some_elem_of. exact Ev.
Qed.

(** X17.  When no entry of the reply gives the quote currency of the
    market an amount above zero (a balance of 0 included), [Bittrex.buy]
    on the new object raises KeyError for the currency, instead of the
    failure for cash under the minimum, and sends nothing. *)
Theorem bittrex_buy_without_balance
    (F : Type) (PF : PyFloat F) (conn : @Client F) (usdt_min risk_ : F)
    (balances : list BalanceEntry) (coin : string) (amount price : F) :
  (forall i, i ∈ balances -> Currency i = split_head coin ->
             fgt (Available i) (lit 0) = false) ->
  buy conn coin amount price (init usdt_min risk_ balances)
  = (Raise (KeyError (split_head coin)), init usdt_min risk_ balances).
Proof.
  intros Hb.
  assert (E : available (init usdt_min risk_ balances) !! split_head coin = None).
  { unfold init. cbn [available]. rewrite keep_positive_fold.
    rewrite (stored_under_none _ _ Hb). apply lookup_empty. }
  unfold buy, bind, get, lift, getitem. rewrite E. reflexivity.
Qed.

(** An account with 0 USDT and 1 BTC buying on USDT-BTC (binary64). *)
Lemma bittrex_buy_without_balance_witness :
  buy obliging "USDT-BTC" 1%float 20000%float
    (init 50%float 0.5%float
       [ {| Currency := "USDT"; Available := 0%float |};
         {| Currency := "BTC"; Available := 1%float |} ])
  = (Raise (KeyError "USDT"),
     init 50%float 0.5%float
       [ {| Currency := "USDT"; Available := 0%float |};
         {| Currency := "BTC"; Available := 1%float |} ]).
Proof.
  refine (bittrex_buy_without_balance float _ obliging 50%float 0.5%float
            [ {| Currency := "USDT"; Available := 0%float |};
              {| Currency := "BTC"; Available := 1%float |} ]
            "USDT-BTC" 1%float 20000%float _).
  intros i Hi Ec.
  apply elem_of_cons in Hi as [->|Hi]; [reflexivity|].
  apply list_elem_of_singleton in Hi as ->. discriminate.
Defined.

End BittrexBalances.

(** * Further properties of aux.py *)

(** ** Dates *)

Section Dates.
Import PyStr AuxLib.

Lemma append_cons (c : ascii) (a b : string) :
  String c a +:+ b = String c (a +:+ b).
Proof. reflexivity. Qed.

Lemma any_char_app (p : ascii -> bool) (a b : string) :
  any_char p (a +:+ b) = any_char p a || any_char p b.
Proof.
  induction a as [|c a IH]; [reflexivity|].
  rewrite append_cons. cbn [any_char]. rewrite IH. apply orb_assoc.
Qed.

Lemma any_char_weaken (p q : ascii -> bool) (s : string) :
  (forall c, q c = true -> p c = true) ->
  any_char p s = false -> any_char q s = false.
Proof.
  intros Hpq. induction s as [|c s IH]; [reflexivity|].
  cbn [any_char]. intros E. apply orb_false_iff in E as [Ec Es].
  rewrite (IH Es), orb_false_r.
  destruct (q c) eqn:Eq; [|reflexivity].
  rewrite (Hpq c Eq) in Ec. discriminate.
Qed.

Lemma split_where_free (p : ascii -> bool) (s : string) :
  any_char p s = false -> split_where p s = (s, []).
Proof.
  induction s as [|c s IH]; [reflexivity|].
  cbn [any_char split_where]. intros E.
  apply orb_false_iff in E as [Ec Es]. rewrite (IH Es), Ec. reflexivity.
Qed.

Lemma split_where_app (p : ascii -> bool) (a b : string) (sep : ascii) :
  any_char p a = false -> p sep = true ->
  split_where p (a +:+ String sep b)
  = (a, let (w, ws) := split_where p b in w :: ws).
Proof.
  intros Ha Hsep. induction a as [|c a IH].
  - change (EmptyString +:+ String sep b) with (String sep b).
    cbn [split_where]. rewrite Hsep.
    destruct (split_where p b). reflexivity.
  - cbn [any_char] in Ha. apply orb_false_iff in Ha as [Ec Ea].
    rewrite append_cons. cbn [split_where]. rewrite (IH Ea), Ec. reflexivity.
Qed.

Lemma split_on_free (sep : ascii) (s : string) :
  has_char sep s = false -> split_on sep s = [s].
Proof.
  intros E. unfold split_on. rewrite (split_where_free _ s E). reflexivity.
Qed.

Lemma split_on_app (sep : ascii) (a b : string) :
  has_char sep a = false ->
  split_on sep (a +:+ String sep b) = a :: split_on sep b.
Proof.
  intros E. unfold split_on.
  rewrite (split_where_app _ a b sep E (Ascii.eqb_refl sep)).
  reflexivity.
Qed.

Lemma nonempty_app (a b : string) (c : ascii) :
  nonempty (a +:+ String c b) = true.
Proof. destruct a; reflexivity. Qed.

(** Two runs of characters with one space between them. *)
Lemma split_two (a b : string) :
  any_char isspace a = false -> any_char isspace b = false ->
  nonempty a = true -> nonempty b = true ->
  split (a +:+ String " " b) = [a; b].
Proof.
  intros Ha Hb Na Nb. unfold split.
  rewrite (split_where_app isspace a b " " Ha eq_refl).
  rewrite (split_where_free isspace b Hb).
  cbn [List.filter]. rewrite Na, Nb. reflexivity.
Qed.

Lemma date_field_parts (sep : ascii) (s : string) :
  date_field sep s = true ->
  any_char isspace s = false /\ has_char sep s = false.
Proof.
  unfold date_field. intros E. apply andb_true_iff in E as [E1 E2].
  split; apply negb_true_iff; assumption.
Qed.

Lemma no_space (s : string) :
  any_char isspace s = false -> has_char " " s = false.
Proof.
  apply any_char_weaken. intros c Ec.
  apply Ascii.eqb_eq in Ec as ->. reflexivity.
Qed.

Lemma has_char_app (c : ascii) (a b : string) :
  has_char c (a +:+ b) = has_char c a || has_char c b.
Proof. apply any_char_app. Qed.

Lemma has_char_cons (c d : ascii) (s : string) :
  has_char c (String d s) = Ascii.eqb d c || has_char c s.
Proof. reflexivity. Qed.

(** A date [d sep m sep y] or [d sep m] as the code takes it apart. *)
Lemma day_month_year_three (year : string) (sep : ascii) (d m y : string) :
  has_char sep d = false -> has_char sep m = false -> has_char sep y = false ->
  day_month_year year sep (d +:+ String sep (m +:+ String sep y))
  = Ok (d, m, y).
Proof.
  intros Hd Hm Hy. unfold day_month_year.
  rewrite (split_on_app sep d _ Hd), (split_on_app sep m _ Hm),
    (split_on_free sep y Hy).
  reflexivity.
Qed.

Lemma day_month_year_two (year : string) (sep : ascii) (d m : string) :
  has_char sep d = false -> has_char sep m = false ->
  day_month_year year sep (d +:+ String sep m) = Ok (d, m, year).
Proof.
  intros Hd Hm. unfold day_month_year.
  rewrite (split_on_app sep d _ Hd), (split_on_free sep m Hm).
  reflexivity.
Qed.

Lemma hour_minute (h mi : string) :
  has_char ":" h = false -> has_char ":" mi = false ->
  unpack2 (split_on ":" (h +:+ String ":" mi)) = Ok (h, mi).
Proof.
  intros Hh Hm.
  rewrite (split_on_app ":" h _ Hh), (split_on_free ":" mi Hm).
  reflexivity.
Qed.

(** The branch the code takes on a string whose date is written with
    [sep]: dash first, slash only without any dash. *)
Lemma get_time_right_branch (year s t_date t_time : string) (sep : ascii) :
  (if has_char " " s then unpack2 (split s) else Ok (s, "00:00"%string))
    = Ok (t_date, t_time) ->
  (sep = "-"%char /\ has_char "-" s = true) \/
  (sep = "/"%char /\ has_char "-" s = false /\ has_char "/" s = true) ->
  get_time_right year s
  = match day_month_year year sep t_date with
    | Ok (t_day, t_month, t_year) =>
        match unpack2 (split_on ":" t_time) with
        | Ok (t_hour, t_minute) =>
            Ok (t_year +:+ "-" +:+ t_month +:+ "-" +:+ t_day +:+ "T"
                +:+ t_hour +:+ ":" +:+ t_minute +:+ ":00Z")
        | ValueError => ValueError
        | UnboundLocal n => UnboundLocal n
        end
    | ValueError => ValueError
    | UnboundLocal n => UnboundLocal n
    end.
Proof.
  intros Es Hsep. unfold get_time_right. rewrite Es.
  destruct Hsep as [[-> Hd]|[-> [Hd Hs]]].
  - rewrite Hd.
    destruct (day_month_year year "-" t_date) as [[[t_day t_month] t_year]| |n];
      reflexivity.
  - rewrite Hd, Hs.
    destruct (day_month_year year "/" t_date) as [[[t_day t_month] t_year]| |n];
      reflexivity.
Qed.

Lemma first_step_spaced (date time : string) :
  any_char isspace date = false -> any_char isspace time = false ->
  nonempty date = true -> nonempty time = true ->
  (if has_char " " (date +:+ String " " time)
   then unpack2 (split (date +:+ String " " time))
   else Ok (date +:+ String " " time, "00:00"%string))
  = Ok (date, time).
Proof.
  intros Wd Wt Nd Nt.
  rewrite has_char_app, has_char_cons, orb_true_r.
  rewrite (split_two date time Wd Wt Nd Nt). reflexivity.
Qed.

Lemma first_step_plain (date : string) :
  any_char isspace date = false ->
  (if has_char " " date then unpack2 (split date)
   else Ok (date, "00:00"%string))
  = Ok (date, "00:00"%string).
Proof. intros Wd. rewrite (no_space date Wd). reflexivity. Qed.

(** Characters of a string put together from fields and separators. *)
Ltac chars :=
  repeat first [rewrite has_char_app | rewrite has_char_cons];
  repeat match goal with
         | E : any_char _ _ = false |- _ => rewrite E
         | E : has_char _ _ = false |- _ => rewrite E
         end;
  rewrite ?Ascii.eqb_refl, ?orb_true_r; try reflexivity.

(** X18.  [get_time_right] on a date written day first, with dashes, or
    with slashes when the argument has no dash at all, the fields being
    free of white space and of their separator: 'D-M-Y H:MI' becomes
    'Y-M-DTH:MI:00Z', a date without time gets the time 00:00, and a date
    without year gets the year of the clock. *)
Theorem get_time_right_day_first
    (year d m y h mi : string) (sep : ascii) :
  sep = "-"%char \/
  (sep = "/"%char /\ has_char "-" (d +:+ m +:+ y +:+ h +:+ mi) = false) ->
  date_field sep d = true -> date_field sep m = true ->
  date_field sep y = true ->
  date_field ":" h = true -> date_field ":" mi = true ->
  get_time_right year
      ((d +:+ String sep (m +:+ String sep y)) +:+ String " " (h +:+ String ":" mi))
    = Ok (y +:+ "-" +:+ m +:+ "-" +:+ d +:+ "T" +:+ h +:+ ":" +:+ mi +:+ ":00Z") /\
  get_time_right year (d +:+ String sep (m +:+ String sep y))
    = Ok (y +:+ "-" +:+ m +:+ "-" +:+ d +:+ "T00:00:00Z") /\
  get_time_right year ((d +:+ String sep m) +:+ String " " (h +:+ String ":" mi))
    = Ok (year +:+ "-" +:+ m +:+ "-" +:+ d +:+ "T" +:+ h +:+ ":" +:+ mi +:+ ":00Z").
Proof.
  intros Hsep Fd Fm Fy Fh Fmi.
  destruct (date_field_parts _ _ Fd) as [Wd Sd].
  destruct (date_field_parts _ _ Fm) as [Wm Sm].
  destruct (date_field_parts _ _ Fy) as [Wy Sy].
  destruct (date_field_parts _ _ Fh) as [Wh Ch].
  destruct (date_field_parts _ _ Fmi) as [Wmi Cmi].
  assert (Wsep : isspace sep = false).
  { destruct Hsep as [->|[-> _]]; reflexivity. }
  assert (Wtime : any_char isspace (h +:+ String ":" mi) = false).
  { rewrite any_char_app. cbn [any_char]. rewrite Wh, Wmi. reflexivity. }
  assert (Wthree : any_char isspace (d +:+ String sep (m +:+ String sep y)) = false).
  { rewrite !any_char_app. cbn [any_char]. rewrite !any_char_app. cbn [any_char].
    rewrite Wd, Wm, Wy, Wsep. reflexivity. }
  assert (Wtwo : any_char isspace (d +:+ String sep m) = false).
  { rewrite !any_char_app. cbn [any_char]. rewrite Wd, Wm, Wsep. reflexivity. }
  assert (Branch : forall s : string,
             has_char sep s = true ->
             (sep = "/"%char -> has_char "-" s = false) ->
             (sep = "-"%char /\ has_char "-" s = true) \/
             (sep = "/"%char /\ has_char "-" s = false /\ has_char "/" s = true)).
  { intros s Hs Hd. destruct Hsep as [->|[-> _]].
    - left. split; [reflexivity | exact Hs].
    - right. split; [reflexivity | split; [apply Hd; reflexivity | exact Hs]]. }
  assert (Dashes : sep = "/"%char ->
             has_char "-" d = false /\ has_char "-" m = false /\
             has_char "-" y = false /\ has_char "-" h = false /\
             has_char "-" mi = false).
  { intros Es. destruct Hsep as [->|[_ Hd]]; [discriminate|].
    rewrite !has_char_app in Hd.
    apply orb_false_iff in Hd as [H1 Hd]. apply orb_false_iff in Hd as [H2 Hd].
    apply orb_false_iff in Hd as [H3 Hd]. apply orb_false_iff in Hd as [H4 H5].
    repeat split; assumption. }
  split; [|split].
  - rewrite (get_time_right_branch year _ _ _ sep
               (first_step_spaced _ _ Wthree Wtime
                  (nonempty_app _ _ _) (nonempty_app _ _ _))).
    + rewrite (day_month_year_three year sep d m y Sd Sm Sy).
      rewrite (hour_minute h mi Ch Cmi). reflexivity.
    + apply Branch.
      * rewrite !has_char_app, !has_char_cons, Ascii.eqb_refl.
        rewrite orb_true_l, orb_true_r. reflexivity.
      * intros Es. destruct (Dashes Es) as (D1 & D2 & D3 & D4 & D5).
        subst sep. clear Sd Sm Sy Ch Cmi. chars.
  - rewrite (get_time_right_branch year _ _ _ sep (first_step_plain _ Wthree)).
    + rewrite (day_month_year_three year sep d m y Sd Sm Sy). reflexivity.
    + apply Branch.
      * rewrite !has_char_app, !has_char_cons, Ascii.eqb_refl.
        rewrite orb_true_l, orb_true_r. reflexivity.
      * intros Es. destruct (Dashes Es) as (D1 & D2 & D3 & D4 & D5).
        subst sep. clear Sd Sm Sy Ch Cmi. chars.
  - rewrite (get_time_right_branch year _ _ _ sep
               (first_step_spaced _ _ Wtwo Wtime
                  (nonempty_app _ _ _) (nonempty_app _ _ _))).
    + rewrite (day_month_year_two year sep d m Sd Sm).
      rewrite (hour_minute h mi Ch Cmi). reflexivity.
    + apply Branch.
      * rewrite !has_char_app, !has_char_cons, Ascii.eqb_refl.
        rewrite orb_true_l, orb_true_r. reflexivity.
      * intros Es. destruct (Dashes Es) as (D1 & D2 & D3 & D4 & D5).
        subst sep. clear Sd Sm Sy Ch Cmi. chars.
Qed.

(** The call of the docstring of [time_to_index]. *)
Lemma get_time_right_day_first_witness :
  get_time_right "2026" "01-02-2017 11:10" = Ok "2017-02-01T11:10:00Z"%string.
Proof.
  exact (proj1 (get_time_right_day_first "2026" "01" "02" "2017" "11" "10" "-"
                  (or_introl eq_refl) eq_refl eq_refl eq_refl eq_refl eq_refl)).
Defined.

(** X19.  An argument with neither dash nor slash never gives a result:
    [get_time_right] raises, and when the argument has no space either
    (a date such as 20170102) the exception is UnboundLocalError for
    [t_year]. *)
Theorem get_time_right_needs_separator (year s : string) :
  has_char "-" s = false -> has_char "/" s = false ->
  (forall r : string, get_time_right year s <> Ok r) /\
  (has_char " " s = false -> get_time_right year s = UnboundLocal "t_year").
Proof.
  intros Hd Hs. unfold get_time_right. rewrite Hd, Hs. split.
  - intros r.
    destruct (if has_char " " s then unpack2 (split s)
              else Ok (s, "00:00"%string)) as [[t_date t_time]| |n];
      [|discriminate|discriminate].
    destruct (unpack2 (split_on ":" t_time)) as [[t_hour t_minute]| |n];
      discriminate.
  - intros Hsp. rewrite Hsp. reflexivity.
Qed.

Lemma get_time_right_needs_separator_witness :
  get_time_right "2026" "20170102" = UnboundLocal "t_year".
Proof.
  exact (proj2 (get_time_right_needs_separator "2026" "20170102" eq_refl eq_refl)
           eq_refl).
Defined.

End Dates.

(** ** Market names *)

Section MarketNames.
Import PyStr AuxLib.

Lemma upper_char_idempotent (c : ascii) :
  upper_char (upper_char c) = upper_char c.
Proof. destruct c as [[] [] [] [] [] [] [] []]; reflexivity. Qed.

Lemma upper_char_dash (c : ascii) :
  Ascii.eqb (upper_char c) "-" = Ascii.eqb c "-".
Proof. destruct c as [[] [] [] [] [] [] [] []]; reflexivity. Qed.

Lemma upper_idempotent (s : string) : upper (upper s) = upper s.
Proof.
  induction s as [|c s IH]; [reflexivity|].
  cbn [upper]. rewrite upper_char_idempotent, IH. reflexivity.
Qed.

Lemma upper_has_dash (s : string) : has_char "-" (upper s) = has_char "-" s.
Proof.
  unfold has_char. induction s as [|c s IH]; [reflexivity|].
  cbn [upper any_char]. rewrite upper_char_dash, IH. reflexivity.
Qed.

Lemma check_binance (market : string) :
  check_market_name market "binance" = Some (upper market).
Proof. reflexivity. Qed.

Lemma check_bittrex (market : string) :
  check_market_name market "bittrex"
  = Some (if has_char "-" market then upper market
          else ("BTC-" +:+ upper market)%string).
Proof.
  unfold check_market_name. cbn [String.eqb Ascii.eqb Bool.eqb].
  rewrite upper_has_dash. destruct (has_char "-" market); reflexivity.
Qed.

Lemma check_other (market exchange : string) :
  exchange <> "binance"%string -> exchange <> "bittrex"%string ->
  check_market_name market exchange = None.
Proof.
  intros Hb Ht. unfold check_market_name.
  destruct (String.eqb_spec exchange "binance") as [Eb|_]; [contradiction|].
  destruct (String.eqb_spec exchange "bittrex") as [Et|_]; [contradiction|].
  reflexivity.
Qed.

(** X20.  [check_market_name] on an ASCII name: a name it returns is in
    upper case and is returned unchanged when checked again; on bittrex
    the result always has a dash, the name itself in upper case when it
    has one and that name after 'BTC-' otherwise; and the function returns
    None exactly for the exchanges other than binance and bittrex. *)
Theorem check_market_name_normalises (market exchange : string) :
  ascii_only market = true ->
  (forall r : string,
      check_market_name market exchange = Some r ->
      check_market_name r exchange = Some r /\ upper r = r /\
      (exchange = "bittrex"%string ->
       has_char "-" r = true /\
       r = if has_char "-" market then upper market
           else ("BTC-" +:+ upper market)%string)) /\
  (check_market_name market exchange = None <->
   exchange <> "binance"%string /\ exchange <> "bittrex"%string).
Proof.
  intros _.
  destruct (String.eqb_spec exchange "binance") as [Eb|Eb].
  - subst exchange. split.
    + intros r E. rewrite check_binance in E. injection E as <-.
      rewrite check_binance, upper_idempotent.
      split; [reflexivity | split; [reflexivity | discriminate]].
    + rewrite check_binance.
      split; [discriminate | intros [Hne _]; contradiction].
  - destruct (String.eqb_spec exchange "bittrex") as [Et|Et].
    + subst exchange. split.
      * intros r E. rewrite check_bittrex in E. injection E as <-.
        rewrite check_bittrex.
        destruct (has_char "-" market) eqn:Hd.
        -- rewrite upper_has_dash, Hd, upper_idempotent.
           repeat split; reflexivity.
        -- change (upper ("BTC-" +:+ upper market))
             with ("BTC-" +:+ upper (upper market))%string.
           rewrite upper_idempotent.
           change (has_char "-" ("BTC-" +:+ upper market)) with true.
           repeat split; reflexivity.
      * rewrite check_bittrex.
        split; [discriminate | intros [_ Hne]; contradiction].
    + rewrite (check_other market exchange Eb Et). split; [discriminate|].
      split; [intros _; split; assumption | reflexivity].
Qed.

Lemma check_market_name_normalises_witness :
  check_market_name "BTC-ETH" "bittrex" = Some "BTC-ETH"%string /\
  upper "BTC-ETH" = "BTC-ETH"%string /\
  ("bittrex"%string = "bittrex"%string ->
   has_char "-" "BTC-ETH" = true /\
   "BTC-ETH"%string = if has_char "-" "eth" then upper "eth"
                      else ("BTC-" +:+ upper "eth")%string).
Proof.
  exact (proj1 (check_market_name_normalises "eth" "bittrex" eq_refl)
           "BTC-ETH"%string eq_refl).
Defined.

End MarketNames.

(** ** Cores, files and frames *)

Section Resources.
Import AuxLib.

(** X21.  [num_processors] on a machine with [mp] cores never asks for
    more threads than cores and never for a negative number; it asks for
    no thread at all only on a machine with one core, where every level
    but 'low', 'extreme', 'max' and the number 1 gives 0. *)
Theorem num_processors_bounds (mp : Z) (level : Level) :
  1 <= mp < 2 ^ 53 ->
  0 <= num_processors mp level <= mp /\
  (num_processors mp level = 0 -> mp = 1) /\
  (mp = 1 ->
   level_is level "low" = false -> level_is level "extreme" = false ->
   level_is level "max" = false -> level <> LevelInt 1 ->
   num_processors mp level = 0).
Proof.
  intros [Hmp _].
  assert (Hq : 0 <= Z.quot mp 2 <= mp /\ (Z.quot mp 2 = 0 -> mp = 1)).
  { rewrite Z.quot_div_nonneg by lia. split.
    - split; [apply Z.div_pos; lia | apply Z.div_le_upper_bound; lia].
    - intros E. pose proof (Z.div_mod mp 2 ltac:(lia)) as Hdm.
      pose proof (Z.mod_pos_bound mp 2 ltac:(lia)). lia. }
  destruct Hq as [Hq1 Hq2].
  assert (Hhalf : mp = 1 -> Z.quot mp 2 = 0) by (intros ->; reflexivity).
  unfold num_processors.
  destruct (level_is level "low") eqn:Elow.
  { split; [lia | split; [intros; lia | intros; congruence]]. }
  destruct (level_is level "high") eqn:Ehigh.
  { split; [lia | split; intros; lia]. }
  cbn [existsb]. rewrite orb_false_r.
  destruct (level_is level "extreme") eqn:Eext; cbn [orb].
  { split; [lia | split; [intros; lia | intros; congruence]]. }
  destruct (level_is level "max") eqn:Emax.
  { split; [lia | split; [intros; lia | intros; congruence]]. }
  destruct level as [s|n|]; cbn [level_in_range].
  - split; [exact Hq1 | split; [exact Hq2 | intros; auto]].
  - destruct ((0 <? n) && (n <=? mp)) eqn:Er.
    + apply andb_true_iff in Er as [Eg El].
      apply Z.ltb_lt in Eg. apply Z.leb_le in El.
      split; [lia | split; [intros; lia|]].
      intros -> _ _ _ Hne. exfalso. apply Hne. f_equal. lia.
    + split; [exact Hq1 | split; [exact Hq2 | intros; auto]].
  - split; [exact Hq1 | split; [exact Hq2 | intros; auto]].
Qed.

(** The default level on a machine with one core. *)
Lemma num_processors_bounds_witness : num_processors 1 (LevelStr "medium") = 0.
Proof.
  refine (proj2 (proj2 (num_processors_bounds 1 (LevelStr "medium") _))
            eq_refl eq_refl eq_refl eq_refl _).
  - lia.
  - discriminate.
Defined.

Lemma count_newlines_app (a b : list ascii) :
  count_newlines (a ++ b) = count_newlines a + count_newlines b.
Proof.
  unfold count_newlines, count_char. rewrite List.filter_app, length_app. lia.
Qed.

(** What the loop adds up, whatever the size of the reads. *)
Lemma file_lines_loop_counts (buf_size : nat) (rest : list ascii) (lines : Z) :
  (0 < buf_size)%nat ->
  file_lines_loop buf_size rest lines = lines + count_newlines rest.
Proof.
  intros Hn. funelim (file_lines_loop buf_size rest lines).
  - destruct buf_size as [|n]; [lia|].
    destruct rest as [|r rest]; [|discriminate].
    unfold count_newlines, count_char. cbn. lia.
  - rewrite H by exact Hn. rewrite <- E.
    rewrite <- (take_drop buf_size rest) at 3.
    rewrite count_newlines_app. lia.
Qed.

Lemma crlf_pairs_cons (c : ascii) (rest : list ascii) :
  crlf_pairs (c :: rest)
  = (if Ascii.eqb c carriage_return && starts_with newline rest then 1 else 0)
    + crlf_pairs rest.
Proof.
  unfold crlf_pairs. destruct rest as [|d rest].
  { cbn [starts_with]. rewrite andb_false_r. reflexivity. }
  cbn [tail zip zip_with List.filter starts_with]. unfold is_crlf at 1.
  cbn [fst snd].
  destruct (Ascii.eqb c carriage_return && Ascii.eqb d newline); cbn [length]; lia.
Qed.

Lemma count_char_cons (c d : ascii) (rest : list ascii) :
  count_char c (d :: rest) = (if Ascii.eqb c d then 1 else 0) + count_char c rest.
Proof.
  unfold count_char. cbn [List.filter]. destruct (Ascii.eqb c d); cbn [length]; lia.
Qed.

(** The newlines of the translated text, counted on the file. *)
Lemma translate_count (b : bool) (chars : list ascii) :
  count_char newline (translate b chars)
  = count_char newline chars + count_char carriage_return chars - crlf_pairs chars
    - (if b && starts_with newline chars then 1 else 0).
Proof.
  revert b. induction chars as [|c rest IH]; intros b.
  - destruct b; reflexivity.
  - cbn [translate]. rewrite crlf_pairs_cons, !count_char_cons. cbn [starts_with].
    destruct (Ascii.eqb_spec c carriage_return) as [->|Hcr].
    + rewrite count_char_cons, IH. cbn. rewrite andb_false_r.
      destruct (starts_with newline rest); lia.
    + cbn [andb]. destruct (Ascii.eqb_spec c newline) as [->|Hnl].
      * destruct b.
        -- rewrite IH. cbn. lia.
        -- rewrite count_char_cons, IH. cbn. lia.
      * rewrite count_char_cons, IH.
        destruct (Ascii.eqb_spec newline c) as [E|_]; [congruence|].
        destruct (Ascii.eqb_spec carriage_return c) as [E|_]; [congruence|].
        rewrite andb_false_r. cbn. lia.
Qed.

Lemma translate_app (b : bool) (a more : list ascii) :
  translate b (a ++ more) = translate b a ++ translate (ends_with_cr b a) more.
Proof.
  revert b. induction a as [|c a IH]; intros b; [reflexivity|].
  assert (E : ends_with_cr b (c :: a)
              = ends_with_cr (Ascii.eqb c carriage_return) a).
  { unfold ends_with_cr. rewrite last_cons. destruct (last a); reflexivity. }
  cbn [app translate]. rewrite E.
  destruct (Ascii.eqb_spec c carriage_return) as [->|Hcr].
  - rewrite IH. reflexivity.
  - destruct (Ascii.eqb c newline); [destruct b|]; rewrite IH; reflexivity.
Qed.

Lemma file_lines_translated (chars : list ascii) :
  file_lines chars = count_newlines (universal_newlines chars).
Proof.
  unfold file_lines.
  rewrite file_lines_loop_counts by (apply Nat.mul_pos_pos; lia). lia.
Qed.

Lemma count_char_absent (c : ascii) (chars : list ascii) :
  c ∉ chars -> count_char c chars = 0.
Proof.
  intros Hno. induction chars as [|d rest IH]; [reflexivity|].
  rewrite count_char_cons.
  destruct (Ascii.eqb_spec c d) as [Ec|_].
  - exfalso. apply Hno. rewrite Ec. left.
  - rewrite IH; [reflexivity|]. intros Hin. apply Hno. right. exact Hin.
Qed.

Lemma crlf_pairs_bounds (chars : list ascii) :
  0 <= crlf_pairs chars <= count_char carriage_return chars.
Proof.
  induction chars as [|c rest IH]; [unfold crlf_pairs, count_char; cbn; lia|].
  rewrite crlf_pairs_cons, count_char_cons.
  destruct (Ascii.eqb_spec c carriage_return) as [->|Hcr].
  - rewrite Ascii.eqb_refl. cbn [andb].
    destruct (starts_with newline rest); lia.
  - destruct (Ascii.eqb_spec carriage_return c) as [E|_]; [congruence|].
    cbn [andb]. lia.
Qed.

(** X22.  [file_lines] returns the number of line ends of the file as the
    text mode of [open] reads them: every '\n' and every '\r', a '\r\n'
    counting once; and this however the reads of 1024 * 1024 characters
    cut the text.  So a file without '\r' gives the number of its '\n';
    the counts of two files add up when one is put after the other, less
    one when the first ends in '\r' and the second starts with '\n'; and
    what follows the last line end counts for nothing. *)
Theorem file_lines_counts_line_ends (chars : list ascii) :
  file_lines chars
    = count_char newline chars + count_char carriage_return chars
      - crlf_pairs chars /\
  (carriage_return ∉ chars -> file_lines chars = count_char newline chars) /\
  (forall more : list ascii,
      file_lines (chars ++ more)
      = file_lines chars + file_lines more
        - (if ends_with_cr false chars && starts_with newline more
           then 1 else 0)) /\
  (forall tail : list ascii,
      newline ∉ tail -> carriage_return ∉ tail ->
      file_lines (chars ++ tail) = file_lines chars).
Proof.
  assert (Hall : forall t, file_lines t
                   = count_char newline t + count_char carriage_return t
                     - crlf_pairs t).
  { intros t. rewrite file_lines_translated. unfold count_newlines,
      universal_newlines. rewrite translate_count. cbn [andb]. lia. }
  assert (Happ : forall more,
             file_lines (chars ++ more)
             = file_lines chars + file_lines more
               - (if ends_with_cr false chars && starts_with newline more
                  then 1 else 0)).
  { intros more. rewrite !file_lines_translated.
    unfold universal_newlines. rewrite translate_app, count_newlines_app.
    unfold count_newlines. rewrite !translate_count. cbn [andb]. lia. }
  split; [apply Hall|]. split; [|split].
  - intros Hno. rewrite Hall.
    pose proof (crlf_pairs_bounds chars) as Hb.
    rewrite (count_char_absent _ _ Hno) in *. lia.
  - exact Happ.
  - intros tail Hnl Hcr. rewrite Happ.
    assert (Es : starts_with newline tail = false).
    { destruct tail as [|d tail]; [reflexivity|]. cbn [starts_with].
      destruct (Ascii.eqb_spec d newline) as [->|_]; [|reflexivity].
      exfalso. apply Hnl. left. }
    rewrite Es, andb_false_r, (Hall tail).
    pose proof (crlf_pairs_bounds tail) as Hb.
    rewrite (count_char_absent _ _ Hnl), (count_char_absent _ _ Hcr) in *. lia.
Qed.

Section Frames.
Variable Row : Type.
Variable Last : Row -> float.


End Frames.


End Resources.

(** ** The exit triggers without a price *)

Section MissingPrices.

Lemma nan_spec (x : float) : PrimFloat.is_nan x = true -> Prim2SF x = S754_nan.
Proof. intros E. unfold Prim2SF. rewrite E. reflexivity. Qed.

Lemma mul_nan_l (x y : float) :
  Prim2SF x = S754_nan -> Prim2SF (PrimFloat.mul x y) = S754_nan.
Proof. intros E. rewrite mul_spec, E. reflexivity. Qed.

Lemma mul_nan_r (x y : float) :
  Prim2SF y = S754_nan -> Prim2SF (PrimFloat.mul x y) = S754_nan.
Proof. intros E. rewrite mul_spec, E. destruct (Prim2SF x); reflexivity. Qed.

Lemma sub_nan_r (x y : float) :
  Prim2SF y = S754_nan -> Prim2SF (PrimFloat.sub x y) = S754_nan.
Proof. intros E. rewrite sub_spec, E. destruct (Prim2SF x); reflexivity. Qed.

Lemma leb_nan_l (x y : float) :
  Prim2SF x = S754_nan -> PrimFloat.leb x y = false.
Proof. intros E. rewrite leb_spec, E. reflexivity. Qed.

Lemma leb_nan_r (x y : float) :
  Prim2SF y = S754_nan -> PrimFloat.leb x y = false.
Proof. intros E. rewrite leb_spec, E. destruct (Prim2SF x); reflexivity. Qed.

(** X24.  In binary64, neither exit trigger fires when the last price,
    the reference price or the percentage is NaN. *)
Theorem stop_loss_silent_on_nan (last anchor pct : float) :
  PrimFloat.is_nan last = true \/ PrimFloat.is_nan anchor = true \/
  PrimFloat.is_nan pct = true ->
  Aux.stop_loss last anchor pct = false /\
  Aux.trailing_stop_loss last anchor pct = false.
Proof.
  intros Hnan.
  assert (E : PrimFloat.leb last
                (PrimFloat.mul anchor
                   (PrimFloat.sub (lit 1) (PrimFloat.mul pct (lit (1 # 100)))))
              = false).
  { destruct Hnan as [Hl|[Ha|Hp]].
    - apply leb_nan_l, nan_spec, Hl.
    - apply leb_nan_r, mul_nan_l, nan_spec, Ha.
    - apply leb_nan_r, mul_nan_r, sub_nan_r, mul_nan_l, nan_spec, Hp. }
  split; exact E.
Qed.

(** A row of the data without last price, against an entry at 100. *)
Lemma stop_loss_silent_on_nan_witness :
  Aux.stop_loss nan 100%float 7%float = false /\
  Aux.trailing_stop_loss nan 100%float 7%float = false.
Proof.
  exact (stop_loss_silent_on_nan nan 100%float 7%float (or_introl eq_refl)).
Defined.

End MissingPrices.
